(** * AI-Powered Medical Report Simplifier: a shallow embedding

    The development follows [src/api]: [config.py] (settings),
    [services.py] (the LLM adapter, OCR, normalizer, validator and
    summarizer services) and [app.py] (the response models and the two
    pipeline routes).  Python values are embedded as a data type, exceptions
    as values, and the services run in a state-and-error monad whose state is
    the log of HTTP requests made to the model server.  Everything that the
    repository calls but does not define (the HTTP client and the model
    behind it, [json.loads], the OCR engine, pydantic's validation) is a
    field of the environment record [Env]. *)

From Stdlib Require Import ZArith List String Ascii Bool Lia.
From Stdlib Require Import Floats.SpecFloat DecimalString.
Import ListNotations.

Open Scope string_scope.
Open Scope Z_scope.

(* ================================================================== *)
(** * Part I: definitions *)
(* ================================================================== *)

(** ** Python values *)

(** A Python [float] is an IEEE-754 binary64 number. *)
Definition float : Type := spec_float.

Module Float.

Definition prec : Z := 53.
Definition emax : Z := 1024.

(** The integer [z] as an (unnormalised) pair mantissa/exponent. *)
Definition raw (z : Z) : float :=
  match z with
  | Z0 => S754_zero false
  | Zpos p => S754_finite false p 0
  | Zneg p => S754_finite true p 0
  end.

(** [x / y] on floats. *)
Definition div (x y : float) : float := SFdiv prec emax x y.

(** The correctly rounded quotient of two integers, [den <> 0]. *)
Definition ratio (num den : Z) : float := div (raw num) (raw den).

(** The literal [n.0]. *)
Definition of_int (n : Z) : float := binary_normalize prec emax n 0 false.

(** A decimal literal with [k] digits after the point: [decimal 8 1] is
    the literal [0.8], [decimal 1000 1] is [100.0]. *)
Definition decimal (digits : Z) (k : nat) : float :=
  ratio digits (10 ^ Z.of_nat k).

Definition zero : float := S754_zero false.

Definition is_zero (x : float) : bool :=
  match x with S754_zero _ => true | _ => false end.

Definition ltb (x y : float) : bool := SFltb x y.
Definition leb (x y : float) : bool := SFleb x y.

(** [n / d] rounded to the nearest integer, ties to even; [0 < d]. *)
Definition round_half_even (n d : Z) : Z :=
  let q := n / d in
  match (2 * (n mod d) ?= d) with
  | Lt => q
  | Gt => q + 1
  | Eq => if Z.even q then q else q + 1
  end.

(** The builtin [round(x, ndigits)] for [ndigits >= 0]: the exact value
    of [x] is rounded (ties to even) to a multiple of [10^-ndigits], and
    that decimal is converted back to the nearest float.  Infinities and
    NaN round to themselves, and the sign of a zero result is kept. *)
Definition round (x : float) (ndigits : nat) : float :=
  match x with
  | S754_finite s m e =>
      let p := 10 ^ Z.of_nat ndigits in
      let k := if 0 <=? e then Zpos m * 2 ^ e * p
               else round_half_even (Zpos m * p) (2 ^ (- e)) in
      if k =? 0 then S754_zero s
      else ratio (if s then - k else k) p
  | _ => x
  end.

End Float.

#[local] Set Warnings "-register-all".

Inductive pyval : Type :=
| PNone
| PBool (b : bool)
| PInt (n : Z)
| PFloat (x : float)
| PStr (s : string)
| PList (items : list pyval)
| PDict (entries : list (string * pyval)).

(** A [dict] with string keys keeps its entries in insertion order. *)
Definition dict : Type := list (string * pyval).

Fixpoint dict_get (key : string) (d : dict) : option pyval :=
  match d with
  | [] => None
  | (k, v) :: rest => if String.eqb k key then Some v else dict_get key rest
  end.

(** [key in d] *)
Definition dict_has (key : string) (d : dict) : bool :=
  match dict_get key d with Some _ => true | None => false end.

(** [d[key] = v]: an existing key keeps its position, a new one goes last. *)
Fixpoint dict_set (key : string) (v : pyval) (d : dict) : dict :=
  match d with
  | [] => [(key, v)]
  | (k, v0) :: rest =>
      if String.eqb k key then (k, v) :: rest
      else (k, v0) :: dict_set key v rest
  end.

(** [d.get(key, default)] *)
Definition dict_get_or (d : dict) (key : string) (default : pyval) : pyval :=
  match dict_get key d with Some v => v | None => default end.

(** Truth value testing ([if x], [not x], [x and y]). *)
Definition truthy (v : pyval) : bool :=
  match v with
  | PNone => false
  | PBool b => b
  | PInt n => negb (n =? 0)
  | PFloat x => negb (Float.is_zero x)
  | PStr s => negb (String.eqb s "")
  | PList items => match items with [] => false | _ => true end
  | PDict entries => match entries with [] => false | _ => true end
  end.

(** [v is None] *)
Definition is_None (v : pyval) : bool :=
  match v with PNone => true | _ => false end.

(** [v == s] for a string literal [s]. *)
Definition eq_str (v : pyval) (s : string) : bool :=
  match v with PStr s' => String.eqb s' s | _ => false end.

(** [type(v).__name__] *)
Definition type_name (v : pyval) : string :=
  match v with
  | PNone => "NoneType"
  | PBool _ => "bool"
  | PInt _ => "int"
  | PFloat _ => "float"
  | PStr _ => "str"
  | PList _ => "list"
  | PDict _ => "dict"
  end.

(** ** Exceptions *)

Inductive exn : Type :=
| Exception (msg : string)
| JSONDecodeError (msg : string)
| AttributeError (msg : string)
| TypeError (msg : string)
| KeyError (key : string)
| ZeroDivisionError (msg : string)
| OverflowError (msg : string)
| ValidationError (msg : string)
| HTTPException (status_code : Z) (detail : string)
| OtherError (class_name msg : string).

Definition str_of_int (n : Z) : string := NilZero.string_of_int (Z.to_int n).

(** [str(e)] *)
Definition str_of_exn (e : exn) : string :=
  match e with
  | Exception msg | JSONDecodeError msg | AttributeError msg | TypeError msg
  | ZeroDivisionError msg | OverflowError msg | ValidationError msg
  | OtherError _ msg => msg
  | KeyError key => "'" ++ key ++ "'"
  | HTTPException status_code detail => str_of_int status_code ++ ": " ++ detail
  end.

(** [except json.JSONDecodeError] *)
Definition is_JSONDecodeError (e : exn) : bool :=
  match e with JSONDecodeError _ => true | _ => false end.

(** The outcome of an expression that may raise. *)
Definition result (A : Type) : Type := (exn + A)%type.

Definition ret {A} (a : A) : result A := inr a.
Definition throw {A} (e : exn) : result A := inl e.
Definition bind {A B} (c : result A) (k : A -> result B) : result B :=
  match c with inl e => inl e | inr a => k a end.

Declare Scope result_scope.
Delimit Scope result_scope with result.
Notation "x <~ c ;; k" := (bind c (fun x => k))
  (at level 61, c at next level, right associativity) : result_scope.

Definition no_attribute {A} (v : pyval) (attr : string) : result A :=
  throw (AttributeError
           ("'" ++ type_name v ++ "' object has no attribute '" ++ attr ++ "'")).

(** [obj.get(key, default)]; only a dict has the method. *)
Definition py_get (obj : pyval) (key : string) (default : pyval) : result pyval :=
  match obj with
  | PDict d => ret (dict_get_or d key default)
  | _ => no_attribute obj "get"
  end.

(** [d[key]] on a dict. *)
Definition dict_item (d : dict) (key : string) : result pyval :=
  match dict_get key d with
  | Some v => ret v
  | None => throw (KeyError key)
  end.

(** The one-character strings of [s], as iterating over a [str] yields. *)
Fixpoint chars (s : string) : list pyval :=
  match s with
  | EmptyString => []
  | String c rest => PStr (String c EmptyString) :: chars rest
  end.

(** The items that [for x in v] goes through: the elements of a list, the
    keys of a dict, the characters of a string. *)
Definition py_iter (v : pyval) : result (list pyval) :=
  match v with
  | PList items => ret items
  | PDict entries => ret (map (fun kv => PStr (fst kv)) entries)
  | PStr s => ret (chars s)
  | _ => throw (TypeError ("'" ++ type_name v ++ "' object is not iterable"))
  end.

(** [len(v)] *)
Definition py_len (v : pyval) : result Z :=
  match v with
  | PList items => ret (Z.of_nat (List.length items))
  | PDict entries => ret (Z.of_nat (List.length entries))
  | PStr s => ret (Z.of_nat (String.length s))
  | _ => throw (TypeError ("object of type '" ++ type_name v ++ "' has no len()"))
  end.

(** ** Strings

    A character of a Python [str] is modelled by an [ascii], read as a code
    point below 256. *)

(** [c.isspace()] on that range. *)
Definition isspace (c : ascii) : bool :=
  let n := N_of_ascii c in
  (((9 <=? n) && (n <=? 13)) || ((28 <=? n) && (n <=? 32))
   || (n =? 133) || (n =? 160))%N.

Fixpoint str_lstrip (s : string) : string :=
  match s with
  | EmptyString => EmptyString
  | String c rest => if isspace c then str_lstrip rest else s
  end.

Fixpoint str_rstrip (s : string) : string :=
  match s with
  | EmptyString => EmptyString
  | String c rest =>
      match str_rstrip rest with
      | EmptyString => if isspace c then EmptyString else String c EmptyString
      | r => String c r
      end
  end.

(** [s.strip()] *)
Definition str_strip (s : string) : string := str_rstrip (str_lstrip s).

(** [s.find(c)]: the lowest index of the character [c], or [-1]. *)
Fixpoint str_find (c : ascii) (s : string) : Z :=
  match s with
  | EmptyString => -1
  | String a rest =>
      if Ascii.eqb a c then 0
      else let i := str_find c rest in if i =? -1 then -1 else i + 1
  end.

(** [s.rfind(c)]: the highest index of the character [c], or [-1]. *)
Fixpoint str_rfind (c : ascii) (s : string) : Z :=
  match s with
  | EmptyString => -1
  | String a rest =>
      let i := str_rfind c rest in
      if i =? -1 then (if Ascii.eqb a c then 0 else -1) else i + 1
  end.

Definition clamp_index (len i : Z) : Z :=
  if i <? 0 then Z.max 0 (i + len) else Z.min i len.

(** [s[a:b]] *)
Definition str_slice (s : string) (a b : Z) : string :=
  let len := Z.of_nat (String.length s) in
  let a' := clamp_index len a in
  let b' := clamp_index len b in
  substring (Z.to_nat a') (Z.to_nat (b' - a')) s.

(** [s.split(sep)] for a one-character separator. *)
Fixpoint str_split (sep : ascii) (s : string) : list string :=
  match s with
  | EmptyString => [EmptyString]
  | String c rest =>
      if Ascii.eqb c sep then EmptyString :: str_split sep rest
      else match str_split sep rest with
           | first :: others => String c first :: others
           | [] => [String c EmptyString]
           end
  end.

Definition newline : ascii := "010"%char.
Definition lbrace : ascii := "{"%char.
Definition rbrace : ascii := "}"%char.

(** [[line.strip() for line in text.split('\n') if line.strip()]] *)
Definition stripped_lines (text : string) : list string :=
  map str_strip
      (filter (fun line => negb (String.eqb (str_strip line) ""))
              (str_split newline text)).

(** [v.strip()]; only a [str] has the method. *)
Definition py_strip (v : pyval) : result string :=
  match v with
  | PStr s => ret (str_strip s)
  | _ => no_attribute v "strip"
  end.

(** [a / b] on integers: the correctly rounded quotient. *)
Definition int_true_div (a b : Z) : result float :=
  if b =? 0 then throw (ZeroDivisionError "division by zero")
  else match Float.ratio a b with
       | S754_infinity _ =>
           throw (OverflowError "integer division result too large for a float")
       | q => ret q
       end.

(** [x / y] on floats. *)
Definition float_div (x y : float) : result float :=
  if Float.is_zero y then throw (ZeroDivisionError "float division by zero")
  else ret (Float.div x y).

(** ** config.py *)

Module Config.

Record Settings : Type := {
  OLLAMA_URL : string;
  LLM_MODEL_NAME : string;
  LLM_MAX_TOKENS : Z;
  LLM_TEMPERATURE : float;
  API_HOST : string;
  API_PORT : Z;
  API_RELOAD : bool;
  OCR_CONFIDENCE_THRESHOLD : float;
  VALIDATION_CONFIDENCE_THRESHOLD : float;
  LOG_LEVEL : string;
  LLM_TIMEOUT : Z
}.

(** The values the class declares; the environment may override them. *)
Definition defaults : Settings := {|
  OLLAMA_URL := "http://localhost:11434";
  LLM_MODEL_NAME := "llama3.2:latest";
  LLM_MAX_TOKENS := 2048;
  LLM_TEMPERATURE := Float.decimal 1 1;
  API_HOST := "0.0.0.0";
  API_PORT := 8000;
  API_RELOAD := true;
  OCR_CONFIDENCE_THRESHOLD := Float.decimal 6 1;
  VALIDATION_CONFIDENCE_THRESHOLD := Float.decimal 7 1;
  LOG_LEVEL := "INFO";
  LLM_TIMEOUT := 300
|}.

End Config.

(** ** The collaborators *)

(** A prompt is one of the three templates of [services.py] together with
    the values interpolated into it; the fixed instruction text of each
    template is not reproduced.  The test records enter the validation and
    summary templates through [json.dumps(tests, indent=2)]. *)
Inductive prompt : Type :=
| normalization_prompt (raw_text : string)
| validation_prompt (original_text : string) (tests_json : pyval)
| summary_prompt (tests_json : pyval).

(** [f"{prompt}\n\n<directive>"] *)
Record json_prompt : Type := { base : prompt; directive : string }.

Module Options.
Record t : Type := { temperature : float; num_predict : Z }.
End Options.

Record payload : Type := {
  model : string;
  prompt_text : json_prompt;
  stream : bool;
  format : string;
  payload_options : Options.t
}.

(** The arguments of one [requests.post]. *)
Record request : Type := { url : string; json : payload; timeout : Z }.

(** What the code reads of a [requests.Response]: [json_body] is the
    outcome of [response.json()]. *)
Record Response : Type := {
  status_code : Z;
  text : string;
  json_body : result pyval
}.

Definition bytes : Type := list Byte.byte.

(** A decoded raster image, as [PIL] and [pdf2image] hand it to the OCR. *)
Inductive image : Type := Image (pixels : bytes).

(** The dict that the two OCR functions return: its three keys are fixed. *)
Record ocr_result : Type := {
  raw_text : string;
  lines : list string;
  ocr_confidence : float
}.

(** The pydantic models of [app.py] that the routes build, with the
    arguments they are built from. *)
Inductive response_model : Type :=
| OCRResponse (kwargs : ocr_result)
| NormalizedTestsResponse (kwargs : dict)
| FinalResponse (tests summary explanations status : pyval)
| ErrorResponse (status reason : pyval).

(** The annotations of the fields of the response models that are given
    as values of the pipeline. *)
Inductive annotation : Type :=
| Str_
| Float_
| List_Test
| List_Explanation.

Record Env : Type := {
  settings : Config.Settings;
  (** [requests.post], as answered by the model server: the reply may depend
      on the request and on how many requests were made before it; [inl] is
      a transport failure (connection error, timeout). *)
  requests_post : nat -> request -> result Response;
  (** [json.loads] on the text that [generate_json] cuts out, which begins
      with an opening brace or is empty: the parser returns a dict or
      raises. *)
  json_loads : string -> result dict;
  (** [Image.open(io.BytesIO(b))] *)
  Image_open : bytes -> result image;
  (** [pdf2image.convert_from_bytes] *)
  convert_from_bytes : bytes -> result (list image);
  (** The ['conf'] column of [pytesseract.image_to_data], each entry given
      by its value under [int]. *)
  image_to_data : image -> result (list Z);
  (** [pytesseract.image_to_string] *)
  image_to_string : image -> result string;
  (** [str(x)] of a float, as an f-string prints it. *)
  float_repr : float -> string;
  (** pydantic's validation of a model's arguments: [Some e] when building
      the model raises [e]. *)
  validation_error : response_model -> option exn;
  (** The value that a model holds in a field of the given annotation
      when it was built from the given argument and validation passed:
      pydantic stores the validated value, not the argument (a [Test] built
      from a dict has the declared fields only, with numbers as floats). *)
  pydantic_value : annotation -> pyval -> pyval
}.

(** A field annotated [str]: a string is held as it was given. *)
Definition str_field (E : Env) (v : pyval) : pyval :=
  match v with
  | PStr _ => v
  | _ => pydantic_value E Str_ v
  end.

(** The fields of [NormalizedTestsResponse], in the order of the model. *)
Definition NormalizedTestsResponse_fields : list (string * annotation) :=
  [("tests", List_Test); ("normalization_confidence", Float_)].

(** The fields that a model built from [**kwargs] holds: the declared ones;
    other keyword arguments are ignored. *)
Definition validated_kwargs (E : Env) (fields : list (string * annotation))
           (kwargs : dict) : dict :=
  flat_map (fun field : string * annotation =>
              match dict_get (fst field) kwargs with
              | Some v => [(fst field, pydantic_value E (snd field) v)]
              | None => []
              end) fields.

(** The model that pydantic builds from valid arguments.  The fields of an
    [OCRResponse] are given as a string, a list of strings and a float,
    which are held as given. *)
Definition model_of (E : Env) (m : response_model) : response_model :=
  match m with
  | OCRResponse kwargs => OCRResponse kwargs
  | NormalizedTestsResponse kwargs =>
      NormalizedTestsResponse (validated_kwargs E NormalizedTestsResponse_fields kwargs)
  | FinalResponse tests summary explanations status =>
      FinalResponse (pydantic_value E List_Test tests) (str_field E summary)
                    (pydantic_value E List_Explanation explanations)
                    (str_field E status)
  | ErrorResponse status reason =>
      ErrorResponse (str_field E status) (str_field E reason)
  end.

(** Building a response model. *)
Definition construct (E : Env) (m : response_model) : result response_model :=
  match validation_error E m with
  | Some e => throw e
  | None => ret (model_of E m)
  end.

(** ** Effects: the log of requests made so far *)

Definition world : Type := list request.

Definition M (A : Type) : Type := world -> result A * world.

Definition retM {A} (a : A) : M A := fun w => (inr a, w).
Definition raise {A} (e : exn) : M A := fun w => (inl e, w).
Definition lift {A} (r : result A) : M A := fun w => (r, w).
Definition bindM {A B} (c : M A) (k : A -> M B) : M B :=
  fun w => match c w with
           | (inl e, w') => (inl e, w')
           | (inr a, w') => k a w'
           end.

(** [try: body  except Exception as e: handler e] *)
Definition try_except {A} (body : M A) (handler : exn -> M A) : M A :=
  fun w => match body w with
           | (inl e, w') => handler e w'
           | (inr a, w') => (inr a, w')
           end.

(** The same for code without effects. *)
Definition try_result {A} (body : result A) (handler : exn -> result A) : result A :=
  match body with
  | inl e => handler e
  | inr a => inr a
  end.

Declare Scope M_scope.
Delimit Scope M_scope with M.
Notation "x <- c ;; k" := (bindM c (fun x => k))
  (at level 61, c at next level, right associativity) : M_scope.

(** [requests.post(url, json=payload, timeout=t)] *)
Definition post (E : Env) (r : request) : M Response :=
  fun w => (requests_post E (List.length w) r, (w ++ [r])%list).

(** ** services.py *)

Module LLMService.

Record t : Type := {
  model_name : string;
  max_tokens : Z;
  temperature : float;
  ollama_url : string;
  api_url : string
}.

Definition __init__ (E : Env) : t := {|
  model_name := Config.LLM_MODEL_NAME (settings E);
  max_tokens := Config.LLM_MAX_TOKENS (settings E);
  temperature := Config.LLM_TEMPERATURE (settings E);
  ollama_url := Config.OLLAMA_URL (settings E);
  api_url := Config.OLLAMA_URL (settings E) ++ "/api/generate"
|}.

Definition json_directive : string :=
  "You must respond with valid JSON only. Do not include any explanatory text outside the JSON.".

(** The request that [generate_json] sends for [prompt]. *)
Definition request_of (E : Env) (self : t) (prompt : prompt) : request :=
  let json_prompt := {| base := prompt; directive := json_directive |} in
  let payload := {|
    model := model_name self;
    prompt_text := json_prompt;
    stream := false;
    format := "json";
    payload_options := {| Options.temperature := temperature self;
                          Options.num_predict := max_tokens self |}
  |} in
  {| url := api_url self; json := payload;
     timeout := Config.LLM_TIMEOUT (settings E) |}.

(** What [generate_json] does with the response, once it has one. *)
Definition parse_response (E : Env) (response : Response) : result dict :=
  (if negb (status_code response =? 200) then
     throw (Exception ("Ollama API failed with status "
                         ++ str_of_int (status_code response)))
   else
   result <~ json_body response ;;
   r <~ py_get result "response" (PStr "") ;;
   response_text <~ py_strip r ;;
   if String.eqb response_text "" then
     throw (Exception "Empty response from Ollama")
   else
   (* Extract JSON from response *)
   let start_idx := str_find lbrace response_text in
   let end_idx := str_rfind rbrace response_text in
   if (start_idx =? -1) || (end_idx =? -1) then
     throw (Exception "No JSON object found in LLM response")
   else
   let json_str := str_slice response_text start_idx (end_idx + 1) in
   parsed_json <~ json_loads E json_str ;;
   ret parsed_json)%result.

(** The [try] block of [generate_json]. *)
Definition generate_json_body (E : Env) (self : t) (prompt : prompt) : M dict :=
  (response <- post E (request_of E self prompt) ;;
   lift (parse_response E response))%M.

(** The two [except] clauses: what is raised in place of [e]. *)
Definition reraise (e : exn) : exn :=
  if is_JSONDecodeError e then
    Exception ("Invalid JSON from LLM: " ++ str_of_exn e)
  else
    Exception ("LLM generation failed: " ++ str_of_exn e).

(** Generate and parse JSON response from LLM. *)
Definition generate_json (E : Env) (self : t) (prompt : prompt) : M dict :=
  try_except (generate_json_body E self prompt) (fun e => raise (reraise e)).

End LLMService.

Module OCRService.

Record t : Type := { confidence_threshold : float }.

Definition __init__ (E : Env) : t :=
  {| confidence_threshold := Config.OCR_CONFIDENCE_THRESHOLD (settings E) |}.

(** [[int(conf) for conf in ocr_data['conf'] if int(conf) > 0]] *)
Definition positive_confidences (conf : list Z) : list Z :=
  filter (fun c => 0 <? c) conf.

(** [sum(xs)] *)
Definition sum (xs : list Z) : Z := fold_left Z.add xs 0.

(** [sum(cs) / len(cs) / 100.0 if cs else 0.0] *)
Definition average_confidence (confidences : list Z) : result float :=
  match confidences with
  | [] => ret Float.zero
  | _ =>
      (mean <~ int_true_div (sum confidences)
                            (Z.of_nat (List.length confidences)) ;;
       float_div mean (Float.decimal 1000 1))%result
  end.

(** Extract text from image using Tesseract OCR. *)
Definition extract_from_image (E : Env) (self : t) (image_bytes : bytes)
  : result ocr_result :=
  try_result
    (image <~ Image_open E image_bytes ;;
     conf <~ image_to_data E image ;;
     raw_text <~ image_to_string E image ;;
     let confidences := positive_confidences conf in
     avg_confidence <~ average_confidence confidences ;;
     let lines := stripped_lines raw_text in
     ret {| raw_text := str_strip raw_text;
            lines := lines;
            ocr_confidence := Float.round avg_confidence 2 |})%result
    (fun e => throw (Exception ("OCR failed: " ++ str_of_exn e))).

(** The three accumulators of the page loop. *)
Record pages : Type := {
  all_text : list string;
  all_lines : list string;
  all_confidences : list Z
}.

(** [for page_num, image in enumerate(images, 1): ...] *)
Fixpoint process_pages (E : Env) (images : list image) (acc : pages)
  : result pages :=
  match images with
  | [] => ret acc
  | image :: rest =>
      (conf <~ image_to_data E image ;;
       page_text <~ image_to_string E image ;;
       let confidences := positive_confidences conf in
       let all_confidences' :=
         match confidences with
         | [] => all_confidences acc
         | _ => (all_confidences acc ++ confidences)%list
         end in
       let page_lines := stripped_lines page_text in
       process_pages E rest
         {| all_text := (all_text acc ++ [str_strip page_text])%list;
            all_lines := (all_lines acc ++ page_lines)%list;
            all_confidences := all_confidences' |})%result
  end.

(** Extract text from PDF by converting to images first. *)
Definition extract_from_pdf (E : Env) (self : t) (pdf_bytes : bytes)
  : result ocr_result :=
  try_result
    (images <~ convert_from_bytes E pdf_bytes ;;
     acc <~ process_pages E images
           {| all_text := []; all_lines := []; all_confidences := [] |} ;;
     avg_confidence <~ average_confidence (all_confidences acc) ;;
     let combined_text := String.concat (String newline EmptyString) (all_text acc) in
     ret {| raw_text := combined_text;
            lines := all_lines acc;
            ocr_confidence := Float.round avg_confidence 2 |})%result
    (fun e => throw (Exception ("PDF OCR failed: " ++ str_of_exn e))).

End OCRService.

Module NormalizerService.

Record t : Type := { llm : LLMService.t }.

Definition __init__ (E : Env) : t := {| llm := LLMService.__init__ E |}.

Definition _create_normalization_prompt (raw_text : string) : prompt :=
  normalization_prompt raw_text.

(** The condition under which a test is kept:
    [test.get("name") and test.get("value") is not None and
     test.get("unit") and test.get("status") and test.get("ref_range") and
     test.get("ref_range", {}).get("low") is not None and
     test.get("ref_range", {}).get("high") is not None],
    evaluated left to right and stopping at the first false operand. *)
Definition is_complete (test : pyval) : result bool :=
  (name <~ py_get test "name" PNone ;;
   if negb (truthy name) then ret false else
   value <~ py_get test "value" PNone ;;
   if is_None value then ret false else
   unit <~ py_get test "unit" PNone ;;
   if negb (truthy unit) then ret false else
   status <~ py_get test "status" PNone ;;
   if negb (truthy status) then ret false else
   ref_range <~ py_get test "ref_range" PNone ;;
   if negb (truthy ref_range) then ret false else
   ref_range_l <~ py_get test "ref_range" (PDict []) ;;
   low <~ py_get ref_range_l "low" PNone ;;
   if is_None low then ret false else
   ref_range_h <~ py_get test "ref_range" (PDict []) ;;
   high <~ py_get ref_range_h "high" PNone ;;
   ret (negb (is_None high)))%result.

(** [for test in tests: if ...: cleaned_tests.append(test)] *)
Fixpoint clean_tests (tests : list pyval) (cleaned_tests : list pyval)
  : result (list pyval) :=
  match tests with
  | [] => ret cleaned_tests
  | test :: rest =>
      (complete <~ is_complete test ;;
       clean_tests rest
         (if complete then (cleaned_tests ++ [test])%list else cleaned_tests))%result
  end.

(** The [try] block of [normalize_tests]. *)
Definition normalize_tests_body (E : Env) (self : t) (raw_text : string) : M dict :=
  (let prompt := _create_normalization_prompt raw_text in
   result <- LLMService.generate_json E (llm self) prompt ;;
   if negb (dict_has "tests" result) then
     raise (Exception "LLM response missing 'tests' field")
   else
   let result :=
     if negb (dict_has "normalization_confidence" result)
     then dict_set "normalization_confidence" (PFloat (Float.decimal 8 1)) result
     else result in
   tests <- lift (dict_item result "tests") ;;
   if negb (truthy tests) then
     retM (dict_set "tests" (PList []) result)
   else
     items <- lift (py_iter tests) ;;
     cleaned_tests <- lift (clean_tests items []) ;;
     retM (dict_set "tests" (PList cleaned_tests) result))%M.

(** Extract and normalize medical tests from raw text. *)
Definition normalize_tests (E : Env) (self : t) (raw_text : string) : M dict :=
  try_except (normalize_tests_body E self raw_text)
    (fun e => raise (Exception ("Normalization failed: " ++ str_of_exn e))).

End NormalizerService.

Module ValidatorService.

Record t : Type := { llm : LLMService.t; confidence_threshold : float }.

Definition __init__ (E : Env) : t :=
  {| llm := LLMService.__init__ E;
     confidence_threshold := Config.VALIDATION_CONFIDENCE_THRESHOLD (settings E) |}.

Definition _create_validation_prompt (original_text : string)
           (extracted_tests : pyval) : prompt :=
  validation_prompt original_text extracted_tests.

(** [{"status": "unprocessed", "reason": reason, "confidence": 0.0}] *)
Definition unprocessed (reason : string) : dict :=
  [ ("status", PStr "unprocessed");
    ("reason", PStr reason);
    ("confidence", PFloat Float.zero) ].

(** The [try] block of [validate_extraction]. *)
Definition validate_extraction_body (E : Env) (self : t)
           (original_text : string) (extracted_tests : pyval) : M dict :=
  (if negb (truthy extracted_tests) then
     retM (unprocessed "No tests extracted from input")
   else
   let prompt := _create_validation_prompt original_text extracted_tests in
   result <- LLMService.generate_json E (llm self) prompt ;;
   if negb (dict_has "status" result) then
     raise (Exception "LLM validation response missing 'status' field")
   else
   status <- lift (dict_item result "status") ;;
   let validation_response :=
     [ ("status", status);
       ("reason", dict_get_or result "reason" PNone);
       ("confidence", dict_get_or result "confidence" (PFloat Float.zero)) ] in
   let validation_response :=
     if eq_str status "ok"
     then dict_set "tests" extracted_tests validation_response
     else validation_response in
   retM validation_response)%M.

(** Validate that extracted tests are present in original text using LLM. *)
Definition validate_extraction (E : Env) (self : t)
           (original_text : string) (extracted_tests : pyval) : M dict :=
  try_except (validate_extraction_body E self original_text extracted_tests)
    (fun e => retM (unprocessed ("Validation error: " ++ str_of_exn e))).

End ValidatorService.

Module SummarizerService.

Record t : Type := { llm : LLMService.t }.

Definition __init__ (E : Env) : t := {| llm := LLMService.__init__ E |}.

Definition _create_summary_prompt (normalized_tests : pyval) : prompt :=
  summary_prompt normalized_tests.

Definition no_results : dict :=
  [ ("summary", PStr "No test results to summarize.");
    ("explanations", PList []);
    ("status", PStr "ok") ].

(** The [try] block of [generate_summary].  The log message that follows
    the checks evaluates [len(result['explanations'])]. *)
Definition generate_summary_body (E : Env) (self : t)
           (normalized_tests : pyval) : M dict :=
  (if negb (truthy normalized_tests) then
     retM no_results
   else
   let prompt := _create_summary_prompt normalized_tests in
   result <- LLMService.generate_json E (llm self) prompt ;;
   if negb (dict_has "summary" result) || negb (dict_has "explanations" result) then
     raise (Exception "LLM response missing required fields")
   else
   let result :=
     if negb (dict_has "status" result)
     then dict_set "status" (PStr "ok") result
     else result in
   explanations <- lift (dict_item result "explanations") ;;
   _ <- lift (py_len explanations) ;;
   retM result)%M.

(** Generate patient-friendly summary and explanations. *)
Definition generate_summary (E : Env) (self : t) (normalized_tests : pyval)
  : M dict :=
  try_except (generate_summary_body E self normalized_tests)
    (fun e => raise (Exception ("Summarization failed: " ++ str_of_exn e))).

End SummarizerService.

(** ** app.py *)

Module App.

(** Request model for text input. *)
Record TextInput : Type := { text_ : string }.

(** What the routes read of an uploaded file: [read] is the outcome of
    [await file.read()]. *)
Record UploadFile : Type := {
  filename : option string;
  content_type : option string;
  read : result bytes
}.

Definition ocr_service (E : Env) := OCRService.__init__ E.
Definition normalizer_service (E : Env) := NormalizerService.__init__ E.
Definition validator_service (E : Env) := ValidatorService.__init__ E.
Definition summarizer_service (E : Env) := SummarizerService.__init__ E.

(** [file.content_type.startswith(p)] *)
Definition startswith (content_type : option string) (p : string) : result bool :=
  match content_type with
  | Some s => ret (String.prefix p s)
  | None => no_attribute PNone "startswith"
  end.

(** [file.content_type == s] *)
Definition content_type_is (content_type : option string) (s : string) : bool :=
  match content_type with
  | Some s' => String.eqb s' s
  | None => false
  end.

(** [f"{file.content_type}"] *)
Definition str_of_content_type (content_type : option string) : string :=
  match content_type with Some s => s | None => "None" end.

(** [POST /ocr]  Step 1: extract text from image using OCR. *)
Definition extract_text (E : Env) (file : UploadFile) : result response_model :=
  try_result
    (file_bytes <~ read file ;;
     is_image <~ startswith (content_type file) "image/" ;;
     result <~ (if is_image then
                  OCRService.extract_from_image E (ocr_service E) file_bytes
                else if content_type_is (content_type file) "application/pdf" then
                  OCRService.extract_from_pdf E (ocr_service E) file_bytes
                else
                  throw (HTTPException 400
                           ("Unsupported file type: "
                              ++ str_of_content_type (content_type file)
                              ++ ". Please upload an image or PDF."))) ;;
     construct E (OCRResponse result))%result
    (fun e => throw (HTTPException 500 (str_of_exn e))).

(** [POST /normalize]  Step 2: normalize medical tests from raw text. *)
Definition normalize_tests (E : Env) (input_data : TextInput) : M response_model :=
  try_except
    (result <- NormalizerService.normalize_tests E (normalizer_service E)
                 (text_ input_data) ;;
     lift (construct E (NormalizedTestsResponse result)))%M
    (fun e => raise (HTTPException 500 (str_of_exn e))).

(** Steps 2 to 5, shared word for word by the two pipeline routes. *)
Definition process_raw_text (E : Env) (raw_text : string) : M response_model :=
  ((* Step 2: Normalize tests *)
   normalized_result <- NormalizerService.normalize_tests E (normalizer_service E)
                          raw_text ;;
   (* Step 3: Validate extraction (hallucination check) *)
   tests <- lift (dict_item normalized_result "tests") ;;
   validation_result <- ValidatorService.validate_extraction E (validator_service E)
                          raw_text tests ;;
   (* Check validation status *)
   status <- lift (dict_item validation_result "status") ;;
   if eq_str status "unprocessed" then
     reason <- lift (dict_item validation_result "reason") ;;
     lift (construct E (ErrorResponse (PStr "unprocessed") reason))
   else
   (* Step 4: Generate patient-friendly summary *)
   let validated_tests := dict_get_or validation_result "tests" tests in
   summary_result <- SummarizerService.generate_summary E (summarizer_service E)
                       validated_tests ;;
   (* Step 5: Combine results *)
   summary <- lift (dict_item summary_result "summary") ;;
   explanations <- lift (dict_item summary_result "explanations") ;;
   lift (construct E (FinalResponse validated_tests summary explanations
                                    (PStr "ok"))))%M.

(** [except Exception as e] of the two pipeline routes. *)
Definition processing_error (E : Env) (e : exn) : M response_model :=
  lift (construct E (ErrorResponse (PStr "unprocessed")
                                   (PStr ("Processing error: " ++ str_of_exn e)))).

(** [POST /process/text]  Complete pipeline: process text input through
    all steps. *)
Definition process_text_report (E : Env) (input_data : TextInput)
  : M response_model :=
  try_except
    ((* Step 1: Already have text, skip OCR *)
     let raw_text := text_ input_data in
     process_raw_text E raw_text)
    (processing_error E).

(** [POST /process/image]  Complete pipeline: process image input through
    all steps (OCR + normalization + summary). *)
Definition process_image_report (E : Env) (file : UploadFile)
  : M response_model :=
  try_except
    ((* Step 1: OCR *)
     file_bytes <- lift (read file) ;;
     let after_ocr (ocr_result : ocr_result) : M response_model :=
       let raw_text := raw_text ocr_result in
       (* Check OCR confidence *)
       if Float.ltb (ocr_confidence ocr_result) (Float.decimal 3 1) then
         lift (construct E (ErrorResponse (PStr "unprocessed")
                 (PStr ("OCR confidence too low: "
                          ++ float_repr E (ocr_confidence ocr_result)))))
       else
         process_raw_text E raw_text in
     is_image <- lift (startswith (content_type file) "image/") ;;
     if is_image then
       ocr_result <- lift (OCRService.extract_from_image E (ocr_service E) file_bytes) ;;
       after_ocr ocr_result
     else if content_type_is (content_type file) "application/pdf" then
       ocr_result <- lift (OCRService.extract_from_pdf E (ocr_service E) file_bytes) ;;
       after_ocr ocr_result
     else
       lift (construct E (ErrorResponse (PStr "unprocessed")
               (PStr ("Unsupported file type: "
                        ++ str_of_content_type (content_type file))))))%M
    (processing_error E).

End App.

(** ** A concrete environment

    The theorems below hold for every environment.  To run the services on
    concrete inputs, the following instance supplies a JSON reader after
    Python's [json] module, a scripted model server, an OCR engine that
    reads confidences off the bytes, and a strict reading of the pydantic
    models. *)

Module Json.

Definition dquote : ascii := "034"%char.
Definition backslash : ascii := "092"%char.

Definition decode_error {A} (msg : string) : result A :=
  throw (JSONDecodeError msg).

Definition is_whitespace (c : ascii) : bool :=
  match N_of_ascii c with
  | 32%N | 9%N | 10%N | 13%N => true
  | _ => false
  end.

Fixpoint skip_whitespace (s : string) : string :=
  match s with
  | String c rest => if is_whitespace c then skip_whitespace rest else s
  | EmptyString => s
  end.

Definition digit (c : ascii) : option Z :=
  let n := Z.of_N (N_of_ascii c) in
  if (48 <=? n) && (n <=? 57) then Some (n - 48) else None.

Definition hex_digit (c : ascii) : option Z :=
  let n := Z.of_N (N_of_ascii c) in
  if (48 <=? n) && (n <=? 57) then Some (n - 48)
  else if (65 <=? n) && (n <=? 70) then Some (n - 55)
  else if (97 <=? n) && (n <=? 102) then Some (n - 87)
  else None.

Definition hex4 (a b c d : ascii) : option Z :=
  match hex_digit a, hex_digit b, hex_digit c, hex_digit d with
  | Some x, Some y, Some z, Some w => Some (((x * 16 + y) * 16 + z) * 16 + w)
  | _, _, _, _ => None
  end.

(** The character a one-letter escape stands for. *)
Definition unescape (c : ascii) : option ascii :=
  if Ascii.eqb c dquote then Some dquote
  else if Ascii.eqb c backslash then Some backslash
  else if Ascii.eqb c "/" then Some "/"%char
  else if Ascii.eqb c "b" then Some "008"%char
  else if Ascii.eqb c "f" then Some "012"%char
  else if Ascii.eqb c "n" then Some "010"%char
  else if Ascii.eqb c "r" then Some "013"%char
  else if Ascii.eqb c "t" then Some "009"%char
  else None.

(** The body of a string literal, after its opening quote: the decoded
    text and what follows the closing quote.  An escape above U+00FF has
    no character in the model and is refused. *)
Fixpoint scanstring (s : string) : result (string * string) :=
  match s with
  | EmptyString => decode_error "Unterminated string starting at"
  | String c rest =>
      if Ascii.eqb c dquote then ret (EmptyString, rest)
      else if Ascii.eqb c backslash then
        match rest with
        | EmptyString => decode_error "Unterminated string starting at"
        | String e rest' =>
            if Ascii.eqb e "u" then
              match rest' with
              | String h1 (String h2 (String h3 (String h4 rest''))) =>
                  match hex4 h1 h2 h3 h4 with
                  | Some n =>
                      if n <? 256 then
                        (r <~ scanstring rest'' ;;
                         ret (String (ascii_of_N (Z.to_N n)) (fst r), snd r))%result
                      else throw (OtherError "UnicodeError" "code point above U+00FF")
                  | None => decode_error "Invalid \uXXXX escape"
                  end
              | _ => decode_error "Invalid \uXXXX escape"
              end
            else
              match unescape e with
              | Some a =>
                  (r <~ scanstring rest' ;; ret (String a (fst r), snd r))%result
              | None => decode_error "Invalid \escape"
              end
        end
      else if (N_of_ascii c <? 32)%N then
        decode_error "Invalid control character at"
      else
        (r <~ scanstring rest ;; ret (String c (fst r), snd r))%result
  end.

(** The longest run of decimal digits at the head of [s]. *)
Fixpoint digits (s : string) : list Z * string :=
  match s with
  | String c rest =>
      match digit c with
      | Some d => let (ds, rest') := digits rest in (d :: ds, rest')
      | None => ([], s)
      end
  | EmptyString => ([], s)
  end.

Definition number_of (ds : list Z) : Z :=
  fold_left (fun acc d => 10 * acc + d) ds 0.

(** [float(text)] for the literal [digits * 10^exp10]. *)
Definition float_of_decimal (negative : bool) (mantissa exp10 : Z) : float :=
  if mantissa =? 0 then S754_zero negative
  else
    let m := if negative then - mantissa else mantissa in
    if 0 <=? exp10
    then binary_normalize Float.prec Float.emax (m * 10 ^ exp10) 0 false
    else Float.ratio m (10 ^ (- exp10)).

(** A number at the head of [s], if there is one: an optional minus
    sign, an integer part without a leading zero, then optionally a
    point with digits, then optionally an exponent. *)
Definition scan_number (s : string) : option (pyval * string) :=
  let (negative, s1) :=
    match s with
    | String "-" r => (true, r)
    | _ => (false, s)
    end in
  match s1 with
  | EmptyString => None
  | String c r =>
      match digit c with
      | None => None
      | Some d =>
          let (int_digits, s2) :=
            if d =? 0 then ([0], r)
            else let (ds, r') := digits r in (d :: ds, r') in
          let (frac_digits, s3) :=
            match s2 with
            | String "." r2 =>
                match digits r2 with
                | ([], _) => ([], s2)
                | (fs, r3) => (fs, r3)
                end
            | _ => ([], s2)
            end in
          let (exponent, s4) :=
            match s3 with
            | String e r3 =>
                if Ascii.eqb e "e" || Ascii.eqb e "E" then
                  let (eneg, r4) :=
                    match r3 with
                    | String "-" r' => (true, r')
                    | String "+" r' => (false, r')
                    | _ => (false, r3)
                    end in
                  match digits r4 with
                  | ([], _) => (None, s3)
                  | (es, r5) =>
                      (Some (if eneg then - number_of es else number_of es), r5)
                  end
                else (None, s3)
            | EmptyString => (None, s3)
            end in
          match frac_digits, exponent with
          | [], None =>
              let n := number_of int_digits in
              Some (PInt (if negative then - n else n), s4)
          | _, _ =>
              let e := match exponent with Some e => e | None => 0 end in
              Some (PFloat (float_of_decimal negative
                              (number_of (int_digits ++ frac_digits))
                              (e - Z.of_nat (List.length frac_digits))), s4)
          end
      end
  end.

(** [s] without its first [n] characters. *)
Fixpoint drop (n : nat) (s : string) : string :=
  match n, s with
  | S n', String _ rest => drop n' rest
  | _, _ => s
  end.

(** A constant at the head of [s]. *)
Definition scan_constant (s : string) : option (pyval * string) :=
  if String.prefix "null" s then Some (PNone, drop 4 s)
  else if String.prefix "true" s then Some (PBool true, drop 4 s)
  else if String.prefix "false" s then Some (PBool false, drop 5 s)
  else if String.prefix "NaN" s then Some (PFloat S754_nan, drop 3 s)
  else if String.prefix "Infinity" s then Some (PFloat (S754_infinity false), drop 8 s)
  else if String.prefix "-Infinity" s then Some (PFloat (S754_infinity true), drop 9 s)
  else None.

(** One JSON value at the head of [s] and the text after it.  [fuel]
    bounds the nesting depth and the number of members. *)
Fixpoint scan_once (fuel : nat) (s : string) : result (pyval * string) :=
  match fuel with
  | O => throw (OtherError "RecursionError" "maximum recursion depth exceeded")
  | S fuel' =>
      match s with
      | EmptyString => decode_error "Expecting value"
      | String c rest =>
          if Ascii.eqb c dquote then
            (r <~ scanstring rest ;; ret (PStr (fst r), snd r))%result
          else if Ascii.eqb c lbrace then
            match skip_whitespace rest with
            | String "}" after => ret (PDict [], after)
            | members => scan_members fuel' members []
            end
          else if Ascii.eqb c "[" then
            match skip_whitespace rest with
            | String "]" after => ret (PList [], after)
            | elements => scan_elements fuel' elements []
            end
          else
            match scan_constant s with
            | Some r => ret r
            | None =>
                match scan_number s with
                | Some r => ret r
                | None => decode_error "Expecting value"
                end
            end
      end
  end

with scan_members (fuel : nat) (s : string) (acc : dict)
     : result (pyval * string) :=
  match fuel with
  | O => throw (OtherError "RecursionError" "maximum recursion depth exceeded")
  | S fuel' =>
      match s with
      | String c rest =>
          if Ascii.eqb c dquote then
            (key <~ scanstring rest ;;
             match skip_whitespace (snd key) with
             | String ":" after_colon =>
                 value <~ scan_once fuel' (skip_whitespace after_colon) ;;
                 let acc' := dict_set (fst key) (fst value) acc in
                 match skip_whitespace (snd value) with
                 | String "}" after => ret (PDict acc', after)
                 | String "," after =>
                     scan_members fuel' (skip_whitespace after) acc'
                 | _ => decode_error "Expecting ',' delimiter"
                 end
             | _ => decode_error "Expecting ':' delimiter"
             end)%result
          else decode_error "Expecting property name enclosed in double quotes"
      | EmptyString =>
          decode_error "Expecting property name enclosed in double quotes"
      end
  end

with scan_elements (fuel : nat) (s : string) (acc : list pyval)
     : result (pyval * string) :=
  match fuel with
  | O => throw (OtherError "RecursionError" "maximum recursion depth exceeded")
  | S fuel' =>
      (value <~ scan_once fuel' s ;;
       let acc' := (acc ++ [fst value])%list in
       match skip_whitespace (snd value) with
       | String "]" after => ret (PList acc', after)
       | String "," after => scan_elements fuel' (skip_whitespace after) acc'
       | _ => decode_error "Expecting ',' delimiter"
       end)%result
  end.

(** [json.loads(s)]: one value, with nothing but whitespace around it. *)
Definition loads (s : string) : result pyval :=
  (r <~ scan_once (S (String.length s)) (skip_whitespace s) ;;
   match skip_whitespace (snd r) with
   | EmptyString => ret (fst r)
   | _ => decode_error "Extra data"
   end)%result.

(** [json.loads] where a dict is expected. *)
Definition loads_object (s : string) : result dict :=
  (v <~ loads s ;;
   match v with
   | PDict d => ret d
   | _ => throw (TypeError ("'" ++ type_name v ++ "' object is not a dict"))
   end)%result.

(** JSON text written with apostrophes in place of double quotes. *)
Fixpoint text (s : string) : string :=
  match s with
  | EmptyString => EmptyString
  | String c rest => String (if Ascii.eqb c "'" then dquote else c) (text rest)
  end.

End Json.

Module Stub.

(** A scripted model server: the [n]-th request gets the [n]-th
    reply; past the script the connection fails. *)
Definition server (replies : list (result Response)) (n : nat) (r : request)
  : result Response :=
  nth n replies (throw (OtherError "ConnectionError" "connection refused")).

(** The reply with status 200 whose body has [completion] under
    ["response"]. *)
Definition completion (completion : string) : result Response :=
  ret {| status_code := 200;
         text := completion;
         json_body := ret (PDict [("response", PStr completion)]) |}.

Definition code_of (b : Byte.byte) : Z := Z.of_N (Byte.to_N b).

(** A non-empty byte string is an image. *)
Definition open_image (b : bytes) : result image :=
  match b with
  | [] => throw (OtherError "UnidentifiedImageError" "cannot identify image file")
  | _ => ret (Image b)
  end.

(** The pages of a document are separated by a zero byte. *)
Fixpoint split_pages (b : bytes) (page : bytes) : list image :=
  match b with
  | [] => [Image page]
  | x :: rest =>
      if code_of x =? 0 then Image page :: split_pages rest []
      else split_pages rest (page ++ [x])%list
  end.

Definition pdf_pages (b : bytes) : result (list image) :=
  match b with
  | [] => throw (OtherError "PDFPageCountError" "Unable to get page count.")
  | _ => ret (split_pages b [])
  end.

(** Every byte of an image is a token: its code is the token's
    confidence (255 stands for the [-1] of a block without text) and its
    character the token's text. *)
Definition token_confidences (i : image) : result (list Z) :=
  let (pixels) := i in
  ret (map (fun b => if code_of b =? 255 then -1 else code_of b) pixels).

Definition token_text (i : image) : result string :=
  let (pixels) := i in ret (string_of_list_byte pixels).

(** The decimal text of [k / 100] for [0 <= k <= 100]. *)
Definition str_of_hundredths (k : Z) : string :=
  if k =? 100 then "1.0"
  else if k mod 10 =? 0 then "0." ++ str_of_int (k / 10)
  else if k <? 10 then "0.0" ++ str_of_int k
  else "0." ++ str_of_int k.

(** [str(x)] for the two-decimal confidences between 0 and 1. *)
Definition str_of_confidence (x : float) : string :=
  match List.find (fun k => SFeqb (Float.ratio (Z.of_nat k) 100) x) (seq 0 101) with
  | Some k => str_of_hundredths (Z.of_nat k)
  | None => "nan"
  end.

Definition is_str (v : pyval) : bool :=
  match v with PStr _ => true | _ => false end.

Definition is_number (v : pyval) : bool :=
  match v with PInt _ | PFloat _ => true | _ => false end.

Definition field (d : dict) (key : string) (ok : pyval -> bool) : bool :=
  match dict_get key d with Some v => ok v | None => false end.

Definition is_ReferenceRange (v : pyval) : bool :=
  match v with
  | PDict d => field d "low" is_number && field d "high" is_number
  | _ => false
  end.

Definition is_Test (v : pyval) : bool :=
  match v with
  | PDict d =>
      field d "name" is_str && field d "value" is_number
      && field d "unit" is_str && field d "status" is_str
      && field d "ref_range" is_ReferenceRange
  | _ => false
  end.

Definition is_Explanation (v : pyval) : bool :=
  match v with
  | PDict d => field d "text" is_str && field d "test_name" is_str
  | _ => false
  end.

Definition is_list_of (ok : pyval -> bool) (v : pyval) : bool :=
  match v with PList items => forallb ok items | _ => false end.

Definition unit_interval (x : float) : bool :=
  Float.leb Float.zero x && Float.leb x (Float.of_int 1).

Definition is_confidence (v : pyval) : bool :=
  match v with
  | PFloat x => unit_interval x
  | PInt n => (0 <=? n) && (n <=? 1)
  | _ => false
  end.

(** The field types and bounds of the models, read strictly. *)
Definition accepts (m : response_model) : bool :=
  match m with
  | OCRResponse r => unit_interval (ocr_confidence r)
  | NormalizedTestsResponse d =>
      field d "tests" (is_list_of is_Test)
      && field d "normalization_confidence" is_confidence
  | FinalResponse tests summary explanations status =>
      is_list_of is_Test tests && is_str summary
      && is_list_of is_Explanation explanations && is_str status
  | ErrorResponse status reason => is_str status && is_str reason
  end.

Definition model_name (m : response_model) : string :=
  match m with
  | OCRResponse _ => "OCRResponse"
  | NormalizedTestsResponse _ => "NormalizedTestsResponse"
  | FinalResponse _ _ _ _ => "FinalResponse"
  | ErrorResponse _ _ => "ErrorResponse"
  end.

Definition pydantic (m : response_model) : option exn :=
  if accepts m then None
  else Some (ValidationError ("validation error for " ++ model_name m)).

(** A number as a field annotated [float] holds it. *)
Definition float_value (v : pyval) : pyval :=
  match v with
  | PInt n => PFloat (Float.of_int n)
  | _ => v
  end.

(** A dict as a model with the given fields holds it: the declared
    fields, in the order of the model, each as its annotation holds it. *)
Definition model_value (fields : list (string * (pyval -> pyval))) (v : pyval)
  : pyval :=
  match v with
  | PDict d =>
      PDict (flat_map (fun field : string * (pyval -> pyval) =>
                         match dict_get (fst field) d with
                         | Some x => [(fst field, snd field x)]
                         | None => []
                         end) fields)
  | _ => v
  end.

Definition same (v : pyval) : pyval := v.

Definition ReferenceRange_value : pyval -> pyval :=
  model_value [("low", float_value); ("high", float_value)].

Definition Test_value : pyval -> pyval :=
  model_value [("name", same); ("value", float_value); ("unit", same);
               ("status", same); ("ref_range", ReferenceRange_value)].

Definition Explanation_value : pyval -> pyval :=
  model_value [("text", same); ("test_name", same)].

Definition list_value (item : pyval -> pyval) (v : pyval) : pyval :=
  match v with
  | PList items => PList (map item items)
  | _ => v
  end.

(** What a valid model holds for an argument. *)
Definition value (a : annotation) (v : pyval) : pyval :=
  match a with
  | Str_ => v
  | Float_ => float_value v
  | List_Test => list_value Test_value v
  | List_Explanation => list_value Explanation_value v
  end.

(** The environment in which the model server answers with [replies]. *)
Definition env (replies : list (result Response)) : Env := {|
  settings := Config.defaults;
  requests_post := server replies;
  json_loads := Json.loads_object;
  Image_open := open_image;
  convert_from_bytes := pdf_pages;
  image_to_data := token_confidences;
  image_to_string := token_text;
  float_repr := str_of_confidence;
  validation_error := pydantic;
  pydantic_value := value
|}.

End Stub.

(** ** Example inputs *)

Module Example.

(** The report of the accepted scenario. *)
Definition report : App.TextInput := {| App.text_ := "Hb: 8.5 g/dL" |}.

Definition hemoglobin : pyval :=
  PDict [ ("name", PStr "Hemoglobin");
          ("value", PFloat (Float.decimal 85 1));
          ("unit", PStr "g/dL");
          ("status", PStr "low");
          ("ref_range", PDict [ ("low", PFloat (Float.decimal 120 1));
                                ("high", PFloat (Float.decimal 170 1)) ]) ].

(** An extraction with one complete record and one without a value. *)
Definition extraction : string :=
  Json.text "{'tests': [{'name': 'Hemoglobin', 'value': 8.5, 'unit': 'g/dL', 'status': 'low', 'ref_range': {'low': 12.0, 'high': 17.0}}, {'name': 'Glucose', 'value': null, 'unit': 'mg/dL', 'status': 'normal', 'ref_range': {'low': 70.0, 'high': 100.0}}], 'normalization_confidence': 0.9}".

(** A verdict wrapped in prose. *)
Definition acceptance : string :=
  Json.text "Here is my verdict: {'status': 'ok', 'confidence': 0.95} I hope this helps.".

Definition rejection : string :=
  Json.text "{'status': 'unprocessed', 'reason': 'Hemoglobin value not found in the text', 'confidence': 0.2}".

(** A verdict without a status. *)
Definition no_status : string := Json.text "{'confidence': 0.9}".

Definition summary : string :=
  Json.text "{'summary': 'Your hemoglobin is low.', 'explanations': [{'text': 'Hemoglobin carries oxygen in the blood.', 'test_name': 'Hemoglobin'}]}".

(** A ratio reported without a unit: every field is there, the unit is
    the empty string. *)
Definition inr_ratio : pyval :=
  PDict [ ("name", PStr "INR");
          ("value", PFloat (Float.decimal 11 1));
          ("unit", PStr "");
          ("status", PStr "normal");
          ("ref_range", PDict [ ("low", PFloat (Float.decimal 8 1));
                                ("high", PFloat (Float.decimal 12 1)) ]) ].

Definition unitless : string :=
  Json.text "{'tests': [{'name': 'INR', 'value': 1.1, 'unit': '', 'status': 'normal', 'ref_range': {'low': 0.8, 'high': 1.2}}]}".

(** An empty object followed by prose that has a closing brace. *)
Definition trailing_brace : string := "{} :-}".

(** An extraction whose record has whole numbers and a note besides the
    fields of a test. *)
Definition annotated : string :=
  Json.text "{'tests': [{'name': 'Hemoglobin', 'value': 8, 'unit': 'g/dL', 'status': 'low', 'ref_range': {'low': 12, 'high': 17}, 'note': 'repeat in two weeks'}], 'normalization_confidence': 0.9}".

(** Its record as extracted. *)
Definition hemoglobin_noted : pyval :=
  PDict [ ("name", PStr "Hemoglobin");
          ("value", PInt 8);
          ("unit", PStr "g/dL");
          ("status", PStr "low");
          ("ref_range", PDict [ ("low", PInt 12); ("high", PInt 17) ]);
          ("note", PStr "repeat in two weeks") ].

(** The [Test] model that pydantic builds from it. *)
Definition hemoglobin_model : pyval :=
  PDict [ ("name", PStr "Hemoglobin");
          ("value", PFloat (Float.of_int 8));
          ("unit", PStr "g/dL");
          ("status", PStr "low");
          ("ref_range", PDict [ ("low", PFloat (Float.of_int 12));
                                ("high", PFloat (Float.of_int 17)) ]) ].


(** The three scenarios: acceptance, rejection, a verdict with no status. *)
Definition accepting : Env :=
  Stub.env [Stub.completion extraction; Stub.completion acceptance;
            Stub.completion summary].


Definition statusless : Env :=
  Stub.env [Stub.completion extraction; Stub.completion no_status].

(** Acceptance of the record with the note, and a rejection without a
    reason. *)
Definition annotating : Env :=
  Stub.env [Stub.completion annotated; Stub.completion acceptance;
            Stub.completion summary].


(** A server that cannot be reached. *)
Definition offline : Env := Stub.env [].

(** An upload that is no image: it has no bytes. *)
Definition unreadable : App.UploadFile :=
  {| App.filename := Some "scan.png";
     App.content_type := Some "image/png";
     App.read := inr [] |}.

(** A document of two pages: the tokens of the first have the confidences
    90 and 90, the only token of the second has 10. *)
Definition two_pages : bytes := [Byte.x5a; Byte.x5a; Byte.x00; Byte.x0a].

(** An image whose text is the report, its tokens having high confidences. *)
Definition scan : App.UploadFile :=
  {| App.filename := Some "report.png";
     App.content_type := Some "image/png";
     App.read := inr (list_byte_of_string "Hb: 8.5 g/dL") |}.

(** The verdicts as [validate_extraction] returns them. *)
Definition rejected : dict :=
  [ ("status", PStr "unprocessed");
    ("reason", PStr "Hemoglobin value not found in the text");
    ("confidence", PFloat (Float.decimal 2 1)) ].

Definition accepted : dict :=
  [ ("status", PStr "ok");
    ("reason", PNone);
    ("confidence", PFloat (Float.decimal 95 2));
    ("tests", PList [hemoglobin]) ].

Definition accepted_noted : dict :=
  [ ("status", PStr "ok");
    ("reason", PNone);
    ("confidence", PFloat (Float.decimal 95 2));
    ("tests", PList [hemoglobin_noted]) ].


(** The report with a whole number. *)
Definition whole_report : App.TextInput := {| App.text_ := "Hb: 8 g/dL" |}.

End Example.

(** ** Vocabulary of the statements *)

(** The character [c] occurs in [s]. *)
Fixpoint occurs (c : ascii) (s : string) : bool :=
  match s with
  | EmptyString => false
  | String a rest => Ascii.eqb a c || occurs c rest
  end.


Definition is_dict (v : pyval) : bool :=
  match v with PDict _ => true | _ => false end.

(** [key] is present in [d] with a value other than [None]. *)
Definition present (d : dict) (key : string) : bool :=
  match dict_get key d with
  | Some v => negb (is_None v)
  | None => false
  end.

(** Spec: a candidate whose [name], [value], [unit], [status],
    [ref_range.low] and [ref_range.high] are all present and non-null. *)
Definition all_present (test : pyval) : bool :=
  match test with
  | PDict d =>
      present d "name" && present d "value" && present d "unit"
      && present d "status"
      && match dict_get "ref_range" d with
         | Some (PDict r) => present r "low" && present r "high"
         | _ => false
         end
  | _ => false
  end.

(** [key] is present in [d] with a value that counts as true: for a
    string, a non-empty one. *)
Definition filled (d : dict) (key : string) : bool :=
  match dict_get key d with
  | Some v => truthy v
  | None => false
  end.

(** What the filter of [normalize_tests] tests: [name], [unit] and
    [status] are filled, [value], [ref_range.low] and [ref_range.high] are
    present and non-null. *)
Definition complete (test : pyval) : bool :=
  match test with
  | PDict d =>
      filled d "name" && present d "value" && filled d "unit"
      && filled d "status"
      && match dict_get "ref_range" d with
         | Some (PDict r) => present r "low" && present r "high"
         | _ => false
         end
  | _ => false
  end.

(** A candidate of the shape the filter is written for: a JSON object
    whose [ref_range], when it has one that counts as true, is an
    object. *)
Definition well_shaped (test : pyval) : bool :=
  match test with
  | PDict d =>
      match dict_get "ref_range" d with
      | Some r => negb (truthy r) || is_dict r
      | None => true
      end
  | _ => false
  end.

(** How a call of [generate_json] ends, given the server's reply. *)
Definition outcome (E : Env) (reply : result Response) : result dict :=
  match bind reply (LLMService.parse_response E) with
  | inl e => inl (LLMService.reraise e)
  | inr d => inr d
  end.

(** The server answers with status 200 and a body that carries the text
    [completion] under "response". *)
Definition completes (reply : result Response) (completion : string) : Prop :=
  exists response body,
    reply = inr response
    /\ status_code response = 200
    /\ json_body response = inr (PDict body)
    /\ dict_get "response" body = Some (PStr completion).

(** What becomes of the parser's verdict on the text it was given. *)
Definition parsed (verdict : result dict) : result dict :=
  match verdict with
  | inr d => inr d
  | inl e => inl (LLMService.reraise e)
  end.

(** pydantic accepts an [ErrorResponse] whose status and reason are
    strings. *)
Definition accepts_strings (E : Env) : Prop :=
  forall status reason : string,
    validation_error E (ErrorResponse (PStr status) (PStr reason)) = None.

(** A run of steps 2 and 3 on [raw_text], started with the log [w]:
    extraction returns a result with [tests] in it, and validation of these
    tests returns [validation_result], leaving the log [w2]. *)
Definition validation_returns (E : Env) (raw_text : string) (w : world)
           (tests : pyval) (validation_result : dict) (w2 : world) : Prop :=
  exists (normalized_result : dict) (w1 : world),
    NormalizerService.normalize_tests E (App.normalizer_service E) raw_text w
    = (inr normalized_result, w1)
    /\ dict_get "tests" normalized_result = Some tests
    /\ ValidatorService.validate_extraction E (App.validator_service E)
         raw_text tests w1
       = (inr validation_result, w2).

(** Step 1 of the image route runs [ocr] on the uploaded file, an image or
    a PDF, with the outcome [r]. *)
Definition ocr_outcome (E : Env) (file : App.UploadFile) (r : result ocr_result)
  : Prop :=
  exists file_bytes : bytes,
    App.read file = inr file_bytes
    /\ ((App.startswith (App.content_type file) "image/" = inr true
         /\ OCRService.extract_from_image E (App.ocr_service E) file_bytes = r)
        \/ (App.startswith (App.content_type file) "image/" = inr false
            /\ App.content_type_is (App.content_type file) "application/pdf" = true
            /\ OCRService.extract_from_pdf E (App.ocr_service E) file_bytes = r)).

(** Step 1 of the image route succeeds with the text [text], at a
    confidence that lets the pipeline go on. *)
Definition acquires (E : Env) (file : App.UploadFile) (text : string) : Prop :=
  exists ocr : ocr_result,
    ocr_outcome E file (inr ocr)
    /\ Float.ltb (ocr_confidence ocr) (Float.decimal 3 1) = false
    /\ raw_text ocr = text.



(** ** Further vocabulary *)

(** What [normalize_tests] makes of the adapter's response. *)
Definition normalize_response (response : dict) : result dict :=
  if negb (dict_has "tests" response) then
    throw (Exception "LLM response missing 'tests' field")
  else
    let result :=
      if negb (dict_has "normalization_confidence" response)
      then dict_set "normalization_confidence" (PFloat (Float.decimal 8 1)) response
      else response in
    (tests <~ dict_item result "tests" ;;
     if negb (truthy tests) then ret (dict_set "tests" (PList []) result)
     else
       items <~ py_iter tests ;;
       cleaned_tests <~ NormalizerService.clean_tests items [] ;;
       ret (dict_set "tests" (PList cleaned_tests) result))%result.

(** What [generate_summary] makes of the adapter's response. *)
Definition summarize_response (response : dict) : result dict :=
  if negb (dict_has "summary" response) || negb (dict_has "explanations" response)
  then throw (Exception "LLM response missing required fields")
  else
    let result :=
      if negb (dict_has "status" response)
      then dict_set "status" (PStr "ok") response
      else response in
    (explanations <~ dict_item result "explanations" ;;
     _ <~ py_len explanations ;;
     ret result)%result.

(** A line as the OCR functions return it: not empty, with no white space
    at either end and no line break inside. *)
Definition clean_line (line : string) : Prop :=
  line <> "" /\ str_strip line = line /\ occurs newline line = false.

(** The outcome of a pipeline route: a final response with status "ok",
    or an error response with status "unprocessed". *)
Definition binary_outcome (m : response_model) : Prop :=
  (exists tests summary explanations,
      m = FinalResponse tests summary explanations (PStr "ok"))
  \/ (exists reason, m = ErrorResponse (PStr "unprocessed") reason).

(** [len(v)] is defined. *)
Definition has_len (v : pyval) : bool :=
  match v with
  | PList _ | PDict _ | PStr _ => true
  | _ => false
  end.

(** ** Further example inputs *)

Module Scenario.

(** An answer of the server with status 500. *)
Definition server_error : result Response :=
  ret {| status_code := 500;
         text := "Internal Server Error";
         json_body := throw (JSONDecodeError "Expecting value") |}.

(** An answer with status 200 whose body has no "response" entry. *)
Definition no_response_entry : result Response :=
  ret {| status_code := 200;
         text := "{}";
         json_body := ret (PDict [("done", PBool true)]) |}.

Definition failing : Env := Stub.env [server_error].
Definition mute : Env := Stub.env [no_response_entry].

Definition llm : LLMService.t := LLMService.__init__ Example.offline.

Definition ask : prompt := normalization_prompt "Hb: 8.5 g/dL".

(** Responses of the extraction stage. *)
Definition without_tests : Env :=
  Stub.env [Stub.completion (Json.text "{'normalization_confidence': 0.5}")].

Definition null_tests : Env :=
  Stub.env [Stub.completion (Json.text "{'tests': null}")].

Definition text_candidate : Env :=
  Stub.env [Stub.completion
              (Json.text "{'tests': [{'name': 'Hemoglobin'}, 'Glucose 95 mg/dL']}")].

Definition unitless : Env := Stub.env [Stub.completion Example.unitless].

(** Responses of the summarization stage. *)
Definition summary_only : Env :=
  Stub.env [Stub.completion (Json.text "{'summary': 'All good.'}")].

Definition null_explanations : Env :=
  Stub.env [Stub.completion
              (Json.text "{'summary': 'All good.', 'explanations': null}")].

Definition summarizing : Env := Stub.env [Stub.completion Example.summary].

(** A verdict "ok" with a confidence of 0.1. *)
Definition doubtful : Env :=
  Stub.env [Stub.completion (Json.text "{'status': 'ok', 'confidence': 0.1}")].

(** The model accepts, then cannot be reached for the summary. *)
Definition cut_off : Env :=
  Stub.env [Stub.completion Example.extraction; Stub.completion Example.acceptance].

(** The model answers the validation with a status of its own. *)
Definition own_status : Env :=
  Stub.env [Stub.completion Example.extraction;
            Stub.completion (Json.text "{'status': 'rejected', 'reason': 'no evidence'}");
            Stub.completion Example.summary].

Definition rejected : dict :=
  [ ("status", PStr "rejected");
    ("reason", PStr "no evidence");
    ("confidence", PFloat Float.zero) ].

(** A plain-text upload, and a scan whose two tokens have the confidences
    10 and 20. *)
Definition plain_text : App.UploadFile :=
  {| App.filename := Some "report.txt";
     App.content_type := Some "text/plain";
     App.read := inr (list_byte_of_string "Hb: 8.5 g/dL") |}.

Definition faint_scan : App.UploadFile :=
  {| App.filename := Some "faint.png";
     App.content_type := Some "image/png";
     App.read := inr [Byte.x0a; Byte.x14] |}.

(** An OCR engine that fails on the text of a page without pixels. *)
Definition blank_pages : Env := {|
  settings := Config.defaults;
  requests_post := Stub.server [];
  json_loads := Json.loads_object;
  Image_open := Stub.open_image;
  convert_from_bytes := Stub.pdf_pages;
  image_to_data := Stub.token_confidences;
  image_to_string :=
    fun i => match i with
             | Image [] => throw (OtherError "TesseractError" "empty page")
             | _ => Stub.token_text i
             end;
  float_repr := Stub.str_of_confidence;
  validation_error := Stub.pydantic;
  pydantic_value := Stub.value
|}.

(** A document whose second page has no pixels. *)
Definition with_blank_page : bytes := [Byte.x5a; Byte.x00].

End Scenario.

(* ================================================================== *)
(** * Part II: properties *)
(* ================================================================== *)

(** ** The LLM adapter *)

Section Adapter.

Variable E : Env.
Variable self : LLMService.t.

(** Every call makes exactly one request, whatever its outcome. *)
Lemma generate_json_run (p : prompt) (w : world) :
  LLMService.generate_json E self p w
  = (outcome E (requests_post E (List.length w) (LLMService.request_of E self p)),
     (w ++ [LLMService.request_of E self p])%list).
Proof.
  unfold LLMService.generate_json, LLMService.generate_json_body, outcome,
    try_except, bindM, post, lift, raise, bind.
  destruct (requests_post E _ _) as [e | response]; [reflexivity |].
  destruct (LLMService.parse_response E response); reflexivity.
Qed.

Lemma generate_json_log (p : prompt) (w : world) :
  snd (LLMService.generate_json E self p w)
  = (w ++ [LLMService.request_of E self p])%list.
Proof. rewrite generate_json_run. reflexivity. Qed.

(** Whatever is raised is a plain [Exception]. *)
Lemma generate_json_raises (p : prompt) (w w' : world) (e : exn) :
  LLMService.generate_json E self p w = (inl e, w') ->
  exists msg, e = Exception msg.
Proof.
  rewrite generate_json_run. unfold outcome. intros H.
  destruct (bind _ _) as [e0 | d]; inversion H; subst.
  unfold LLMService.reraise. destruct (is_JSONDecodeError e0); eauto.
Qed.

End Adapter.

(** ** The validation stage *)

Section Validation.

Variable E : Env.
Variable self : ValidatorService.t.
Variable original_text : string.

Lemma try_except_inl {A} (body : M A) (handler : exn -> M A) w e w' :
  body w = (inl e, w') -> try_except body handler w = handler e w'.
Proof. unfold try_except. intros ->. reflexivity. Qed.

Lemma try_except_inr {A} (body : M A) (handler : exn -> M A) w a w' :
  body w = (inr a, w') -> try_except body handler w = (inr a, w').
Proof. unfold try_except. intros ->. reflexivity. Qed.

(** What the body does once the tests count as true: one call of the
    adapter decides. *)
Lemma validate_extraction_body_call (tests : pyval) (w : world) :
  truthy tests = true ->
  ValidatorService.validate_extraction_body E self original_text tests w
  = match LLMService.generate_json E (ValidatorService.llm self)
            (validation_prompt original_text tests) w with
    | (inl e, w') => (inl e, w')
    | (inr result, w') =>
        match dict_get "status" result with
        | None =>
            (inl (Exception "LLM validation response missing 'status' field"), w')
        | Some status =>
            (inr (let response :=
                    [ ("status", status);
                      ("reason", dict_get_or result "reason" PNone);
                      ("confidence",
                       dict_get_or result "confidence" (PFloat Float.zero)) ] in
                  if eq_str status "ok" then dict_set "tests" tests response
                  else response), w')
        end
    end.
Proof.
  intros Ht.
  unfold ValidatorService.validate_extraction_body,
    ValidatorService._create_validation_prompt.
  rewrite Ht. cbn [negb]. unfold bindM.
  destruct (LLMService.generate_json _ _ _ _) as [[e | result] w']; [reflexivity |].
  unfold dict_has, dict_item, lift, raise, retM.
  destruct (dict_get "status" result) as [status |]; reflexivity.
Qed.

(** Every dict the body returns has a status. *)
Lemma validate_extraction_body_status (tests : pyval) (w w' : world) (d : dict) :
  ValidatorService.validate_extraction_body E self original_text tests w
  = (inr d, w') ->
  dict_has "status" d = true.
Proof.
  destruct (truthy tests) eqn:Ht.
  - rewrite validate_extraction_body_call by assumption.
    destruct (LLMService.generate_json _ _ _ _) as [[e | result] w1];
      [discriminate |].
    destruct (dict_get "status" result) as [status |]; [| discriminate].
    intros H. inversion H; subst. destruct (eq_str status "ok"); reflexivity.
  - unfold ValidatorService.validate_extraction_body. rewrite Ht. cbn.
    intros H. inversion H. reflexivity.
Qed.

(** C8.  Validation of an empty test list is rejected on the spot: for
    every input text the result is the same dict, with status
    "unprocessed", a non-empty reason and confidence 0.0, and the log of
    requests is left as it was, so the model is not called. *)
Theorem validate_extraction_empty :
  exists reason : string,
    reason <> ""
    /\ forall w : world,
        ValidatorService.validate_extraction E self original_text (PList []) w
        = (inr [ ("status", PStr "unprocessed");
                 ("reason", PStr reason);
                 ("confidence", PFloat (S754_zero false)) ], w).
Proof.
  exists "No tests extracted from input". split; [discriminate |].
  intros w. reflexivity.
Qed.

(** The causes of failure that the body turns into an exception. *)
Lemma validate_extraction_body_adapter_failure (tests : pyval) (w w' : world) e :
  truthy tests = true ->
  LLMService.generate_json E (ValidatorService.llm self)
    (validation_prompt original_text tests) w = (inl e, w') ->
  ValidatorService.validate_extraction_body E self original_text tests w
  = (inl e, w').
Proof.
  intros Ht Hg. rewrite validate_extraction_body_call by assumption.
  rewrite Hg. reflexivity.
Qed.

(** C7, as the code has it.  When the tests are a non-empty list and the
    parsed response of the model has no "status" key, validation does not
    raise: it returns the rejection with status "unprocessed", confidence
    0.0 and the reason
    "Validation error: LLM validation response missing 'status' field". *)
Theorem validate_extraction_missing_status
        (t : pyval) (ts : list pyval) (w w' : world) (result : dict) :
  LLMService.generate_json E (ValidatorService.llm self)
    (validation_prompt original_text (PList (t :: ts))) w = (inr result, w') ->
  dict_has "status" result = false ->
  ValidatorService.validate_extraction E self original_text (PList (t :: ts)) w
  = (inr [ ("status", PStr "unprocessed");
           ("reason",
            PStr "Validation error: LLM validation response missing 'status' field");
           ("confidence", PFloat (S754_zero false)) ], w').
Proof.
  intros Hg Hs.
  unfold ValidatorService.validate_extraction, try_except.
  rewrite validate_extraction_body_call by reflexivity.
  rewrite Hg. unfold dict_has in Hs.
  destruct (dict_get "status" result); [discriminate | reflexivity].
Qed.

End Validation.

(** ** The summarization stage *)

Section Summarization.

Variable E : Env.
Variable self : SummarizerService.t.

(** C9.  The summary of an empty test list is a fixed dict, whose summary
    is "No test results to summarize." and whose explanations are the
    empty list; the log of requests is left as it was, so the model is
    not called. *)
Theorem generate_summary_empty :
  exists d : dict,
    dict_get "summary" d = Some (PStr "No test results to summarize.")
    /\ dict_get "explanations" d = Some (PList [])
    /\ forall w : world,
        SummarizerService.generate_summary E self (PList []) w = (inr d, w).
Proof.
  exists SummarizerService.no_results.
  split; [reflexivity | split; [reflexivity |]].
  intros w. reflexivity.
Qed.

(** With tests that count as true, the stage calls the adapter once, on
    the summary prompt of these very tests. *)
Lemma generate_summary_log (tests : pyval) (w : world) :
  truthy tests = true ->
  snd (SummarizerService.generate_summary E self tests w)
  = (w ++ [LLMService.request_of E (SummarizerService.llm self)
             (summary_prompt tests)])%list.
Proof.
  intros Ht.
  unfold SummarizerService.generate_summary, try_except,
    SummarizerService.generate_summary_body,
    SummarizerService._create_summary_prompt.
  rewrite Ht. cbn [negb]. unfold bindM.
  pose proof (generate_json_log E (SummarizerService.llm self)
                (summary_prompt tests) w) as Hlog.
  destruct (LLMService.generate_json _ _ _ _) as [[e | result] w'];
    cbn [snd] in Hlog; subst w'; [reflexivity |].
  destruct (negb (dict_has "summary" result) || negb (dict_has "explanations" result));
    [reflexivity |].
  unfold lift, raise, retM.
  destruct (dict_item _ "explanations") as [e | x]; [reflexivity |].
  destruct (py_len x); reflexivity.
Qed.

End Summarization.

(** ** The extraction stage *)

Section Extraction.

(** On a candidate of the expected shape, the condition of the filter
    evaluates, without raising, to [complete]. *)
Lemma is_complete_well_shaped (test : pyval) :
  well_shaped test = true ->
  NormalizerService.is_complete test = inr (complete test).
Proof.
  destruct test as [| | | | | | d]; try discriminate.
  unfold well_shaped, NormalizerService.is_complete, complete, filled, present,
    py_get, dict_get_or, bind, ret.
  destruct (dict_get "name" d) as [name |]; cbn [truthy negb andb]; [| reflexivity].
  destruct (truthy name); cbn [negb andb]; [| reflexivity].
  destruct (dict_get "value" d) as [value |]; cbn [is_None negb andb]; [| reflexivity].
  destruct (is_None value); cbn [negb andb]; [reflexivity |].
  destruct (dict_get "unit" d) as [unit |]; cbn [truthy negb andb]; [| reflexivity].
  destruct (truthy unit); cbn [negb andb]; [| reflexivity].
  destruct (dict_get "status" d) as [status |]; cbn [truthy negb andb]; [| reflexivity].
  destruct (truthy status); cbn [negb andb]; [| reflexivity].
  destruct (dict_get "ref_range" d) as [r |]; cbn [truthy negb]; [| reflexivity].
  destruct r as [| b | n | x | s | items | r]; cbn [truthy is_dict negb orb];
    try reflexivity.
  - destruct b; [discriminate | reflexivity].
  - destruct (n =? 0); [reflexivity | discriminate].
  - destruct (Float.is_zero x); [reflexivity | discriminate].
  - destruct (String.eqb s ""); [reflexivity | discriminate].
  - destruct items; [reflexivity | discriminate].
  - intros _. destruct r as [| kv r]; [reflexivity |].
    destruct (dict_get "low" (kv :: r)) as [low |]; cbn [is_None negb andb];
      [| reflexivity].
    destruct (is_None low); cbn [negb andb]; [reflexivity |].
    destruct (dict_get "high" (kv :: r)) as [high |]; reflexivity.
Qed.

(** The loop keeps, in order, the candidates that pass the condition. *)
Lemma clean_tests_filter (tests cleaned : list pyval) :
  Forall (fun t => well_shaped t = true) tests ->
  NormalizerService.clean_tests tests cleaned
  = inr (cleaned ++ filter complete tests)%list.
Proof.
  intros H. revert cleaned.
  induction H as [| test rest Hw _ IH]; intros cleaned; cbn.
  - rewrite app_nil_r. reflexivity.
  - rewrite (is_complete_well_shaped test Hw). cbn. rewrite IH.
    destruct (complete test); [rewrite <- app_assoc |]; reflexivity.
Qed.

Lemma dict_get_set_same (key : string) (v : pyval) (d : dict) :
  dict_get key (dict_set key v d) = Some v.
Proof.
  induction d as [| [k v0] rest IH]; cbn.
  - rewrite String.eqb_refl. reflexivity.
  - destruct (String.eqb k key) eqn:Hk; cbn; rewrite Hk; [reflexivity | exact IH].
Qed.

Lemma dict_get_set_other (key key' : string) (v : pyval) (d : dict) :
  key <> key' ->
  dict_get key (dict_set key' v d) = dict_get key d.
Proof.
  intros Hne. induction d as [| [k v0] rest IH]; cbn.
  - destruct (String.eqb_spec key' key); [congruence | reflexivity].
  - destruct (String.eqb_spec k key'); cbn.
    + subst k. destruct (String.eqb_spec key' key); [congruence | reflexivity].
    + destruct (String.eqb k key); [reflexivity | exact IH].
Qed.

(** Whenever the condition of the filter evaluates without raising, its
    value is [complete]. *)
Lemma is_complete_inr (test : pyval) (b : bool) :
  NormalizerService.is_complete test = inr b -> complete test = b.
Proof.
  destruct test as [| | | | | | d]; try discriminate.
  unfold NormalizerService.is_complete, complete, filled, present,
    py_get, dict_get_or, bind, ret.
  destruct (dict_get "name" d) as [name |]; cbn [truthy negb andb];
    [| intros H; inversion H; reflexivity].
  destruct (truthy name); cbn [negb andb]; [| intros H; inversion H; reflexivity].
  destruct (dict_get "value" d) as [value |]; cbn [is_None negb andb];
    [| intros H; inversion H; reflexivity].
  destruct (is_None value); cbn [negb andb]; [intros H; inversion H; reflexivity |].
  destruct (dict_get "unit" d) as [unit |]; cbn [truthy negb andb];
    [| intros H; inversion H; reflexivity].
  destruct (truthy unit); cbn [negb andb]; [| intros H; inversion H; reflexivity].
  destruct (dict_get "status" d) as [status |]; cbn [truthy negb andb];
    [| intros H; inversion H; reflexivity].
  destruct (truthy status); cbn [negb andb]; [| intros H; inversion H; reflexivity].
  destruct (dict_get "ref_range" d) as [r |]; cbn [truthy negb];
    [| intros H; inversion H; reflexivity].
  destruct r as [| c | n | x | s | items | r]; cbn [truthy negb].
  - intros H; inversion H; reflexivity.
  - destruct c; cbn [negb]; [discriminate | intros H; inversion H; reflexivity].
  - destruct (n =? 0); cbn [negb]; [intros H; inversion H; reflexivity | discriminate].
  - destruct (Float.is_zero x); cbn [negb];
      [intros H; inversion H; reflexivity | discriminate].
  - destruct (String.eqb s ""); cbn [negb];
      [intros H; inversion H; reflexivity | discriminate].
  - destruct items; cbn [negb]; [intros H; inversion H; reflexivity | discriminate].
  - destruct r as [| kv r]; cbn [negb]; [intros H; inversion H; reflexivity |].
    destruct (dict_get "low" (kv :: r)) as [low |]; cbn [is_None negb andb];
      [| intros H; inversion H; reflexivity].
    destruct (is_None low); cbn [negb andb]; [intros H; inversion H; reflexivity |].
    destruct (dict_get "high" (kv :: r)) as [high |];
      intros H; inversion H; reflexivity.
Qed.

(** The loop, whenever it ends without raising, has kept in order the
    candidates that pass the condition. *)
Lemma clean_tests_inr (items : list pyval) :
  forall acc kept,
    NormalizerService.clean_tests items acc = inr kept ->
    kept = (acc ++ filter complete items)%list.
Proof.
  induction items as [| test rest IH]; intros acc kept; cbn.
  - intros H. inversion H. rewrite app_nil_r. reflexivity.
  - destruct (NormalizerService.is_complete test) as [e | b] eqn:Hc;
      [discriminate |].
    cbn. intros H. apply IH in H. rewrite (is_complete_inr test b Hc).
    destruct b; [rewrite <- app_assoc in H |]; exact H.
Qed.

Variable E : Env.
Variable self : NormalizerService.t.
Variable raw_text : string.

(** C1, as the code has it.  When the model's response carries a list of
    candidates under "tests": whenever [normalize_tests] returns, it
    returns under "tests" exactly the candidates that pass the filter,
    each unchanged and in their order, a candidate being kept if and only
    if its name, unit and status are present and count as true (for a
    string: non-empty) and its value, ref_range.low and ref_range.high are
    present and non-null; and it does return, with one request made, when
    every candidate is a JSON object whose ref_range is absent, counts as
    false or is an object. *)
Theorem normalize_tests_filter
        (w w' : world) (response : dict) (candidates : list pyval) :
  LLMService.generate_json E (NormalizerService.llm self)
    (normalization_prompt raw_text) w = (inr response, w') ->
  dict_get "tests" response = Some (PList candidates) ->
  (forall (result : dict) (w'' : world),
      NormalizerService.normalize_tests E self raw_text w = (inr result, w'') ->
      w'' = w'
      /\ dict_get "tests" result = Some (PList (filter complete candidates)))
  /\ (forall t, In t (filter complete candidates)
                <-> In t candidates /\ complete t = true)
  /\ (Forall (fun t => well_shaped t = true) candidates ->
      exists result : dict,
        NormalizerService.normalize_tests E self raw_text w = (inr result, w')).
Proof.
  intros Hg Ht.
  set (response1 :=
         if negb (dict_has "normalization_confidence" response)
         then dict_set "normalization_confidence"
                (PFloat (Float.decimal 8 1)) response
         else response).
  assert (Ht1 : dict_get "tests" response1 = Some (PList candidates)).
  { subst response1. destruct (negb _); [| exact Ht].
    rewrite dict_get_set_other by discriminate. exact Ht. }
  assert (Hrun : NormalizerService.normalize_tests E self raw_text w
                 = (match NormalizerService.clean_tests candidates [] with
                    | inl e => inl (Exception ("Normalization failed: " ++ str_of_exn e))
                    | inr kept => inr (dict_set "tests" (PList kept) response1)
                    end, w')).
  { unfold NormalizerService.normalize_tests, try_except,
      NormalizerService.normalize_tests_body,
      NormalizerService._create_normalization_prompt, bindM.
    rewrite Hg. unfold dict_has at 1. rewrite Ht. cbn [negb].
    fold response1. unfold lift, dict_item. rewrite Ht1. cbn [ret].
    destruct candidates as [| c cs]; [reflexivity |].
    cbn [truthy negb py_iter ret].
    destruct (NormalizerService.clean_tests (c :: cs) []); reflexivity. }
  rewrite Hrun. split; [| split].
  - intros result w'' H.
    destruct (NormalizerService.clean_tests candidates []) as [e | kept] eqn:Hc;
      [discriminate |].
    inversion H; subst. split; [reflexivity |].
    rewrite (clean_tests_inr candidates [] kept Hc).
    apply dict_get_set_same.
  - intros t. apply filter_In.
  - intros Hw. rewrite clean_tests_filter by assumption.
    eexists. reflexivity.
Qed.

End Extraction.

(** ** Strings: stripping, searching and slicing *)

Section Strings.

Lemma lstrip_app (p s : string) (c : ascii) :
  isspace c = false ->
  str_lstrip (p ++ String c s) = str_lstrip p ++ String c s.
Proof.
  intros Hc. induction p as [| a p IH]; cbn.
  - rewrite Hc. reflexivity.
  - destruct (isspace a); [exact IH | reflexivity].
Qed.

Lemma rstrip_app (s q : string) (c : ascii) :
  isspace c = false ->
  str_rstrip (s ++ String c q) = s ++ String c (str_rstrip q).
Proof.
  intros Hc. induction s as [| a s IH]; cbn.
  - rewrite Hc. destruct (str_rstrip q); reflexivity.
  - rewrite IH. destruct s; reflexivity.
Qed.

Lemma append_assoc (a b c : string) : (a ++ b) ++ c = a ++ (b ++ c).
Proof. induction a as [| x a IH]; cbn; [reflexivity | rewrite IH; reflexivity]. Qed.

Lemma append_empty_r (a : string) : a ++ "" = a.
Proof. induction a as [| x a IH]; cbn; [reflexivity | rewrite IH; reflexivity]. Qed.

Lemma length_append (a b : string) :
  String.length (a ++ b) = (String.length a + String.length b)%nat.
Proof. induction a as [| x a IH]; cbn; [reflexivity | rewrite IH; reflexivity]. Qed.

Lemma occurs_append (c : ascii) (a b : string) :
  occurs c (a ++ b) = occurs c a || occurs c b.
Proof.
  induction a as [| x a IH]; cbn; [reflexivity |].
  rewrite IH. apply orb_assoc.
Qed.

Lemma occurs_lstrip (c : ascii) (s : string) :
  occurs c s = false -> occurs c (str_lstrip s) = false.
Proof.
  induction s as [| a s IH]; cbn; [reflexivity |].
  intros H. apply orb_false_iff in H as [Ha Hs].
  destruct (isspace a); [auto |]. cbn. rewrite Ha, Hs. reflexivity.
Qed.

Lemma occurs_rstrip (c : ascii) (s : string) :
  occurs c s = false -> occurs c (str_rstrip s) = false.
Proof.
  induction s as [| a s IH]; cbn; [reflexivity |].
  intros H. apply orb_false_iff in H as [Ha Hs]. specialize (IH Hs).
  destruct (str_rstrip s) eqn:Hr.
  - destruct (isspace a); cbn; [reflexivity | rewrite Ha; reflexivity].
  - cbn. cbn in IH. rewrite Ha. exact IH.
Qed.

Lemma occurs_strip (c : ascii) (s : string) :
  occurs c s = false -> occurs c (str_strip s) = false.
Proof. intros H. apply occurs_rstrip, occurs_lstrip, H. Qed.

(** The result of a search is [-1] or an index of the string. *)
Lemma str_find_range (c : ascii) (s : string) :
  -1 <= str_find c s < Z.of_nat (String.length s) \/ (s = "" /\ str_find c s = -1).
Proof.
  induction s as [| a s IH]; [right; split; reflexivity |].
  left. cbn [str_find String.length]. destruct (Ascii.eqb a c); [lia |].
  destruct (Z.eqb_spec (str_find c s) (-1)); lia.
Qed.

Lemma str_rfind_range (c : ascii) (s : string) :
  -1 <= str_rfind c s < Z.of_nat (String.length s) \/ (s = "" /\ str_rfind c s = -1).
Proof.
  induction s as [| a s IH]; [right; split; reflexivity |].
  left. cbn [str_rfind String.length].
  destruct (Z.eqb_spec (str_rfind c s) (-1)); [destruct (Ascii.eqb a c); lia | lia].
Qed.

Lemma str_find_absent (c : ascii) (s : string) :
  occurs c s = false -> str_find c s = -1.
Proof.
  induction s as [| a s IH]; cbn; [reflexivity |].
  intros H. apply orb_false_iff in H as [Ha Hs].
  rewrite Ha, (IH Hs). reflexivity.
Qed.

Lemma str_rfind_absent (c : ascii) (s : string) :
  occurs c s = false -> str_rfind c s = -1.
Proof.
  induction s as [| a s IH]; cbn; [reflexivity |].
  intros H. apply orb_false_iff in H as [Ha Hs].
  rewrite Ha, (IH Hs). reflexivity.
Qed.

(** The first occurrence: nothing before it is the character. *)
Lemma str_find_first (c : ascii) (p s : string) :
  occurs c p = false ->
  str_find c (p ++ String c s) = Z.of_nat (String.length p).
Proof.
  induction p as [| a p IH]; cbn [append str_find occurs String.length].
  - intros _. rewrite Ascii.eqb_refl. reflexivity.
  - intros H. apply orb_false_iff in H as [Ha Hp].
    rewrite Ha, (IH Hp).
    destruct (Z.eqb_spec (Z.of_nat (String.length p)) (-1)); lia.
Qed.

(** The last occurrence: nothing after it is the character. *)
Lemma str_rfind_last (c : ascii) (s q : string) :
  occurs c q = false ->
  str_rfind c (s ++ String c q) = Z.of_nat (String.length s).
Proof.
  intros Hq. induction s as [| a s IH]; cbn [append str_rfind String.length].
  - rewrite (str_rfind_absent c q Hq), Ascii.eqb_refl. reflexivity.
  - rewrite IH. destruct (Z.eqb_spec (Z.of_nat (String.length s)) (-1)); lia.
Qed.

Lemma str_rfind_app_absent (c : ascii) (s q : string) :
  occurs c q = false ->
  str_rfind c (s ++ q) = str_rfind c s.
Proof.
  intros Hq. induction s as [| a s IH]; cbn [append str_rfind].
  - apply str_rfind_absent, Hq.
  - rewrite IH. reflexivity.
Qed.

Lemma substring_skip (p s : string) (n : nat) :
  substring (String.length p) n (p ++ s) = substring 0 n s.
Proof. induction p as [| a p IH]; cbn; [reflexivity | exact IH]. Qed.

Lemma substring_prefix (s q : string) :
  substring 0 (String.length s) (s ++ q) = s.
Proof.
  induction s as [| a s IH]; cbn.
  - destruct q; reflexivity.
  - rewrite IH. reflexivity.
Qed.

Lemma substring_none (n : nat) (s : string) : substring n 0 s = "".
Proof.
  revert n. induction s as [| a s IH]; intros [| n]; cbn; auto.
Qed.

(** Slicing from the first opening brace to the last closing brace cuts
    out the text between them, braces included. *)
Lemma str_slice_between (p mid q : string) (a b : ascii) :
  str_slice (p ++ String a (mid ++ String b q))
            (Z.of_nat (String.length p))
            (Z.of_nat (String.length (p ++ String a mid)) + 1)
  = String a (mid ++ String b "").
Proof.
  unfold str_slice, clamp_index.
  rewrite !length_append. cbn [String.length]. rewrite !length_append.
  cbn [String.length].
  destruct (Z.ltb_spec (Z.of_nat (String.length p)) 0); [lia |].
  destruct (Z.ltb_spec (Z.of_nat (String.length p + S (String.length mid)) + 1) 0);
    [lia |].
  rewrite Z.min_l by lia. rewrite Z.min_l by lia.
  rewrite Nat2Z.id.
  replace (Z.to_nat _) with (String.length (String a (mid ++ String b "")))
    by (cbn [String.length]; rewrite length_append; cbn [String.length]; lia).
  rewrite substring_skip.
  replace (String a (mid ++ String b q)) with (String a (mid ++ String b "") ++ q).
  - apply substring_prefix.
  - cbn. rewrite append_assoc. reflexivity.
Qed.

(** When the bounds do not enclose anything, the slice is empty. *)
Lemma str_slice_empty (s : string) (a b : Z) :
  0 <= a <= Z.of_nat (String.length s) -> 0 <= b <= a ->
  str_slice s a b = "".
Proof.
  intros Ha Hb. unfold str_slice, clamp_index.
  destruct (Z.ltb_spec a 0); [lia |]. destruct (Z.ltb_spec b 0); [lia |].
  replace (Z.to_nat (Z.min b _ - Z.min a _)) with 0%nat by lia.
  apply substring_none.
Qed.

(** Stripping a text that holds a brace-delimited part leaves that part
    alone. *)
Lemma str_strip_around (p mid q : string) :
  str_strip (p ++ String lbrace (mid ++ String rbrace q))
  = str_lstrip p ++ String lbrace (mid ++ String rbrace (str_rstrip q)).
Proof.
  unfold str_strip. rewrite lstrip_app by reflexivity.
  replace (str_lstrip p ++ String lbrace (mid ++ String rbrace q))
    with ((str_lstrip p ++ String lbrace mid) ++ String rbrace q)
    by (rewrite append_assoc; reflexivity).
  rewrite rstrip_app by reflexivity.
  rewrite append_assoc. reflexivity.
Qed.

End Strings.

(** ** The adapter's single repair: first opening to last closing brace *)

Section Repair.

Variable E : Env.
Variable self : LLMService.t.
Variable p : prompt.
Variable w : world.

Let reply : result Response :=
  requests_post E (List.length w) (LLMService.request_of E self p).

Lemma occurs_lstrip_keeps (c : ascii) (s : string) :
  isspace c = false -> occurs c (str_lstrip s) = occurs c s.
Proof.
  intros Hc. induction s as [| a s IH]; cbn; [reflexivity |].
  destruct (isspace a) eqn:Ha; [| reflexivity].
  rewrite IH. destruct (Ascii.eqb_spec a c); [congruence | reflexivity].
Qed.

Lemma str_rfind_present (c : ascii) (s : string) :
  occurs c s = true -> 0 <= str_rfind c s.
Proof.
  induction s as [| a s IH]; cbn; [discriminate |].
  intros H. destruct (Z.eqb_spec (str_rfind c s) (-1)) as [Hr | Hr].
  - destruct (Ascii.eqb a c); [lia |]. cbn in H. specialize (IH H). lia.
  - pose proof (str_rfind_range c s). lia.
Qed.

(** The response handling, for a reply that carries a completion. *)
Lemma outcome_completion (completion : string) :
  completes reply completion ->
  outcome E reply
  = let response_text := str_strip completion in
    if String.eqb response_text "" then
      inl (LLMService.reraise (Exception "Empty response from Ollama"))
    else
      let start_idx := str_find lbrace response_text in
      let end_idx := str_rfind rbrace response_text in
      if (start_idx =? -1) || (end_idx =? -1) then
        inl (LLMService.reraise (Exception "No JSON object found in LLM response"))
      else parsed (json_loads E (str_slice response_text start_idx (end_idx + 1))).
Proof.
  intros (response & body & Hr & Hs & Hj & Hb).
  unfold outcome. rewrite Hr. cbn [bind].
  unfold LLMService.parse_response. rewrite Hs, Hj. cbn [Z.eqb Pos.eqb negb bind].
  unfold py_get, dict_get_or. rewrite Hb. cbn [ret bind py_strip].
  destruct (String.eqb (str_strip completion) ""); [reflexivity |].
  cbv zeta.
  destruct ((str_find lbrace (str_strip completion) =? -1)
            || (str_rfind rbrace (str_strip completion) =? -1)); [reflexivity |].
  unfold parsed, bind, ret. destruct (json_loads E _); reflexivity.
Qed.

(** C3, as the code has it.  For a completion returned by the model:
    (1) when the completion is some prose without an opening brace, then
    a text from an opening to a closing brace, then some prose without a
    closing brace, the adapter hands exactly that text, braces included, to
    the JSON parser and returns what the parser returns: the parsed object,
    or an error if the parser raises, with no other attempt;
    (2) when the completion has no opening brace or no closing brace, the
    adapter raises;
    (3) when the first opening brace comes after the last closing brace,
    the parser is given the empty text. *)
Theorem generate_json_first_to_last_brace (completion : string) :
  completes reply completion ->
  (forall prose1 object prose2 : string,
      completion = prose1 ++ String lbrace (object ++ String rbrace prose2) ->
      occurs lbrace prose1 = false ->
      occurs rbrace prose2 = false ->
      fst (LLMService.generate_json E self p w)
      = parsed (json_loads E (String lbrace (object ++ String rbrace ""))))
  /\ (occurs lbrace completion = false \/ occurs rbrace completion = false ->
      exists msg, fst (LLMService.generate_json E self p w) = inl (Exception msg))
  /\ (forall before after : string,
         completion = before ++ String lbrace after ->
         occurs lbrace before = false ->
         occurs rbrace before = true ->
         occurs rbrace after = false ->
         fst (LLMService.generate_json E self p w) = parsed (json_loads E "")).
Proof.
  intros Hc. rewrite generate_json_run. cbn [fst]. fold reply.
  rewrite (outcome_completion completion Hc). cbv zeta.
  split; [| split].
  - intros prose1 object prose2 -> H1 H2.
    rewrite str_strip_around.
    set (P := str_lstrip prose1). set (Q := str_rstrip prose2).
    set (T := P ++ String lbrace (object ++ String rbrace Q)).
    assert (HP : occurs lbrace P = false) by (apply occurs_lstrip, H1).
    assert (HQ : occurs rbrace Q = false) by (apply occurs_rstrip, H2).
    assert (Hne : String.eqb T "" = false) by (subst T; destruct P; reflexivity).
    assert (Hfind : str_find lbrace T = Z.of_nat (String.length P))
      by (apply str_find_first, HP).
    assert (Hrfind : str_rfind rbrace T
                     = Z.of_nat (String.length (P ++ String lbrace object))).
    { subst T.
      replace (P ++ String lbrace (object ++ String rbrace Q))
        with ((P ++ String lbrace object) ++ String rbrace Q)
        by (rewrite append_assoc; reflexivity).
      apply str_rfind_last, HQ. }
    rewrite Hne, Hfind, Hrfind.
    destruct (Z.eqb_spec (Z.of_nat (String.length P)) (-1)); [lia |].
    destruct (Z.eqb_spec (Z.of_nat (String.length (P ++ String lbrace object))) (-1));
      [lia |].
    cbn [orb]. subst T. rewrite str_slice_between. reflexivity.
  - intros Hno.
    destruct (String.eqb (str_strip completion) ""); [eexists; reflexivity |].
    assert (Hidx : (str_find lbrace (str_strip completion) =? -1)
                   || (str_rfind rbrace (str_strip completion) =? -1) = true).
    { destruct Hno as [H | H].
      - rewrite (str_find_absent _ _ (occurs_strip _ _ H)). reflexivity.
      - rewrite (str_rfind_absent _ _ (occurs_strip _ _ H)).
        apply orb_true_r. }
    rewrite Hidx. eexists; reflexivity.
  - intros before after -> H1 H2 H3.
    unfold str_strip. rewrite lstrip_app by reflexivity.
    rewrite rstrip_app by reflexivity.
    set (P := str_lstrip before). set (Q := str_rstrip after).
    set (T := P ++ String lbrace Q).
    assert (HP : occurs lbrace P = false) by (apply occurs_lstrip, H1).
    assert (HP' : occurs rbrace P = true)
      by (subst P; rewrite occurs_lstrip_keeps by reflexivity; exact H2).
    assert (HQ : occurs rbrace (String lbrace Q) = false)
      by (cbn; apply occurs_rstrip, H3).
    assert (Hne : String.eqb T "" = false) by (subst T; destruct P; reflexivity).
    assert (Hfind : str_find lbrace T = Z.of_nat (String.length P))
      by (apply str_find_first, HP).
    assert (Hrfind : str_rfind rbrace T = str_rfind rbrace P)
      by (apply str_rfind_app_absent, HQ).
    pose proof (str_rfind_present rbrace P HP') as Hlo.
    pose proof (str_rfind_range rbrace P) as Hhi.
    rewrite Hne, Hfind, Hrfind.
    destruct (Z.eqb_spec (Z.of_nat (String.length P)) (-1)); [lia |].
    destruct (Z.eqb_spec (str_rfind rbrace P) (-1)); [lia |].
    cbn [orb]. rewrite str_slice_empty; [reflexivity | |].
    + subst T. rewrite length_append. lia.
    + lia.
Qed.

End Repair.

(** ** The validation stage: what becomes of failures *)

Section Totality.

Variable E : Env.
Variable self : ValidatorService.t.
Variable original_text : string.
Variable tests : pyval.
Variable w : world.

Let validation_request : request :=
  LLMService.request_of E (ValidatorService.llm self)
    (validation_prompt original_text tests).

Let reply : result Response :=
  requests_post E (List.length w) validation_request.

(** A validation of tests that count as true is one call of the adapter,
    whose outcome decides the result. *)
Lemma validate_extraction_run :
  truthy tests = true ->
  ValidatorService.validate_extraction E self original_text tests w
  = (match outcome E reply with
     | inl e =>
         inr (ValidatorService.unprocessed ("Validation error: " ++ str_of_exn e))
     | inr result =>
         match dict_get "status" result with
         | None =>
             inr (ValidatorService.unprocessed
                    "Validation error: LLM validation response missing 'status' field")
         | Some status =>
             inr (let response :=
                    [ ("status", status);
                      ("reason", dict_get_or result "reason" PNone);
                      ("confidence",
                       dict_get_or result "confidence" (PFloat Float.zero)) ] in
                  if eq_str status "ok" then dict_set "tests" tests response
                  else response)
         end
     end, (w ++ [validation_request])%list).
Proof.
  intros Ht. unfold ValidatorService.validate_extraction, try_except.
  rewrite validate_extraction_body_call by assumption.
  rewrite generate_json_run. fold validation_request. fold reply.
  destruct (outcome E reply) as [e | result]; [reflexivity |].
  destruct (dict_get "status" result); reflexivity.
Qed.


(** C10.  [validate_extraction] never raises: it always returns a dict
    with a "status" key.  For tests that count as true, every failure of
    the one call of the adapter ends in the rejection with status
    "unprocessed", confidence 0.0 and the non-empty reason
    "Validation error: " followed by the text of the exception, the request
    made being the only addition to the log: whatever the adapter raises,
    and in particular a request that fails, an answer with a status other
    than 200, a completion that is missing or blank, one without braces,
    one that the parser refuses; and so does a parsed response without a
    "status" key. *)
Theorem validate_extraction_total :
  (exists d w',
      ValidatorService.validate_extraction E self original_text tests w
      = (inr d, w')
      /\ dict_has "status" d = true)
  /\ (truthy tests = true ->
      let run := ValidatorService.validate_extraction E self original_text tests w in
      let rejection (reason : string) : result dict * world :=
        (inr [ ("status", PStr "unprocessed");
               ("reason", PStr reason);
               ("confidence", PFloat (S754_zero false)) ],
         (w ++ [validation_request])%list) in
      (forall e : exn,
          fst (LLMService.generate_json E (ValidatorService.llm self)
                 (validation_prompt original_text tests) w) = inl e ->
          run = rejection ("Validation error: " ++ str_of_exn e)
          /\ "Validation error: " ++ str_of_exn e <> "")
      /\ (forall e0 : exn,
             reply = inl e0 ->
             run = rejection ("Validation error: "
                                ++ str_of_exn (LLMService.reraise e0)))
      /\ (forall response : Response,
             reply = inr response ->
             status_code response <> 200 ->
             run = rejection
                     ("Validation error: LLM generation failed: Ollama API failed with status "
                        ++ str_of_int (status_code response)))
      /\ (forall (response : Response) (body : dict),
             reply = inr response ->
             status_code response = 200 ->
             json_body response = inr (PDict body) ->
             (dict_get "response" body = None
              \/ exists completion,
                  dict_get "response" body = Some (PStr completion)
                  /\ str_strip completion = "") ->
             run = rejection
                     "Validation error: LLM generation failed: Empty response from Ollama")
      /\ (forall completion : string,
             completes reply completion ->
             str_strip completion <> "" ->
             occurs lbrace completion = false \/ occurs rbrace completion = false ->
             run = rejection
                     "Validation error: LLM generation failed: No JSON object found in LLM response")
      /\ (forall (completion : string) (e1 : exn),
             completes reply completion ->
             let response_text := str_strip completion in
             response_text <> "" ->
             str_find lbrace response_text <> -1 ->
             str_rfind rbrace response_text <> -1 ->
             json_loads E (str_slice response_text (str_find lbrace response_text)
                             (str_rfind rbrace response_text + 1)) = inl e1 ->
             run = rejection ("Validation error: "
                                ++ str_of_exn (LLMService.reraise e1)))
      /\ (forall result : dict,
             fst (LLMService.generate_json E (ValidatorService.llm self)
                    (validation_prompt original_text tests) w) = inr result ->
             dict_has "status" result = false ->
             run = rejection
                     "Validation error: LLM validation response missing 'status' field")).
Proof.
  split.
  - unfold ValidatorService.validate_extraction, try_except.
    destruct (ValidatorService.validate_extraction_body _ _ _ _ _)
      as [[e | d] w'] eqn:Hb.
    + eexists _, _. split; reflexivity.
    + exists d, w'. split; [reflexivity |].
      eapply validate_extraction_body_status; eassumption.
  - intros Ht run rejection. subst run.
    rewrite (validate_extraction_run Ht).
    assert (Hout : fst (LLMService.generate_json E (ValidatorService.llm self)
                          (validation_prompt original_text tests) w)
                   = outcome E reply).
    { rewrite generate_json_run. reflexivity. }
    rewrite Hout. clear Hout.
    split; [| split; [| split; [| split; [| split; [| split]]]]].
    + intros e ->. split; [reflexivity | discriminate].
    + intros e0 Hr. unfold outcome. rewrite Hr. reflexivity.
    + intros response Hr Hs. unfold outcome. rewrite Hr. cbn [bind].
      unfold LLMService.parse_response.
      destruct (Z.eqb_spec (status_code response) 200); [contradiction |].
      reflexivity.
    + intros response body Hr Hs Hj Hb. unfold outcome. rewrite Hr. cbn [bind].
      unfold LLMService.parse_response. rewrite Hs, Hj.
      cbn [Z.eqb Pos.eqb negb bind]. unfold py_get, dict_get_or.
      destruct Hb as [Hb | (completion & Hb & Hc)]; rewrite Hb;
        cbn [ret bind py_strip].
      * reflexivity.
      * rewrite Hc. reflexivity.
    + intros completion Hc Hne Hno. unfold reply, validation_request in *.
      rewrite (outcome_completion E (ValidatorService.llm self)
                 (validation_prompt original_text tests) w completion Hc).
      cbv zeta.
      destruct (String.eqb_spec (str_strip completion) ""); [contradiction |].
      assert (Hidx : (str_find lbrace (str_strip completion) =? -1)
                     || (str_rfind rbrace (str_strip completion) =? -1) = true).
      { destruct Hno as [H | H].
        - rewrite (str_find_absent _ _ (occurs_strip _ _ H)). reflexivity.
        - rewrite (str_rfind_absent _ _ (occurs_strip _ _ H)).
          apply orb_true_r. }
      rewrite Hidx. reflexivity.
    + intros completion e1 Hc response_text Hne Hl Hr Hj. subst response_text.
      unfold reply, validation_request in *.
      rewrite (outcome_completion E (ValidatorService.llm self)
                 (validation_prompt original_text tests) w completion Hc).
      cbv zeta.
      destruct (String.eqb_spec (str_strip completion) ""); [contradiction |].
      destruct (Z.eqb_spec (str_find lbrace (str_strip completion)) (-1));
        [contradiction |].
      destruct (Z.eqb_spec (str_rfind rbrace (str_strip completion)) (-1));
        [contradiction |].
      cbn [orb]. rewrite Hj. reflexivity.
    + intros result -> Hs. unfold dict_has in Hs.
      destruct (dict_get "status" result); [discriminate | reflexivity].
Qed.

End Totality.

(** ** Text acquisition: the confidence of a document *)

Section Pooling.

Variable E : Env.

Lemma positive_confidences_app (xs ys : list Z) :
  OCRService.positive_confidences (xs ++ ys)
  = (OCRService.positive_confidences xs ++ OCRService.positive_confidences ys)%list.
Proof. apply filter_app. Qed.

(** The page loop, when the OCR succeeds on every page: texts, lines and
    positive confidences are appended page after page. *)
Lemma process_pages_pooled (images : list image) :
  forall (confs : list (list Z)) (texts : list string) (acc : OCRService.pages),
    Forall2 (fun i c => image_to_data E i = inr c) images confs ->
    Forall2 (fun i t => image_to_string E i = inr t) images texts ->
    OCRService.process_pages E images acc
    = inr {| OCRService.all_text :=
               (OCRService.all_text acc ++ map str_strip texts)%list;
             OCRService.all_lines :=
               (OCRService.all_lines acc ++ flat_map stripped_lines texts)%list;
             OCRService.all_confidences :=
               (OCRService.all_confidences acc
                  ++ OCRService.positive_confidences (List.concat confs))%list |}.
Proof.
  induction images as [| image rest IH]; intros confs texts acc Hc Ht.
  - inversion Hc; subst. inversion Ht; subst. cbn.
    rewrite !app_nil_r. destruct acc; reflexivity.
  - inversion Hc as [| ? c ? confs' Hc1 Hc2]; subst.
    inversion Ht as [| ? t ? texts' Ht1 Ht2]; subst.
    cbn [OCRService.process_pages]. rewrite Hc1, Ht1. cbn [bind].
    rewrite (IH confs' texts' _ Hc2 Ht2).
    cbn [OCRService.all_text OCRService.all_lines OCRService.all_confidences
         map flat_map List.concat].
    rewrite positive_confidences_app, <- !app_assoc. cbn [app].
    destruct (OCRService.positive_confidences c) eqn:Hp;
      cbn [app]; try rewrite <- app_assoc; reflexivity.
Qed.

(** What [extract_from_pdf] returns when the OCR succeeds on every page. *)
Lemma extract_from_pdf_pages (self : OCRService.t) (pdf_bytes : bytes)
      (images : list image) (confs : list (list Z)) (texts : list string) :
  convert_from_bytes E pdf_bytes = inr images ->
  Forall2 (fun i c => image_to_data E i = inr c) images confs ->
  Forall2 (fun i t => image_to_string E i = inr t) images texts ->
  OCRService.extract_from_pdf E self pdf_bytes
  = match OCRService.average_confidence
            (OCRService.positive_confidences (List.concat confs)) with
    | inr avg_confidence =>
        inr {| raw_text := String.concat (String newline "") (map str_strip texts);
               lines := flat_map stripped_lines texts;
               ocr_confidence := Float.round avg_confidence 2 |}
    | inl e => inl (Exception ("PDF OCR failed: " ++ str_of_exn e))
    end.
Proof.
  intros Hi Hc Ht. unfold OCRService.extract_from_pdf.
  rewrite Hi. cbn [bind].
  rewrite (process_pages_pooled images confs texts _ Hc Ht).
  cbn [bind OCRService.all_confidences OCRService.all_text OCRService.all_lines app].
  destruct (OCRService.average_confidence _); reflexivity.
Qed.

(** C5, as the code has it.  When the OCR succeeds on every page of a
    document, the confidence returned is computed from the positive token
    confidences of all pages pooled in page order: it is 0.0 when there is
    none, and otherwise their sum divided by their number, divided by
    100.0 and rounded to two decimals.  For the confidences [90, 90] on a
    first page and [10] on a second one this is 0.63, and not the 0.5 that
    averaging the page averages 0.9 and 0.1 would give. *)
Theorem extract_from_pdf_pools (self : OCRService.t) (pdf_bytes : bytes)
        (images : list image) (confs : list (list Z)) (texts : list string) :
  convert_from_bytes E pdf_bytes = inr images ->
  Forall2 (fun i c => image_to_data E i = inr c) images confs ->
  Forall2 (fun i t => image_to_string E i = inr t) images texts ->
  let pooled := OCRService.positive_confidences (List.concat confs) in
  (pooled = [] ->
   exists r, OCRService.extract_from_pdf E self pdf_bytes = inr r
             /\ ocr_confidence r = S754_zero false)
  /\ (forall mean : float,
         pooled <> [] ->
         int_true_div (OCRService.sum pooled) (Z.of_nat (List.length pooled))
         = inr mean ->
         exists r, OCRService.extract_from_pdf E self pdf_bytes = inr r
                   /\ ocr_confidence r
                      = Float.round (Float.div mean (Float.of_int 100)) 2)
  /\ (confs = [[90; 90]; [10]] ->
      exists r, OCRService.extract_from_pdf E self pdf_bytes = inr r
                /\ ocr_confidence r = Float.decimal 63 2
                /\ ocr_confidence r <> Float.decimal 50 2).
Proof.
  intros Hi Hc Ht pooled.
  pose proof (extract_from_pdf_pages self pdf_bytes images confs texts Hi Hc Ht)
    as Hrun.
  fold pooled in Hrun.
  split; [| split].
  - intros Hp. rewrite Hp in Hrun. cbn in Hrun.
    eexists. split; [exact Hrun | reflexivity].
  - intros mean Hp Hm.
    unfold OCRService.average_confidence in Hrun.
    destruct pooled as [| c cs] eqn:Hpool; [congruence |].
    rewrite Hm in Hrun. cbn [bind] in Hrun.
    eexists. split; [exact Hrun | reflexivity].
  - intros ->. subst pooled.
    match type of Hrun with
    | _ = match ?avg with _ => _ end =>
        let v := eval vm_compute in avg in
        replace avg with v in Hrun by (vm_compute; reflexivity)
    end.
    eexists. split; [exact Hrun |].
    split; [vm_compute; reflexivity | vm_compute; discriminate].
Qed.

End Pooling.

(** ** The pipeline routes *)

Section Pipeline.

Variable E : Env.

Lemma normalize_tests_log (self : NormalizerService.t) (raw_text : string)
      (w : world) :
  snd (NormalizerService.normalize_tests E self raw_text w)
  = (w ++ [LLMService.request_of E (NormalizerService.llm self)
             (normalization_prompt raw_text)])%list.
Proof.
  unfold NormalizerService.normalize_tests, try_except,
    NormalizerService.normalize_tests_body,
    NormalizerService._create_normalization_prompt, bindM.
  pose proof (generate_json_log E (NormalizerService.llm self)
                (normalization_prompt raw_text) w) as Hlog.
  destruct (LLMService.generate_json _ _ _ _) as [[e | result] w'];
    cbn [snd] in Hlog; subst w'; [reflexivity |].
  destruct (negb (dict_has "tests" result)); [reflexivity |].
  unfold lift, raise, retM.
  destruct (dict_item _ "tests") as [e | tests]; [reflexivity |].
  destruct (negb (truthy tests)); [reflexivity |].
  destruct (py_iter tests) as [e | items]; [reflexivity |].
  destruct (NormalizerService.clean_tests items []); reflexivity.
Qed.

Lemma validate_extraction_log (self : ValidatorService.t) (original_text : string)
      (tests : pyval) (w : world) :
  snd (ValidatorService.validate_extraction E self original_text tests w)
  = if truthy tests
    then (w ++ [LLMService.request_of E (ValidatorService.llm self)
                  (validation_prompt original_text tests)])%list
    else w.
Proof.
  unfold ValidatorService.validate_extraction, try_except.
  destruct (truthy tests) eqn:Ht.
  - rewrite validate_extraction_body_call by assumption.
    pose proof (generate_json_log E (ValidatorService.llm self)
                  (validation_prompt original_text tests) w) as Hlog.
    destruct (LLMService.generate_json _ _ _ _) as [[e | result] w'];
      cbn [snd] in Hlog; subst w'; [reflexivity |].
    destruct (dict_get "status" result); reflexivity.
  - unfold ValidatorService.validate_extraction_body. rewrite Ht. reflexivity.
Qed.


(** Steps 2 to 5 when validation rejects with a reason that is a string. *)
Lemma process_raw_text_rejected (raw_text R : string) (w w2 : world)
      (tests : pyval) (validation_result : dict) :
  accepts_strings E ->
  validation_returns E raw_text w tests validation_result w2 ->
  dict_get "status" validation_result = Some (PStr "unprocessed") ->
  dict_get "reason" validation_result = Some (PStr R) ->
  App.process_raw_text E raw_text w
  = (inr (ErrorResponse (PStr "unprocessed") (PStr R)), w2).
Proof.
  intros Hacc (nr & w1 & Hn & Ht & Hv) Hs Hr.
  unfold App.process_raw_text, bindM.
  rewrite Hn. unfold lift at 1, dict_item at 1. rewrite Ht. cbn [ret].
  rewrite Hv. unfold lift at 1, dict_item at 1. rewrite Hs. cbn [ret eq_str].
  cbn [String.eqb Ascii.eqb Bool.eqb].
  unfold lift at 1, dict_item at 1. rewrite Hr. cbn [ret].
  unfold lift, construct. rewrite Hacc. reflexivity.
Qed.

(** Steps 2 to 5 when validation returns any other status: the summary
    is asked for the extracted tests, and a final response, if one is
    built, holds these tests as a list of [Test] models. *)
Lemma process_raw_text_continues (raw_text : string) (w w2 : world)
      (tests status : pyval) (validation_result : dict) :
  validation_returns E raw_text w tests validation_result w2 ->
  dict_get "status" validation_result = Some status ->
  eq_str status "unprocessed" = false ->
  dict_get_or validation_result "tests" tests = tests ->
  snd (App.process_raw_text E raw_text w)
  = snd (SummarizerService.generate_summary E (App.summarizer_service E) tests w2)
  /\ forall m, fst (App.process_raw_text E raw_text w) = inr m ->
              exists summary explanations,
                m = FinalResponse (pydantic_value E List_Test tests)
                                  summary explanations (PStr "ok").
Proof.
  intros (nr & w1 & Hn & Ht & Hv) Hs Hne Hget.
  remember (App.process_raw_text E raw_text w) as run eqn:Hrun.
  unfold App.process_raw_text, bindM in Hrun.
  rewrite Hn in Hrun. unfold lift at 1, dict_item at 1 in Hrun.
  rewrite Ht in Hrun. cbn [ret] in Hrun.
  rewrite Hv in Hrun. unfold lift at 1, dict_item at 1 in Hrun.
  rewrite Hs in Hrun. cbn [ret] in Hrun.
  rewrite Hne, Hget in Hrun.
  destruct (SummarizerService.generate_summary _ _ _ _) as [[e | sr] w3];
    [subst run; split; [reflexivity | discriminate] |].
  unfold lift, construct in Hrun.
  destruct (dict_item sr "summary") as [e | summary];
    [subst run; split; [reflexivity | discriminate] |].
  destruct (dict_item sr "explanations") as [e | explanations];
    [subst run; split; [reflexivity | discriminate] |].
  destruct (validation_error E _);
    [subst run; split; [reflexivity | discriminate] |].
  subst run. split; [reflexivity |]. intros m H. inversion H. eauto.
Qed.

(** The handler of the routes never builds a final response. *)
Lemma processing_error_not_final (e : exn) (w : world) m :
  fst (App.processing_error E e w) = inr m ->
  exists reason, m = ErrorResponse (PStr "unprocessed") reason.
Proof.
  unfold App.processing_error, lift, construct. cbn [fst].
  destruct (validation_error E _); [discriminate |].
  intros H. inversion H. eauto.
Qed.

Lemma processing_error_log (e : exn) (w : world) :
  snd (App.processing_error E e w) = w.
Proof. reflexivity. Qed.

(** Once step 1 has the text, the image route goes on as the text route. *)
Lemma process_image_report_acquired (file : App.UploadFile) (text : string)
      (w : world) :
  acquires E file text ->
  App.process_image_report E file w
  = App.process_text_report E {| App.text_ := text |} w.
Proof.
  intros (ocr & (file_bytes & Hread & Hocr) & Hconf & Htext).
  unfold App.process_image_report, App.process_text_report, try_except, bindM.
  cbn [App.text_].
  rewrite Hread. cbn [lift].
  destruct Hocr as [[Himg Hx] | (Himg & Hpdf & Hx)]; rewrite Himg.
  - rewrite Hx, Hconf, Htext. reflexivity.
  - rewrite Hpdf, Hx, Hconf, Htext. reflexivity.
Qed.




Lemma extract_from_image_raises (self : OCRService.t) (image_bytes : bytes) e :
  OCRService.extract_from_image E self image_bytes = inl e ->
  exists cause, e = Exception ("OCR failed: " ++ cause).
Proof.
  unfold OCRService.extract_from_image, try_result.
  match goal with
  | |- match ?b with _ => _ end = _ -> _ => destruct b as [e0 | r]
  end; intros H; inversion H. eexists. reflexivity.
Qed.

Lemma extract_from_pdf_raises (self : OCRService.t) (pdf_bytes : bytes) e :
  OCRService.extract_from_pdf E self pdf_bytes = inl e ->
  exists cause, e = Exception ("PDF OCR failed: " ++ cause).
Proof.
  unfold OCRService.extract_from_pdf, try_result.
  match goal with
  | |- match ?b with _ => _ end = _ -> _ => destruct b as [e0 | r]
  end; intros H; inversion H. eexists. reflexivity.
Qed.

(** C4, as the code has it.  When the OCR of the uploaded image or PDF
    fails with an exception [e], the image route does not raise: it
    returns the error response with status "unprocessed" and the reason
    "Processing error: " followed by [str(e)], where [str(e)] is
    "OCR failed: ..." or "PDF OCR failed: ..."; no request is made to the
    model. *)
Theorem ocr_failure_unprocessed (file : App.UploadFile) (e : exn) (w : world) :
  accepts_strings E ->
  ocr_outcome E file (inl e) ->
  App.process_image_report E file w
  = (inr (ErrorResponse (PStr "unprocessed")
            (PStr ("Processing error: " ++ str_of_exn e))), w)
  /\ exists cause : string,
      str_of_exn e = "OCR failed: " ++ cause
      \/ str_of_exn e = "PDF OCR failed: " ++ cause.
Proof.
  intros Hacc (file_bytes & Hread & Hocr). split.
  - unfold App.process_image_report, try_except, bindM.
    rewrite Hread. cbn [lift].
    destruct Hocr as [[Himg Hx] | (Himg & Hpdf & Hx)]; rewrite Himg.
    + rewrite Hx. unfold App.processing_error, lift, construct.
      rewrite Hacc. reflexivity.
    + rewrite Hpdf, Hx. unfold App.processing_error, lift, construct.
      rewrite Hacc. reflexivity.
  - destruct Hocr as [[_ Hx] | (_ & _ & Hx)].
    + apply extract_from_image_raises in Hx as [cause ->].
      exists cause. left. reflexivity.
    + apply extract_from_pdf_raises in Hx as [cause ->].
      exists cause. right. reflexivity.
Qed.

(** When validation accepts tests that count as true, it returns them. *)
Lemma validate_extraction_ok_tests (self : ValidatorService.t)
      (original_text : string) (tests : pyval) (w w' : world) (d : dict) :
  truthy tests = true ->
  ValidatorService.validate_extraction E self original_text tests w = (inr d, w') ->
  dict_get "status" d = Some (PStr "ok") ->
  dict_get "tests" d = Some tests.
Proof.
  intros Ht. unfold ValidatorService.validate_extraction, try_except.
  rewrite validate_extraction_body_call by assumption.
  destruct (LLMService.generate_json _ _ _ _) as [[e | result] w1].
  - intros H. inversion H; subst. discriminate.
  - destruct (dict_get "status" result) as [status |].
    + intros H. inversion H; subst. clear H.
      destruct (eq_str status "ok") eqn:Hok.
      * intros _. reflexivity.
      * cbn. intros H. inversion H; subst. discriminate.
    + intros H. inversion H; subst. discriminate.
Qed.

(** A route that goes on to step 4 with [tests]. *)
Lemma process_text_report_continues (input_data : App.TextInput) (w w2 : world)
      (tests : pyval) (validation_result : dict) :
  truthy tests = true ->
  validation_returns E (App.text_ input_data) w tests validation_result w2 ->
  dict_get "status" validation_result = Some (PStr "ok") ->
  snd (App.process_text_report E input_data w)
  = (w2 ++ [LLMService.request_of E
              (SummarizerService.llm (App.summarizer_service E))
              (summary_prompt tests)])%list
  /\ forall tests' summary explanations status,
      fst (App.process_text_report E input_data w)
      = inr (FinalResponse tests' summary explanations status) ->
      tests' = pydantic_value E List_Test tests.
Proof.
  intros Ht Hv Hs.
  assert (Hget : dict_get_or validation_result "tests" tests = tests).
  { destruct Hv as (nr & w1 & _ & _ & Hv).
    unfold dict_get_or.
    rewrite (validate_extraction_ok_tests _ _ _ _ _ _ Ht Hv Hs). reflexivity. }
  destruct (process_raw_text_continues _ w w2 tests (PStr "ok") validation_result
              Hv Hs eq_refl Hget) as [Hlog Hfinal].
  rewrite generate_summary_log in Hlog by assumption.
  unfold App.process_text_report, try_except.
  destruct (App.process_raw_text E (App.text_ input_data) w) as [[e | m] w3].
  - cbn [snd] in Hlog. subst w3. split.
    + apply processing_error_log.
    + intros tests' summary explanations status H.
      apply processing_error_not_final in H as [reason H]. discriminate.
  - cbn [snd] in Hlog. subst w3. split; [reflexivity |].
    intros tests' summary explanations status H. cbn [fst] in H.
    destruct (Hfinal m eq_refl) as (s' & e' & Hm).
    inversion H; subst. inversion H1. reflexivity.
Qed.

(** C6.  When validation accepts, with status "ok", a non-empty list of
    extracted tests, the tests it returns are that very list, and in both
    routes the summarization stage is called on the summary prompt of that
    list; a final response, when one is built, holds what pydantic makes
    of that list as a list of [Test] models, which need not be the list
    itself. *)
Theorem accepted_tests_carried (raw_text : string) (w w2 : world)
        (t : pyval) (ts : list pyval) (validation_result : dict) :
  validation_returns E raw_text w (PList (t :: ts)) validation_result w2 ->
  dict_get "status" validation_result = Some (PStr "ok") ->
  dict_get "tests" validation_result = Some (PList (t :: ts))
  /\ (forall input_data : App.TextInput,
         App.text_ input_data = raw_text ->
         snd (App.process_text_report E input_data w)
         = (w2 ++ [LLMService.request_of E
                     (SummarizerService.llm (App.summarizer_service E))
                     (summary_prompt (PList (t :: ts)))])%list
         /\ forall tests' summary explanations status,
             fst (App.process_text_report E input_data w)
             = inr (FinalResponse tests' summary explanations status) ->
             tests' = pydantic_value E List_Test (PList (t :: ts)))
  /\ (forall file : App.UploadFile,
         acquires E file raw_text ->
         snd (App.process_image_report E file w)
         = (w2 ++ [LLMService.request_of E
                     (SummarizerService.llm (App.summarizer_service E))
                     (summary_prompt (PList (t :: ts)))])%list
         /\ forall tests' summary explanations status,
             fst (App.process_image_report E file w)
             = inr (FinalResponse tests' summary explanations status) ->
             tests' = pydantic_value E List_Test (PList (t :: ts))).
Proof.
  intros Hv Hs. split; [| split].
  - destruct Hv as (nr & w1 & _ & _ & Hv).
    eapply validate_extraction_ok_tests; [reflexivity | eassumption | assumption].
  - intros input_data <-.
    apply (process_text_report_continues input_data w w2 _ validation_result);
      [reflexivity | assumption | assumption].
  - intros file Ha.
    rewrite (process_image_report_acquired file raw_text w Ha).
    apply (process_text_report_continues {| App.text_ := raw_text |} w w2 _
             validation_result); [reflexivity | assumption | assumption].
Qed.

End Pipeline.

(* ================================================================== *)
(** * Part III: the statements on concrete runs *)
(* ================================================================== *)

Lemma stub_accepts_strings (replies : list (result Response)) :
  accepts_strings (Stub.env replies).
Proof. intros status reason. reflexivity. Qed.

(** ** Extraction *)

(** Of the two candidates of the example, the one without a value is
    dropped and the complete one is kept as it is. *)
Lemma normalize_tests_filter_witness :
  exists result w',
    NormalizerService.normalize_tests Example.accepting
      (App.normalizer_service Example.accepting) "Hb: 8.5 g/dL" []
    = (inr result, w')
    /\ dict_get "tests" result = Some (PList [Example.hemoglobin]).
Proof.
  edestruct (normalize_tests_filter Example.accepting
               (App.normalizer_service Example.accepting) "Hb: 8.5 g/dL" [])
    as (Hkept & _ & Hreturns).
  - vm_compute. reflexivity.
  - vm_compute. reflexivity.
  - destruct Hreturns as [result Hrun]; [repeat constructor |].
    exists result. eexists. split; [exact Hrun |].
    destruct (Hkept result _ Hrun) as [_ Htests]. exact Htests.
Defined.

(** C1 fails as stated: a candidate with all six fields present and
    non-null, whose unit is the empty string, is not retained. *)
Lemma unitless_record_dropped :
  all_present Example.inr_ratio = true
  /\ fst (LLMService.generate_json (Stub.env [Stub.completion Example.unitless])
            (LLMService.__init__ Example.offline)
            (normalization_prompt "INR 1.1") [])
     = inr [("tests", PList [Example.inr_ratio])]
  /\ exists result,
      fst (NormalizerService.normalize_tests
             (Stub.env [Stub.completion Example.unitless])
             (App.normalizer_service Example.offline) "INR 1.1" [])
      = inr result
      /\ dict_get "tests" result = Some (PList []).
Proof.
  split; [reflexivity | split; [vm_compute; reflexivity |]].
  eexists. split; vm_compute; reflexivity.
Qed.

(** ** The adapter *)

(** A verdict wrapped in prose is cut out and parsed. *)
Lemma generate_json_first_to_last_brace_witness :
  fst (LLMService.generate_json (Stub.env [Stub.completion Example.acceptance])
         (LLMService.__init__ Example.offline)
         (validation_prompt "Hb: 8.5 g/dL" (PList [Example.hemoglobin])) [])
  = inr [("status", PStr "ok"); ("confidence", PFloat (Float.decimal 95 2))].
Proof.
  destruct (generate_json_first_to_last_brace
              (Stub.env [Stub.completion Example.acceptance])
              (LLMService.__init__ Example.offline)
              (validation_prompt "Hb: 8.5 g/dL" (PList [Example.hemoglobin])) []
              Example.acceptance) as [Hcut _].
  - eexists _, _.
    split; [reflexivity |]. split; [reflexivity |].
    split; reflexivity.
  - rewrite (Hcut "Here is my verdict: "
                  (Json.text "'status': 'ok', 'confidence': 0.95")
                  " I hope this helps.");
      [vm_compute; reflexivity | reflexivity | reflexivity | reflexivity].
Defined.

(** C3 fails as stated: the completion holds exactly one JSON object, the
    empty one, followed by prose with a closing brace in it, and the call
    raises instead of returning that object. *)
Lemma trailing_brace_breaks_extraction :
  Example.trailing_brace = "{}" ++ " :-}"
  /\ Json.loads_object "{}" = inr []
  /\ exists msg,
      fst (LLMService.generate_json
             (Stub.env [Stub.completion Example.trailing_brace])
             (LLMService.__init__ Example.offline)
             (normalization_prompt "Hb: 8.5 g/dL") [])
      = inl (Exception msg).
Proof.
  split; [reflexivity | split; [reflexivity |]].
  eexists. vm_compute. reflexivity.
Qed.

(** ** Text acquisition *)

Lemma extract_from_pdf_pools_witness :
  exists r,
    OCRService.extract_from_pdf Example.offline (App.ocr_service Example.offline)
      Example.two_pages = inr r
    /\ ocr_confidence r = Float.decimal 63 2
    /\ ocr_confidence r <> Float.decimal 50 2.
Proof.
  destruct (extract_from_pdf_pools Example.offline (App.ocr_service Example.offline)
              Example.two_pages
              [Image [Byte.x5a; Byte.x5a]; Image [Byte.x0a]]
              [[90; 90]; [10]]
              ["ZZ"; String newline ""]) as (_ & _ & Hexample).
  - reflexivity.
  - repeat constructor.
  - repeat constructor.
  - apply Hexample. reflexivity.
Defined.

(** C5 fails as stated: for the confidences [90, 90] and [10] the
    confidence returned is 0.63, the pooled mean rounded to two decimals,
    and not 0.633. *)
Lemma pooled_confidence_is_rounded :
  exists r,
    OCRService.extract_from_pdf Example.offline (App.ocr_service Example.offline)
      Example.two_pages = inr r
    /\ ocr_confidence r = Float.decimal 63 2
    /\ ocr_confidence r <> Float.decimal 633 3.
Proof.
  eexists. split; [vm_compute; reflexivity |].
  split; [reflexivity | vm_compute; discriminate].
Qed.

(** ** Validation *)

Lemma validate_extraction_missing_status_witness :
  fst (ValidatorService.validate_extraction
         (Stub.env [Stub.completion Example.no_status])
         (App.validator_service Example.offline)
         "Hb: 8.5 g/dL" (PList [Example.hemoglobin]) [])
  = inr [ ("status", PStr "unprocessed");
          ("reason",
           PStr "Validation error: LLM validation response missing 'status' field");
          ("confidence", PFloat (S754_zero false)) ].
Proof.
  erewrite (validate_extraction_missing_status
              (Stub.env [Stub.completion Example.no_status])
              (App.validator_service Example.offline)
              "Hb: 8.5 g/dL" Example.hemoglobin [] []).
  - reflexivity.
  - vm_compute. reflexivity.
  - reflexivity.
Defined.

(** C7 fails as stated: the reason begins with a capital letter, so it is
    not of the form "validation error: ...". *)
Lemma missing_status_reason_is_capitalised :
  fst (LLMService.generate_json (Stub.env [Stub.completion Example.no_status])
         (LLMService.__init__ Example.offline)
         (validation_prompt "Hb: 8.5 g/dL" (PList [Example.hemoglobin])) [])
  = inr [("confidence", PFloat (Float.decimal 9 1))]
  /\ exists reason,
      fst (ValidatorService.validate_extraction
             (Stub.env [Stub.completion Example.no_status])
             (App.validator_service Example.offline)
             "Hb: 8.5 g/dL" (PList [Example.hemoglobin]) [])
      = inr [ ("status", PStr "unprocessed");
              ("reason", PStr reason);
              ("confidence", PFloat (S754_zero false)) ]
      /\ String.prefix "validation error: " reason = false.
Proof.
  split; [vm_compute; reflexivity |].
  eexists. split; [vm_compute; reflexivity | reflexivity].
Qed.

(** With the server out of reach, validation returns a rejection; so it
    does when the verdict has no status. *)
Lemma validate_extraction_total_witness :
  ValidatorService.validate_extraction Example.offline
    (App.validator_service Example.offline)
    "Hb: 8.5 g/dL" (PList [Example.hemoglobin]) []
  = (inr [ ("status", PStr "unprocessed");
           ("reason",
            PStr "Validation error: LLM generation failed: connection refused");
           ("confidence", PFloat (S754_zero false)) ],
     [LLMService.request_of Example.offline (LLMService.__init__ Example.offline)
        (validation_prompt "Hb: 8.5 g/dL" (PList [Example.hemoglobin]))])
  /\ fst (ValidatorService.validate_extraction Example.statusless
            (App.validator_service Example.statusless)
            "Hb: 8.5 g/dL" (PList [Example.hemoglobin])
            [LLMService.request_of Example.statusless
               (LLMService.__init__ Example.statusless)
               (normalization_prompt "Hb: 8.5 g/dL")])
     = inr [ ("status", PStr "unprocessed");
             ("reason",
              PStr "Validation error: LLM validation response missing 'status' field");
             ("confidence", PFloat (S754_zero false)) ].
Proof.
  split.
  - destruct (validate_extraction_total Example.offline
                (App.validator_service Example.offline)
                "Hb: 8.5 g/dL" (PList [Example.hemoglobin]) []) as [_ Hfail].
    destruct (Hfail eq_refl) as (_ & Htransport & _).
    exact (Htransport (OtherError "ConnectionError" "connection refused") eq_refl).
  - destruct (validate_extraction_total Example.statusless
                (App.validator_service Example.statusless)
                "Hb: 8.5 g/dL" (PList [Example.hemoglobin])
                [LLMService.request_of Example.statusless
                   (LLMService.__init__ Example.statusless)
                   (normalization_prompt "Hb: 8.5 g/dL")]) as [_ Hfail].
    destruct (Hfail eq_refl) as (_ & _ & _ & _ & _ & _ & Hstatus).
    rewrite (Hstatus [("confidence", PFloat (Float.decimal 9 1))]).
    + reflexivity.
    + vm_compute. reflexivity.
    + reflexivity.
Defined.

(** ** The routes *)



Lemma ocr_failure_unprocessed_witness :
  App.process_image_report Example.offline Example.unreadable []
  = (inr (ErrorResponse (PStr "unprocessed")
            (PStr "Processing error: OCR failed: cannot identify image file")),
     []).
Proof.
  destruct (ocr_failure_unprocessed Example.offline Example.unreadable
              (Exception "OCR failed: cannot identify image file") [])
    as [Hrun _].
  - apply stub_accepts_strings.
  - exists []. split; [reflexivity |]. left. split; reflexivity.
  - exact Hrun.
Defined.

(** C4 fails as stated: the OCR of the upload fails, and the image route
    returns an error response with status "unprocessed"; it raises
    nothing, so the caller sees no server error. *)
Lemma ocr_failure_is_returned :
  OCRService.extract_from_image Example.offline (App.ocr_service Example.offline) []
  = inl (Exception "OCR failed: cannot identify image file")
  /\ fst (App.process_image_report Example.offline Example.unreadable [])
     = inr (ErrorResponse (PStr "unprocessed")
              (PStr "Processing error: OCR failed: cannot identify image file"))
  /\ forall e : exn,
      fst (App.process_image_report Example.offline Example.unreadable [])
      <> inl e.
Proof.
  split; [reflexivity | split; [reflexivity |]].
  intros e H. vm_compute in H. discriminate.
Qed.

Lemma accepted_tests_carried_witness :
  dict_get "tests" Example.accepted = Some (PList [Example.hemoglobin])
  /\ exists summary explanations status,
      fst (App.process_text_report Example.accepting Example.report [])
      = inr (FinalResponse (PList [Example.hemoglobin]) summary explanations status).
Proof.
  epose proof (accepted_tests_carried Example.accepting "Hb: 8.5 g/dL" [] _
                 Example.hemoglobin [] Example.accepted) as Hcarried.
  destruct Hcarried as (Htests & Htext & _).
  - eexists _, _.
    split; [vm_compute; reflexivity |].
    split; [vm_compute; reflexivity |].
    vm_compute. reflexivity.
  - reflexivity.
  - split; [exact Htests |].
    destruct (Htext Example.report eq_refl) as [_ Hfinal].
    destruct (fst (App.process_text_report Example.accepting Example.report []))
      as [e | [r | d | tests' summary explanations status | status reason]] eqn:Hrun;
      try (vm_compute in Hrun; discriminate).
    rewrite (Hfinal tests' summary explanations status eq_refl).
    eexists _, _, _. reflexivity.
Defined.

(** C6 fails as stated: validation accepts the one extracted record, a
    dict with whole numbers and a note, and returns it untouched; the
    final response of the text route holds a [Test] model in its place,
    with floats for the numbers and without the note. *)
Lemma final_tests_are_test_models :
  (exists w2,
      validation_returns Example.annotating "Hb: 8 g/dL" []
        (PList [Example.hemoglobin_noted]) Example.accepted_noted w2)
  /\ dict_get "status" Example.accepted_noted = Some (PStr "ok")
  /\ dict_get "tests" Example.accepted_noted
     = Some (PList [Example.hemoglobin_noted])
  /\ (exists summary explanations,
         fst (App.process_text_report Example.annotating Example.whole_report [])
         = inr (FinalResponse (PList [Example.hemoglobin_model])
                              summary explanations (PStr "ok")))
  /\ PList [Example.hemoglobin_model] <> PList [Example.hemoglobin_noted].
Proof.
  split; [| split; [reflexivity | split; [reflexivity | split]]].
  - eexists _, _, _.
    split; [vm_compute; reflexivity |].
    split; [vm_compute; reflexivity |].
    vm_compute. reflexivity.
  - eexists _, _. vm_compute. reflexivity.
  - discriminate.
Qed.

(* ================================================================== *)
(** * Part IV: further properties of the code *)
(* ================================================================== *)

(** ** The adapter: requests and failures *)

Section AdapterFailures.

Variable E : Env.
Variable self : LLMService.t.
Variable p : prompt.
Variable w : world.

(** X1.  A call of [generate_json] sends one request and no more, whether
    it returns or raises: the request carries the prompt with the JSON-only
    directive, asks for a non-streamed answer in JSON format, and has the
    configured timeout. *)
Theorem generate_json_one_request :
  exists r : request,
    snd (LLMService.generate_json E self p w) = (w ++ [r])%list
    /\ base (prompt_text (json r)) = p
    /\ directive (prompt_text (json r)) = LLMService.json_directive
    /\ stream (json r) = false
    /\ format (json r) = "json"
    /\ url r = LLMService.api_url self
    /\ timeout r = Config.LLM_TIMEOUT (settings E).
Proof.
  exists (LLMService.request_of E self p).
  split; [apply generate_json_log |]. repeat split.
Qed.

(** X2.  When the server answers with a status other than 200, the call
    raises "LLM generation failed: Ollama API failed with status <code>",
    whatever the body of the answer holds. *)
Theorem generate_json_bad_status (response : Response) :
  requests_post E (List.length w) (LLMService.request_of E self p) = inr response ->
  status_code response <> 200 ->
  fst (LLMService.generate_json E self p w)
  = inl (Exception ("LLM generation failed: Ollama API failed with status "
                      ++ str_of_int (status_code response))).
Proof.
  intros Hr Hs. rewrite generate_json_run. cbn [fst].
  unfold outcome. rewrite Hr. cbn [bind].
  unfold LLMService.parse_response.
  destruct (Z.eqb_spec (status_code response) 200); [contradiction |].
  reflexivity.
Qed.

(** X3.  When the request itself fails with an exception that is no JSON
    decoding error, the call raises "LLM generation failed: " followed by
    the text of that exception. *)
Theorem generate_json_transport_failure (e : exn) :
  requests_post E (List.length w) (LLMService.request_of E self p) = inl e ->
  is_JSONDecodeError e = false ->
  fst (LLMService.generate_json E self p w)
  = inl (Exception ("LLM generation failed: " ++ str_of_exn e)).
Proof.
  intros Hr He. rewrite generate_json_run. cbn [fst].
  unfold outcome. rewrite Hr. cbn [bind].
  unfold LLMService.reraise. rewrite He. reflexivity.
Qed.

(** X4.  When the body of a 200 answer has no "response" entry, or one
    that is empty or blank, the call raises
    "LLM generation failed: Empty response from Ollama". *)
Theorem generate_json_empty_completion (response : Response) (body : dict) :
  requests_post E (List.length w) (LLMService.request_of E self p) = inr response ->
  status_code response = 200 ->
  json_body response = inr (PDict body) ->
  (dict_get "response" body = None
   \/ exists completion, dict_get "response" body = Some (PStr completion)
                         /\ str_strip completion = "") ->
  fst (LLMService.generate_json E self p w)
  = inl (Exception "LLM generation failed: Empty response from Ollama").
Proof.
  intros Hr Hs Hj Hb. rewrite generate_json_run. cbn [fst].
  unfold outcome. rewrite Hr. cbn [bind].
  unfold LLMService.parse_response. rewrite Hs, Hj.
  cbn [Z.eqb Pos.eqb negb bind]. unfold py_get, dict_get_or.
  destruct Hb as [Hb | (completion & Hb & Hc)]; rewrite Hb; cbn [ret bind py_strip].
  - reflexivity.
  - rewrite Hc. reflexivity.
Qed.

(** X5.  Whatever goes wrong, the call raises a plain [Exception] whose
    text starts with "Invalid JSON from LLM: " or with
    "LLM generation failed: ". *)
Theorem generate_json_error_prefix (e : exn) (w' : world) :
  LLMService.generate_json E self p w = (inl e, w') ->
  exists cause : string,
    e = Exception ("Invalid JSON from LLM: " ++ cause)
    \/ e = Exception ("LLM generation failed: " ++ cause).
Proof.
  rewrite generate_json_run. unfold outcome. intros H.
  destruct (bind _ _) as [e0 | d]; inversion H; subst.
  exists (str_of_exn e0). unfold LLMService.reraise.
  destruct (is_JSONDecodeError e0); [left | right]; reflexivity.
Qed.

End AdapterFailures.

(** ** The extraction stage: defaults, invariant and failures *)

Section ExtractionMore.

Variable E : Env.
Variable self : NormalizerService.t.
Variable raw_text : string.

Lemma normalize_tests_call (w : world) :
  NormalizerService.normalize_tests E self raw_text w
  = match LLMService.generate_json E (NormalizerService.llm self)
            (normalization_prompt raw_text) w with
    | (inl e, w') =>
        (inl (Exception ("Normalization failed: " ++ str_of_exn e)), w')
    | (inr response, w') =>
        (match normalize_response response with
         | inl e => inl (Exception ("Normalization failed: " ++ str_of_exn e))
         | inr result => inr result
         end, w')
    end.
Proof.
  unfold NormalizerService.normalize_tests, try_except,
    NormalizerService.normalize_tests_body,
    NormalizerService._create_normalization_prompt, bindM, normalize_response.
  destruct (LLMService.generate_json _ _ _ _) as [[e | response] w'];
    [reflexivity |].
  destruct (negb (dict_has "tests" response)); [reflexivity |].
  unfold lift, raise, retM, bind, ret.
  destruct (dict_item _ "tests") as [e | tests]; [reflexivity |].
  destruct (negb (truthy tests)); [reflexivity |].
  destruct (py_iter tests) as [e | items]; [reflexivity |].
  destruct (NormalizerService.clean_tests items []); reflexivity.
Qed.

Lemma clean_tests_non_object (items : list pyval) (x : pyval) :
  In x items -> is_dict x = false ->
  forall acc, exists e, NormalizerService.clean_tests items acc = inl e.
Proof.
  intros Hin Hx. induction items as [| test rest IH]; [contradiction |].
  intros acc. cbn.
  destruct Hin as [-> | Hin].
  - destruct x; try discriminate; eexists; reflexivity.
  - destruct (NormalizerService.is_complete test) as [e | b].
    + exists e. reflexivity.
    + cbn. apply IH, Hin.
Qed.

(** X6.  A response of the model without a "tests" entry makes
    [normalize_tests] raise
    "Normalization failed: LLM response missing 'tests' field". *)
Theorem normalize_tests_missing_tests (w w' : world) (response : dict) :
  LLMService.generate_json E (NormalizerService.llm self)
    (normalization_prompt raw_text) w = (inr response, w') ->
  dict_has "tests" response = false ->
  NormalizerService.normalize_tests E self raw_text w
  = (inl (Exception "Normalization failed: LLM response missing 'tests' field"), w').
Proof.
  intros Hg Ht. rewrite normalize_tests_call, Hg.
  unfold normalize_response. rewrite Ht. reflexivity.
Qed.

(** X7.  In the result of [normalize_tests] the normalization confidence
    is the one of the model's response, or 0.8 when the response has none,
    and every other entry of the response, "tests" apart, is kept as it
    is. *)
Theorem normalize_tests_confidence_default (w w' : world) (response normalized : dict) :
  LLMService.generate_json E (NormalizerService.llm self)
    (normalization_prompt raw_text) w = (inr response, w') ->
  NormalizerService.normalize_tests E self raw_text w = (inr normalized, w') ->
  dict_get "normalization_confidence" normalized
  = Some (dict_get_or response "normalization_confidence"
            (PFloat (Float.decimal 8 1)))
  /\ forall key : string,
      key <> "tests" -> key <> "normalization_confidence" ->
      dict_get key normalized = dict_get key response.
Proof.
  intros Hg. rewrite normalize_tests_call, Hg. unfold normalize_response.
  destruct (negb (dict_has "tests" response)); [discriminate |].
  set (response1 := if negb (dict_has "normalization_confidence" response)
                    then _ else response).
  assert (Hc : dict_get "normalization_confidence" response1
               = Some (dict_get_or response "normalization_confidence"
                         (PFloat (Float.decimal 8 1)))).
  { subst response1. unfold dict_has, dict_get_or.
    destruct (dict_get "normalization_confidence" response) eqn:Hd; cbn [negb].
    - exact Hd.
    - apply dict_get_set_same. }
  assert (Hk : forall key, key <> "normalization_confidence" ->
                           dict_get key response1 = dict_get key response).
  { intros key Hne. subst response1.
    destruct (negb _); [apply dict_get_set_other; assumption | reflexivity]. }
  unfold bind, ret.
  destruct (dict_item response1 "tests") as [e | tests]; [discriminate |].
  assert (Hset : forall v, (inr (dict_set "tests" v response1) : result dict, w')
                           = (inr normalized, w') ->
                           dict_get "normalization_confidence" normalized
                           = Some (dict_get_or response "normalization_confidence"
                                     (PFloat (Float.decimal 8 1)))
                           /\ forall key : string,
                               key <> "tests" -> key <> "normalization_confidence" ->
                               dict_get key normalized = dict_get key response).
  { intros v H. inversion H; subst. split.
    - rewrite dict_get_set_other by discriminate. exact Hc.
    - intros key H1 H2. rewrite dict_get_set_other by assumption. apply Hk, H2. }
  destruct (negb (truthy tests)); [apply Hset |].
  destruct (py_iter tests) as [e | items]; [discriminate |].
  destruct (NormalizerService.clean_tests items []); [discriminate | apply Hset].
Qed.

(** X8.  Whatever the model answers, when [normalize_tests] returns, its
    "tests" entry is a list and every record of the list passes the
    completeness filter. *)
Theorem normalize_tests_only_complete (w w' : world) (result : dict) :
  NormalizerService.normalize_tests E self raw_text w = (inr result, w') ->
  exists kept : list pyval,
    dict_get "tests" result = Some (PList kept)
    /\ forallb complete kept = true.
Proof.
  rewrite normalize_tests_call.
  destruct (LLMService.generate_json _ _ _ _) as [[e | response] w1];
    [discriminate |].
  unfold normalize_response.
  destruct (negb (dict_has "tests" response)); [discriminate |].
  unfold bind, ret.
  destruct (dict_item _ "tests") as [e | tests]; [discriminate |].
  destruct (negb (truthy tests)).
  - intros H. inversion H; subst. exists []. split; [apply dict_get_set_same | reflexivity].
  - destruct (py_iter tests) as [e | items]; [discriminate |].
    destruct (NormalizerService.clean_tests items []) as [e | kept] eqn:Hc;
      [discriminate |].
    intros H. inversion H; subst. exists kept.
    split; [apply dict_get_set_same |].
    apply clean_tests_inr in Hc. cbn in Hc. subst kept.
    apply forallb_forall. intros x Hx. apply filter_In in Hx. apply Hx.
Qed.

(** X9.  When the "tests" entry of the response counts as false (null, an
    empty list, an empty string, zero), [normalize_tests] does not raise and
    returns the empty list of tests. *)
Theorem normalize_tests_falsy_tests (w w' : world) (response : dict) (tests : pyval) :
  LLMService.generate_json E (NormalizerService.llm self)
    (normalization_prompt raw_text) w = (inr response, w') ->
  dict_get "tests" response = Some tests ->
  truthy tests = false ->
  exists result,
    NormalizerService.normalize_tests E self raw_text w = (inr result, w')
    /\ dict_get "tests" result = Some (PList []).
Proof.
  intros Hg Ht Hf. rewrite normalize_tests_call, Hg. unfold normalize_response.
  unfold dict_has at 1. rewrite Ht. cbn [negb].
  set (response1 := if negb (dict_has "normalization_confidence" response)
                    then _ else response).
  assert (Ht1 : dict_get "tests" response1 = Some tests).
  { subst response1. destruct (negb _); [| exact Ht].
    rewrite dict_get_set_other by discriminate. exact Ht. }
  unfold dict_item. rewrite Ht1. cbn [bind ret]. rewrite Hf. cbn [negb].
  eexists. split; [reflexivity | apply dict_get_set_same].
Qed.

(** X10.  When the "tests" entry is a list with an element that is not a
    JSON object, [normalize_tests] raises, with a text that starts with
    "Normalization failed: ": the other candidates are not returned. *)
Theorem normalize_tests_non_object_candidate
        (w w' : world) (response : dict) (items : list pyval) (x : pyval) :
  LLMService.generate_json E (NormalizerService.llm self)
    (normalization_prompt raw_text) w = (inr response, w') ->
  dict_get "tests" response = Some (PList items) ->
  In x items ->
  is_dict x = false ->
  exists cause : string,
    NormalizerService.normalize_tests E self raw_text w
    = (inl (Exception ("Normalization failed: " ++ cause)), w').
Proof.
  intros Hg Ht Hin Hx. rewrite normalize_tests_call, Hg. unfold normalize_response.
  unfold dict_has at 1. rewrite Ht. cbn [negb].
  set (response1 := if negb (dict_has "normalization_confidence" response)
                    then _ else response).
  assert (Ht1 : dict_get "tests" response1 = Some (PList items)).
  { subst response1. destruct (negb _); [| exact Ht].
    rewrite dict_get_set_other by discriminate. exact Ht. }
  unfold dict_item. rewrite Ht1. cbn [bind ret].
  destruct items as [| i items']; [contradiction |].
  cbn [truthy negb py_iter ret bind].
  destruct (clean_tests_non_object (i :: items') x Hin Hx []) as [e He].
  rewrite He. eexists. reflexivity.
Qed.

End ExtractionMore.

(** ** The summarization stage: what it requires and what it returns *)

Section SummarizationMore.

Variable E : Env.
Variable self : SummarizerService.t.

Lemma generate_summary_call (tests : pyval) (w : world) :
  truthy tests = true ->
  SummarizerService.generate_summary E self tests w
  = match LLMService.generate_json E (SummarizerService.llm self)
            (summary_prompt tests) w with
    | (inl e, w') =>
        (inl (Exception ("Summarization failed: " ++ str_of_exn e)), w')
    | (inr response, w') =>
        (match summarize_response response with
         | inl e => inl (Exception ("Summarization failed: " ++ str_of_exn e))
         | inr summary => inr summary
         end, w')
    end.
Proof.
  intros Ht.
  unfold SummarizerService.generate_summary, try_except,
    SummarizerService.generate_summary_body,
    SummarizerService._create_summary_prompt, summarize_response.
  rewrite Ht. cbn [negb]. unfold bindM.
  destruct (LLMService.generate_json _ _ _ _) as [[e | response] w'];
    [reflexivity |].
  destruct (negb (dict_has "summary" response)
            || negb (dict_has "explanations" response)); [reflexivity |].
  unfold lift, raise, retM, bind, ret.
  destruct (dict_item _ "explanations") as [e | x]; [reflexivity |].
  destruct (py_len x); reflexivity.
Qed.

(** X11.  A response of the model without a "summary" or without an
    "explanations" entry makes [generate_summary] raise
    "Summarization failed: LLM response missing required fields". *)
Theorem generate_summary_missing_fields
        (tests : pyval) (w w' : world) (response : dict) :
  truthy tests = true ->
  LLMService.generate_json E (SummarizerService.llm self)
    (summary_prompt tests) w = (inr response, w') ->
  dict_has "summary" response = false \/ dict_has "explanations" response = false ->
  SummarizerService.generate_summary E self tests w
  = (inl (Exception "Summarization failed: LLM response missing required fields"),
     w').
Proof.
  intros Ht Hg Hm. rewrite generate_summary_call by assumption. rewrite Hg.
  unfold summarize_response.
  replace (negb (dict_has "summary" response)
           || negb (dict_has "explanations" response)) with true; [reflexivity |].
  destruct Hm as [-> | ->]; [reflexivity | symmetry; apply orb_true_r].
Qed.

(** X12.  A response with a summary and with explanations that have a
    length is returned as it is, explanations unfiltered; only a missing
    "status" is filled in with "ok". *)
Theorem generate_summary_passes_response
        (tests explanations : pyval) (w w' : world) (response : dict) :
  truthy tests = true ->
  LLMService.generate_json E (SummarizerService.llm self)
    (summary_prompt tests) w = (inr response, w') ->
  dict_has "summary" response = true ->
  dict_get "explanations" response = Some explanations ->
  has_len explanations = true ->
  exists summary : dict,
    SummarizerService.generate_summary E self tests w = (inr summary, w')
    /\ dict_get "status" summary = Some (dict_get_or response "status" (PStr "ok"))
    /\ forall key : string,
        key <> "status" -> dict_get key summary = dict_get key response.
Proof.
  intros Ht Hg Hs He Hl. rewrite generate_summary_call by assumption. rewrite Hg.
  unfold summarize_response. rewrite Hs. unfold dict_has at 1. rewrite He.
  cbn [negb orb].
  set (response1 := if negb (dict_has "status" response) then _ else response).
  assert (He1 : dict_get "explanations" response1 = Some explanations).
  { subst response1. destruct (negb _); [| exact He].
    rewrite dict_get_set_other by discriminate. exact He. }
  unfold dict_item. rewrite He1. cbn [bind ret].
  assert (Hlen : exists n, py_len explanations = inr n)
    by (destruct explanations; try discriminate; eexists; reflexivity).
  destruct Hlen as [n ->]. cbn [bind ret].
  exists response1. split; [reflexivity |]. split.
  - subst response1. unfold dict_has, dict_get_or.
    destruct (dict_get "status" response) eqn:Hd; cbn [negb];
      [exact Hd | apply dict_get_set_same].
  - intros key Hk. subst response1.
    destruct (negb _); [apply dict_get_set_other; assumption | reflexivity].
Qed.

(** X13.  When the "explanations" of the response have no length (null, a
    number, a boolean), [generate_summary] raises
    "Summarization failed: object of type '<type>' has no len()": the
    length is taken for the log message before the result is returned. *)
Theorem generate_summary_explanations_without_length
        (tests explanations : pyval) (w w' : world) (response : dict) :
  truthy tests = true ->
  LLMService.generate_json E (SummarizerService.llm self)
    (summary_prompt tests) w = (inr response, w') ->
  dict_has "summary" response = true ->
  dict_get "explanations" response = Some explanations ->
  has_len explanations = false ->
  SummarizerService.generate_summary E self tests w
  = (inl (Exception ("Summarization failed: object of type '"
                       ++ type_name explanations ++ "' has no len()")), w').
Proof.
  intros Ht Hg Hs He Hl. rewrite generate_summary_call by assumption. rewrite Hg.
  unfold summarize_response. rewrite Hs. unfold dict_has at 1. rewrite He.
  cbn [negb orb].
  set (response1 := if negb (dict_has "status" response) then _ else response).
  assert (He1 : dict_get "explanations" response1 = Some explanations).
  { subst response1. destruct (negb _); [| exact He].
    rewrite dict_get_set_other by discriminate. exact He. }
  unfold dict_item. rewrite He1. cbn [bind ret].
  destruct explanations; try discriminate; reflexivity.
Qed.

End SummarizationMore.

(** ** The validation stage: what it forwards *)

Section ValidationMore.

Variable E : Env.
Variable self : ValidatorService.t.
Variable original_text : string.

(** X14.  With tests that count as true and a response that has a status,
    [validate_extraction] forwards the model's own status, reason (None
    when absent) and confidence (0.0 when absent) without looking at the
    confidence or at the configured threshold, and it adds the tests under
    "tests" exactly when the status is "ok". *)
Theorem validate_extraction_forwards
        (tests status : pyval) (w w' : world) (response : dict) :
  truthy tests = true ->
  LLMService.generate_json E (ValidatorService.llm self)
    (validation_prompt original_text tests) w = (inr response, w') ->
  dict_get "status" response = Some status ->
  exists d : dict,
    ValidatorService.validate_extraction E self original_text tests w = (inr d, w')
    /\ dict_get "status" d = Some status
    /\ dict_get "reason" d = Some (dict_get_or response "reason" PNone)
    /\ dict_get "confidence" d
       = Some (dict_get_or response "confidence" (PFloat (S754_zero false)))
    /\ dict_get "tests" d = if eq_str status "ok" then Some tests else None.
Proof.
  intros Ht Hg Hs.
  unfold ValidatorService.validate_extraction, try_except.
  rewrite validate_extraction_body_call by assumption. rewrite Hg, Hs.
  eexists. split; [reflexivity |].
  destruct (eq_str status "ok"); repeat split.
Qed.

(** X15.  [validate_extraction] sends one request, for the validation
    prompt of the text and the tests, when the tests count as true, and
    none when they do not. *)
Theorem validate_extraction_requests (tests : pyval) (w : world) :
  snd (ValidatorService.validate_extraction E self original_text tests w)
  = if truthy tests
    then (w ++ [LLMService.request_of E (ValidatorService.llm self)
                  (validation_prompt original_text tests)])%list
    else w.
Proof.
  unfold ValidatorService.validate_extraction, try_except.
  destruct (truthy tests) eqn:Ht.
  - rewrite validate_extraction_body_call by assumption.
    pose proof (generate_json_log E (ValidatorService.llm self)
                  (validation_prompt original_text tests) w) as Hlog.
    destruct (LLMService.generate_json _ _ _ _) as [[e | result] w'];
      cbn [snd] in Hlog; subst w'; [reflexivity |].
    destruct (dict_get "status" result); reflexivity.
  - unfold ValidatorService.validate_extraction_body. rewrite Ht. reflexivity.
Qed.

End ValidationMore.

(** ** The pipeline routes: outcomes, requests and early exits *)

Section PipelineMore.

Variable E : Env.

Lemma validate_extraction_returns (self : ValidatorService.t) (original_text : string)
      (tests : pyval) (w : world) :
  exists d w',
    ValidatorService.validate_extraction E self original_text tests w = (inr d, w').
Proof.
  unfold ValidatorService.validate_extraction, try_except.
  destruct (ValidatorService.validate_extraction_body _ _ _ _ _) as [[e | d] w'];
    eexists _, _; reflexivity.
Qed.

(** The "tests" entry of a validation result, read with the extracted
    tests as default, is always the extracted tests. *)
Lemma validate_extraction_tests_default (self : ValidatorService.t)
      (original_text : string) (tests : pyval) (w w' : world) (d : dict) :
  ValidatorService.validate_extraction E self original_text tests w = (inr d, w') ->
  dict_get_or d "tests" tests = tests.
Proof.
  unfold ValidatorService.validate_extraction, try_except.
  destruct (truthy tests) eqn:Ht.
  - rewrite validate_extraction_body_call by assumption.
    destruct (LLMService.generate_json _ _ _ _) as [[e | result] w1].
    + intros H. inversion H. reflexivity.
    + destruct (dict_get "status" result) as [status |].
      * intros H. inversion H. destruct (eq_str status "ok"); reflexivity.
      * intros H. inversion H. reflexivity.
  - unfold ValidatorService.validate_extraction_body. rewrite Ht. cbn.
    intros H. inversion H. reflexivity.
Qed.

(** Rejected tests that count as false have the status "unprocessed". *)
Lemma validate_extraction_falsy (self : ValidatorService.t)
      (original_text : string) (tests : pyval) (w w' : world) (d : dict) :
  truthy tests = false ->
  ValidatorService.validate_extraction E self original_text tests w = (inr d, w') ->
  d = ValidatorService.unprocessed "No tests extracted from input" /\ w' = w.
Proof.
  intros Ht. unfold ValidatorService.validate_extraction, try_except,
    ValidatorService.validate_extraction_body.
  rewrite Ht. cbn. intros H. inversion H. split; reflexivity.
Qed.

Lemma process_raw_text_outcome (raw_text : string) (w : world) (m : response_model) :
  fst (App.process_raw_text E raw_text w) = inr m -> binary_outcome m.
Proof.
  unfold App.process_raw_text, bindM, lift, construct, binary_outcome.
  destruct (NormalizerService.normalize_tests _ _ _ _) as [[e | nr] w1];
    [discriminate |].
  destruct (dict_item nr "tests") as [e | tests]; [discriminate |].
  destruct (ValidatorService.validate_extraction _ _ _ _ _) as [[e | vr] w2];
    [discriminate |].
  destruct (dict_item vr "status") as [e | status]; [discriminate |].
  destruct (eq_str status "unprocessed").
  - destruct (dict_item vr "reason") as [e | reason]; [discriminate |].
    destruct (validation_error E _); [discriminate |].
    cbn. intros H. inversion H. right. eauto.
  - destruct (SummarizerService.generate_summary _ _ _ _) as [[e | sr] w3];
      [discriminate |].
    destruct (dict_item sr "summary") as [e | summary]; [discriminate |].
    destruct (dict_item sr "explanations") as [e | explanations]; [discriminate |].
    destruct (validation_error E _); [discriminate |].
    cbn. intros H. inversion H. left. eauto.
Qed.

Lemma processing_error_outcome (e : exn) (w : world) :
  accepts_strings E ->
  App.processing_error E e w
  = (inr (ErrorResponse (PStr "unprocessed")
            (PStr ("Processing error: " ++ str_of_exn e))), w).
Proof.
  intros Hacc. unfold App.processing_error, lift, construct.
  rewrite Hacc. reflexivity.
Qed.

(** X16.  Provided an error response built from two strings is valid,
    neither pipeline route ever raises: each returns a final response with
    status "ok" or an error response with status "unprocessed". *)
Theorem pipeline_routes_binary_outcome :
  accepts_strings E ->
  (forall (input_data : App.TextInput) (w : world),
      exists m, fst (App.process_text_report E input_data w) = inr m
                /\ binary_outcome m)
  /\ (forall (file : App.UploadFile) (w : world),
         exists m, fst (App.process_image_report E file w) = inr m
                   /\ binary_outcome m).
Proof.
  intros Hacc.
  assert (Hraw : forall raw_text w,
             exists m, fst (try_except (App.process_raw_text E raw_text)
                              (App.processing_error E) w) = inr m
                       /\ binary_outcome m).
  { intros raw_text w. unfold try_except.
    destruct (App.process_raw_text E raw_text w) as [[e | m] w1] eqn:Hrun.
    - rewrite processing_error_outcome by assumption.
      eexists. split; [reflexivity |]. right. eauto.
    - exists m. split; [reflexivity |].
      apply (process_raw_text_outcome raw_text w). rewrite Hrun. reflexivity. }
  split.
  - intros input_data w. apply Hraw.
  - intros file w.
    assert (Herr : forall e w1,
               exists m, fst (App.processing_error E e w1) = inr m
                         /\ binary_outcome m).
    { intros e w1. rewrite processing_error_outcome by assumption.
      eexists. split; [reflexivity |]. right. eauto. }
    assert (Hafter : forall ocr : ocr_result,
               exists m,
                 fst (match
                         (if Float.ltb (ocr_confidence ocr) (Float.decimal 3 1)
                          then lift (construct E
                                  (ErrorResponse (PStr "unprocessed")
                                     (PStr ("OCR confidence too low: "
                                              ++ float_repr E (ocr_confidence ocr)))))
                          else App.process_raw_text E (raw_text ocr)) w
                       with
                       | (inl e, w') => App.processing_error E e w'
                       | (inr a, w') => (inr a, w')
                       end) = inr m
                 /\ binary_outcome m).
    { intros ocr. destruct (Float.ltb _ _).
      - unfold lift, construct. rewrite Hacc. cbn [model_of str_field].
        eexists. split; [reflexivity |]. right. eauto.
      - apply (Hraw (raw_text ocr) w). }
    unfold App.process_image_report, try_except, bindM.
    destruct (App.read file) as [e | file_bytes]; cbn [lift]; [apply Herr |].
    destruct (App.startswith (App.content_type file) "image/") as [e | is_image];
      [apply Herr |].
    destruct is_image.
    + destruct (OCRService.extract_from_image E _ file_bytes) as [e | ocr];
        [apply Herr | apply Hafter].
    + destruct (App.content_type_is (App.content_type file) "application/pdf").
      * destruct (OCRService.extract_from_pdf E _ file_bytes) as [e | ocr];
          [apply Herr | apply Hafter].
      * unfold construct. rewrite Hacc. cbn [model_of str_field].
        eexists. split; [reflexivity |]. right. eauto.
Qed.

Lemma validate_extraction_log_le (self : ValidatorService.t) (original_text : string)
      (tests : pyval) (w : world) :
  exists l, snd (ValidatorService.validate_extraction E self original_text tests w)
            = (w ++ l)%list /\ (List.length l <= 1)%nat.
Proof.
  rewrite validate_extraction_log. destruct (truthy tests).
  - eexists. split; [reflexivity | cbn; lia].
  - exists []. split; [rewrite app_nil_r; reflexivity | cbn; lia].
Qed.

Lemma generate_summary_log_le (self : SummarizerService.t) (tests : pyval)
      (w : world) :
  exists l, snd (SummarizerService.generate_summary E self tests w)
            = (w ++ l)%list /\ (List.length l <= 1)%nat.
Proof.
  destruct (truthy tests) eqn:Ht.
  - rewrite generate_summary_log by assumption.
    eexists. split; [reflexivity | cbn; lia].
  - unfold SummarizerService.generate_summary, try_except,
      SummarizerService.generate_summary_body. rewrite Ht. cbn.
    exists []. split; [rewrite app_nil_r; reflexivity | cbn; lia].
Qed.

Lemma process_raw_text_log (raw_text : string) (w : world) :
  exists added,
    snd (App.process_raw_text E raw_text w)
    = (w ++ LLMService.request_of E
              (NormalizerService.llm (App.normalizer_service E))
              (normalization_prompt raw_text) :: added)%list
    /\ (List.length added <= 2)%nat.
Proof.
  unfold App.process_raw_text, bindM.
  pose proof (normalize_tests_log E (App.normalizer_service E) raw_text w) as H1.
  destruct (NormalizerService.normalize_tests _ _ _ _) as [[e | nr] w1];
    cbn [snd] in H1; subst w1.
  { exists []. split; [reflexivity | cbn; lia]. }
  unfold lift at 1.
  destruct (dict_item nr "tests") as [e | tests].
  { exists []. split; [reflexivity | cbn; lia]. }
  destruct (validate_extraction_log_le (App.validator_service E) raw_text tests
              (w ++ [LLMService.request_of E
                       (NormalizerService.llm (App.normalizer_service E))
                       (normalization_prompt raw_text)])%list)
    as (l2 & H2 & Hl2).
  destruct (ValidatorService.validate_extraction _ _ _ _ _) as [[e | vr] w2];
    cbn [snd] in H2; subst w2.
  { exists l2. split; [rewrite <- app_assoc; reflexivity | lia]. }
  unfold lift at 1.
  destruct (dict_item vr "status") as [e | status].
  { exists l2. split; [rewrite <- app_assoc; reflexivity | lia]. }
  destruct (eq_str status "unprocessed").
  { unfold lift. destruct (dict_item vr "reason") as [e | reason];
      [| destruct (construct E _)];
      (exists l2; split; [rewrite <- app_assoc; reflexivity | lia]). }
  match goal with
  | |- context [SummarizerService.generate_summary E ?s ?t ?w0] =>
      destruct (generate_summary_log_le s t w0) as (l3 & H3 & Hl3);
      destruct (SummarizerService.generate_summary E s t w0) as [[e | sr] w3];
      cbn [snd] in H3; subst w3
  end.
  { exists (l2 ++ l3)%list.
    split; [rewrite <- !app_assoc; reflexivity | rewrite length_app; lia]. }
  unfold lift.
  destruct (dict_item sr "summary") as [e | summary];
    [| destruct (dict_item sr "explanations") as [e | explanations];
       [| destruct (construct E _)]];
    (exists (l2 ++ l3)%list;
     split; [rewrite <- !app_assoc; reflexivity | rewrite length_app; lia]).
Qed.

(** X17.  A run of the text route sends the normalization request for the
    text first and at most two requests after it, whatever the model
    answers: nothing is retried. *)
Theorem process_text_report_requests (input_data : App.TextInput) (w : world) :
  exists added : list request,
    snd (App.process_text_report E input_data w)
    = (w ++ LLMService.request_of E
              (NormalizerService.llm (App.normalizer_service E))
              (normalization_prompt (App.text_ input_data)) :: added)%list
    /\ (List.length added <= 2)%nat.
Proof.
  destruct (process_raw_text_log (App.text_ input_data) w) as (added & Hlog & Hlen).
  exists added. split; [| exact Hlen].
  unfold App.process_text_report, try_except.
  destruct (App.process_raw_text E (App.text_ input_data) w) as [[e | m] w1];
    cbn [snd] in Hlog; subst w1; reflexivity.
Qed.

End PipelineMore.

Section PipelineExits.

Variable E : Env.
Hypothesis Hacc : accepts_strings E.

(** X18.  An upload whose content type neither starts with "image/" nor
    is "application/pdf" is answered, once its bytes are read, with the
    error response "Unsupported file type: <type>", without OCR and
    without any request to the model; an upload without a content type is
    answered with
    "Processing error: 'NoneType' object has no attribute 'startswith'".
    The bytes are read first: when reading them raises [e], either upload
    is answered with "Processing error: " followed by [str(e)]. *)
Theorem process_image_report_unsupported_type
        (file : App.UploadFile) (w : world) :
  (forall content_type : string,
      App.content_type file = Some content_type ->
      String.prefix "image/" content_type = false ->
      content_type <> "application/pdf" ->
      App.process_image_report E file w
      = (inr (ErrorResponse (PStr "unprocessed")
                (PStr (match App.read file with
                       | inr _ => "Unsupported file type: " ++ content_type
                       | inl e => "Processing error: " ++ str_of_exn e
                       end))), w))
  /\ (App.content_type file = None ->
      App.process_image_report E file w
      = (inr (ErrorResponse (PStr "unprocessed")
                (PStr (match App.read file with
                       | inr _ =>
                           "Processing error: 'NoneType' object has no attribute 'startswith'"
                       | inl e => "Processing error: " ++ str_of_exn e
                       end))), w)).
Proof.
  split.
  - intros content_type Hct Himg Hpdf.
    unfold App.process_image_report, try_except, bindM.
    destruct (App.read file) as [e | file_bytes]; cbn [lift].
    + apply processing_error_outcome, Hacc.
    + rewrite Hct. cbn [lift App.startswith ret]. rewrite Himg.
      cbn [App.content_type_is].
      destruct (String.eqb_spec content_type "application/pdf"); [contradiction |].
      unfold construct. rewrite Hacc. reflexivity.
  - intros Hct.
    unfold App.process_image_report, try_except, bindM.
    destruct (App.read file) as [e | file_bytes]; cbn [lift].
    + apply processing_error_outcome, Hacc.
    + rewrite Hct. cbn [lift App.startswith].
      apply processing_error_outcome, Hacc.
Qed.

(** X19.  When the OCR of the upload succeeds with a confidence below 0.3,
    the image route answers with the error response
    "OCR confidence too low: <confidence>" and sends no request to the
    model; the bound is the literal 0.3, whatever the configured OCR
    threshold. *)
Theorem process_image_report_low_confidence
        (file : App.UploadFile) (ocr : ocr_result) (w : world) :
  ocr_outcome E file (inr ocr) ->
  Float.ltb (ocr_confidence ocr) (Float.decimal 3 1) = true ->
  App.process_image_report E file w
  = (inr (ErrorResponse (PStr "unprocessed")
            (PStr ("OCR confidence too low: "
                     ++ float_repr E (ocr_confidence ocr)))), w).
Proof.
  intros (file_bytes & Hread & Hocr) Hlow.
  unfold App.process_image_report, try_except, bindM.
  rewrite Hread. cbn [lift].
  destruct Hocr as [[Himg Hx] | (Himg & Hpdf & Hx)]; rewrite Himg.
  - rewrite Hx, Hlow. unfold construct. rewrite Hacc. reflexivity.
  - rewrite Hpdf, Hx, Hlow. unfold construct. rewrite Hacc. reflexivity.
Qed.

(** X20.  When extraction returns no test, the text route answers
    "No tests extracted from input" after the single request of the
    extraction: the model is asked neither to validate nor to summarize. *)
Theorem process_text_report_no_tests
        (input_data : App.TextInput) (w w1 : world) (normalized_result : dict) :
  NormalizerService.normalize_tests E (App.normalizer_service E)
    (App.text_ input_data) w = (inr normalized_result, w1) ->
  dict_get "tests" normalized_result = Some (PList []) ->
  App.process_text_report E input_data w
  = (inr (ErrorResponse (PStr "unprocessed")
            (PStr "No tests extracted from input")),
     (w ++ [LLMService.request_of E
              (NormalizerService.llm (App.normalizer_service E))
              (normalization_prompt (App.text_ input_data))])%list).
Proof.
  intros Hn Ht.
  pose proof (normalize_tests_log E (App.normalizer_service E)
                (App.text_ input_data) w) as Hlog.
  rewrite Hn in Hlog. cbn [snd] in Hlog. subst w1.
  unfold App.process_text_report. apply try_except_inr.
  apply (process_raw_text_rejected E _ _ w _ (PList [])
           (ValidatorService.unprocessed "No tests extracted from input"));
    [assumption | | reflexivity | reflexivity].
  eexists _, _. split; [exact Hn |]. split; [exact Ht | reflexivity].
Qed.

Lemma generate_summary_raises (self : SummarizerService.t) (tests : pyval)
      (w w' : world) (e : exn) :
  SummarizerService.generate_summary E self tests w = (inl e, w') ->
  exists cause, e = Exception ("Summarization failed: " ++ cause).
Proof.
  unfold SummarizerService.generate_summary, try_except.
  destruct (SummarizerService.generate_summary_body _ _ _ _) as [[e0 | d] w1];
    intros H; inversion H. eexists. reflexivity.
Qed.

(** X21.  When validation lets the tests through and the summarization
    stage raises, the text route returns no tests: it answers with the
    error response "Processing error: Summarization failed: ...". *)
Theorem process_text_report_summary_failure
        (input_data : App.TextInput) (w w2 w3 : world)
        (tests status : pyval) (validation_result : dict) (e : exn) :
  validation_returns E (App.text_ input_data) w tests validation_result w2 ->
  dict_get "status" validation_result = Some status ->
  eq_str status "unprocessed" = false ->
  SummarizerService.generate_summary E (App.summarizer_service E) tests w2
  = (inl e, w3) ->
  App.process_text_report E input_data w
  = (inr (ErrorResponse (PStr "unprocessed")
            (PStr ("Processing error: " ++ str_of_exn e))), w3)
  /\ exists cause, str_of_exn e = "Summarization failed: " ++ cause.
Proof.
  intros (nr & w1 & Hn & Ht & Hv) Hs Hne Hsum. split.
  - assert (Hbody : App.process_raw_text E (App.text_ input_data) w = (inl e, w3)).
    { unfold App.process_raw_text, bindM.
      rewrite Hn. unfold lift at 1, dict_item at 1. rewrite Ht. cbn [ret].
      rewrite Hv. unfold lift at 1, dict_item at 1. rewrite Hs. cbn [ret].
      rewrite Hne.
      rewrite (validate_extraction_tests_default E _ _ _ _ _ _ Hv).
      rewrite Hsum. reflexivity. }
    unfold App.process_text_report.
    rewrite (try_except_inl _ _ _ _ _ Hbody).
    apply processing_error_outcome, Hacc.
  - apply generate_summary_raises in Hsum as [cause ->].
    exists cause. reflexivity.
Qed.

End PipelineExits.

Section PermissiveStatus.

Variable E : Env.

(** X22.  Only the exact status "unprocessed" stops the text route: when
    validation returns any other status, the summarization stage is asked
    for the summary of the extracted tests, and a final response, when one
    is built, holds what pydantic makes of the extracted tests as a list
    of [Test] models. *)
Theorem process_text_report_other_status
        (input_data : App.TextInput) (w w2 : world)
        (tests status : pyval) (validation_result : dict) :
  validation_returns E (App.text_ input_data) w tests validation_result w2 ->
  dict_get "status" validation_result = Some status ->
  eq_str status "unprocessed" = false ->
  snd (App.process_text_report E input_data w)
  = (w2 ++ [LLMService.request_of E
              (SummarizerService.llm (App.summarizer_service E))
              (summary_prompt tests)])%list
  /\ forall tests' summary explanations status',
      fst (App.process_text_report E input_data w)
      = inr (FinalResponse tests' summary explanations status') ->
      tests' = pydantic_value E List_Test tests.
Proof.
  intros Hv Hs Hne.
  assert (Ht : truthy tests = true).
  { destruct (truthy tests) eqn:Ht; [reflexivity |].
    destruct Hv as (nr & w1 & _ & _ & Hv).
    destruct (validate_extraction_falsy E _ _ _ _ _ _ Ht Hv) as [-> _].
    cbn in Hs. inversion Hs; subst. discriminate. }
  assert (Hget : dict_get_or validation_result "tests" tests = tests).
  { destruct Hv as (nr & w1 & _ & _ & Hv).
    apply (validate_extraction_tests_default E _ _ _ _ _ _ Hv). }
  destruct (process_raw_text_continues E _ w w2 tests status validation_result
              Hv Hs Hne Hget) as [Hlog Hfinal].
  rewrite generate_summary_log in Hlog by assumption.
  unfold App.process_text_report, try_except.
  destruct (App.process_raw_text E (App.text_ input_data) w) as [[e | m] w3].
  - cbn [snd] in Hlog. subst w3. split.
    + apply processing_error_log.
    + intros tests' summary explanations status' H.
      apply processing_error_not_final in H as [reason H]. discriminate.
  - cbn [snd] in Hlog. subst w3. split; [reflexivity |].
    intros tests' summary explanations status' H. cbn [fst] in H.
    destruct (Hfinal m eq_refl) as (s' & e' & Hm).
    inversion H; subst. inversion H1. reflexivity.
Qed.

(** X23.  Every failure of the OCR route reaches the caller as an HTTP
    error with status 500: a failure of the OCR carries the text of its
    exception as detail, and the 400 raised inside the route for an
    unsupported content type is itself caught and replaced by a 500. *)
Theorem extract_text_errors_are_500 (file : App.UploadFile) :
  (forall e : exn,
      App.extract_text E file = inl e ->
      exists detail, e = HTTPException 500 detail)
  /\ (forall e : exn,
         ocr_outcome E file (inl e) ->
         App.extract_text E file = inl (HTTPException 500 (str_of_exn e)))
  /\ (forall (file_bytes : bytes) (content_type : string),
         App.read file = inr file_bytes ->
         App.content_type file = Some content_type ->
         String.prefix "image/" content_type = false ->
         content_type <> "application/pdf" ->
         exists detail,
           App.extract_text E file = inl (HTTPException 500 detail)).
Proof.
  split; [| split].
  - intros e. unfold App.extract_text, try_result.
    match goal with
    | |- match ?b with _ => _ end = _ -> _ => destruct b as [e0 | r]
    end; intros H; inversion H. eauto.
  - intros e (file_bytes & Hread & Hocr).
    unfold App.extract_text, try_result. rewrite Hread. cbn [bind].
    destruct Hocr as [[Himg Hx] | (Himg & Hpdf & Hx)]; rewrite Himg; cbn [bind].
    + rewrite Hx. reflexivity.
    + rewrite Hpdf, Hx. reflexivity.
  - intros file_bytes content_type Hread Hct Himg Hpdf.
    unfold App.extract_text, try_result. rewrite Hread, Hct.
    cbn [bind App.startswith ret]. rewrite Himg. cbn [App.content_type_is].
    destruct (String.eqb_spec content_type "application/pdf"); [contradiction |].
    eexists. reflexivity.
Qed.

(** X24.  The normalization route turns every failure into an HTTP error
    with status 500; when [normalize_tests] raises, the detail is its
    message, which starts with "Normalization failed: ". *)
Theorem normalize_route_errors_are_500 (input_data : App.TextInput) (w : world) :
  (forall (e : exn) (w' : world),
      App.normalize_tests E input_data w = (inl e, w') ->
      exists detail, e = HTTPException 500 detail)
  /\ (forall (e : exn) (w' : world),
         NormalizerService.normalize_tests E (App.normalizer_service E)
           (App.text_ input_data) w = (inl e, w') ->
         App.normalize_tests E input_data w
         = (inl (HTTPException 500 (str_of_exn e)), w')
         /\ exists cause, str_of_exn e = "Normalization failed: " ++ cause).
Proof.
  split.
  - intros e w'. unfold App.normalize_tests, try_except.
    match goal with
    | |- match ?b with _ => _ end = _ -> _ => destruct b as [[e0 | r] w1]
    end; intros H; inversion H. eauto.
  - intros e w' Hn. split.
    + unfold App.normalize_tests, try_except, bindM. rewrite Hn. reflexivity.
    + unfold NormalizerService.normalize_tests, try_except in Hn.
      destruct (NormalizerService.normalize_tests_body _ _ _ _) as [[e0 | d] w1];
        inversion Hn. eexists. reflexivity.
Qed.

End PermissiveStatus.

(** ** Text acquisition: lines, single pages and failing pages *)

Section AcquisitionMore.

Lemma lstrip_head (s : string) :
  str_lstrip s = ""
  \/ exists c r, str_lstrip s = String c r /\ isspace c = false.
Proof.
  induction s as [| a s IH]; cbn; [left; reflexivity |].
  destruct (isspace a) eqn:Ha; [exact IH | right; eauto].
Qed.

Lemma rstrip_head (c : ascii) (r : string) :
  isspace c = false ->
  exists r', str_rstrip (String c r) = String c r'.
Proof.
  intros Hc. cbn. rewrite Hc. destruct (str_rstrip r); eauto.
Qed.

Lemma rstrip_idempotent (s : string) :
  str_rstrip (str_rstrip s) = str_rstrip s.
Proof.
  induction s as [| a s IH]; cbn; [reflexivity |].
  destruct (str_rstrip s) as [| b r] eqn:Hr.
  - destruct (isspace a) eqn:Ha; cbn; [reflexivity | rewrite Ha; reflexivity].
  - change (str_rstrip (String a (String b r)))
      with (match str_rstrip (String b r) with
            | EmptyString => if isspace a then EmptyString else String a EmptyString
            | String x y => String a (String x y)
            end).
    rewrite IH. reflexivity.
Qed.

(** Stripping twice is stripping once. *)
Lemma strip_idempotent (s : string) : str_strip (str_strip s) = str_strip s.
Proof.
  unfold str_strip.
  destruct (lstrip_head s) as [-> | (c & r & -> & Hc)]; [reflexivity |].
  destruct (rstrip_head c r Hc) as [r' Hr].
  assert (Hl : str_lstrip (str_rstrip (String c r)) = str_rstrip (String c r)).
  { rewrite Hr. cbn. rewrite Hc. reflexivity. }
  rewrite Hl. apply rstrip_idempotent.
Qed.

Lemma split_no_separator (sep : ascii) (s : string) :
  Forall (fun piece => occurs sep piece = false) (str_split sep s).
Proof.
  induction s as [| a s IH]; cbn.
  - constructor; [reflexivity | constructor].
  - destruct (Ascii.eqb a sep) eqn:Ha.
    + constructor; [reflexivity | exact IH].
    + destruct (str_split sep s) as [| first others].
      * constructor; [cbn; rewrite Ha; reflexivity | constructor].
      * inversion IH; subst. constructor; [cbn; rewrite Ha; assumption | assumption].
Qed.

Lemma stripped_lines_clean (text : string) :
  Forall clean_line (stripped_lines text).
Proof.
  unfold stripped_lines. apply Forall_forall. intros line Hin.
  apply in_map_iff in Hin as (piece & <- & Hin).
  apply filter_In in Hin as [Hin Hne].
  pose proof (split_no_separator newline text) as Hsep.
  rewrite Forall_forall in Hsep. specialize (Hsep piece Hin).
  repeat split.
  - intros Heq. rewrite Heq in Hne. discriminate.
  - apply strip_idempotent.
  - apply occurs_strip, Hsep.
Qed.

Variable E : Env.
Variable self : OCRService.t.

Lemma process_pages_lines (images : list image) :
  forall acc acc',
    OCRService.process_pages E images acc = inr acc' ->
    Forall clean_line (OCRService.all_lines acc) ->
    Forall clean_line (OCRService.all_lines acc').
Proof.
  induction images as [| image rest IH]; intros acc acc'; cbn.
  - intros H. inversion H. auto.
  - destruct (image_to_data E image) as [e | conf]; [discriminate |].
    destruct (image_to_string E image) as [e | page_text]; [discriminate |].
    cbn [bind]. intros H Hacc. apply IH in H; [exact H |].
    cbn [OCRService.all_lines]. apply Forall_app. split; [exact Hacc |].
    apply stripped_lines_clean.
Qed.

(** X25.  Every line that the OCR functions return, for an image or for
    a document, is non-empty, has no white space at either end and holds
    no line break. *)
Theorem ocr_lines_are_clean (file_bytes : bytes) (r : ocr_result) :
  OCRService.extract_from_image E self file_bytes = inr r
  \/ OCRService.extract_from_pdf E self file_bytes = inr r ->
  Forall clean_line (lines r).
Proof.
  intros [H | H].
  - unfold OCRService.extract_from_image, try_result in H.
    destruct (Image_open E file_bytes) as [e | image]; [discriminate |].
    cbn [bind] in H.
    destruct (image_to_data E image) as [e | conf]; [discriminate |].
    cbn [bind] in H.
    destruct (image_to_string E image) as [e | text]; [discriminate |].
    cbn [bind] in H.
    destruct (OCRService.average_confidence _) as [e | avg]; [discriminate |].
    inversion H. apply stripped_lines_clean.
  - unfold OCRService.extract_from_pdf, try_result in H.
    destruct (convert_from_bytes E file_bytes) as [e | images]; [discriminate |].
    cbn [bind] in H.
    destruct (OCRService.process_pages E images _) as [e | acc] eqn:Hp;
      [discriminate |].
    cbn [bind] in H.
    destruct (OCRService.average_confidence _) as [e | avg]; [discriminate |].
    inversion H. cbn [lines].
    apply (process_pages_lines images _ acc Hp). constructor.
Qed.

(** X26.  A document of one page gives the result that the image of this
    page gives: the same text, lines and confidence. *)
Theorem single_page_pdf_as_image (image_bytes pdf_bytes : bytes) (page : image) :
  Image_open E image_bytes = inr page ->
  convert_from_bytes E pdf_bytes = inr [page] ->
  forall r : ocr_result,
    OCRService.extract_from_image E self image_bytes = inr r
    <-> OCRService.extract_from_pdf E self pdf_bytes = inr r.
Proof.
  intros Ho Hc r.
  unfold OCRService.extract_from_image, OCRService.extract_from_pdf, try_result.
  rewrite Ho, Hc. cbn [bind OCRService.process_pages].
  destruct (image_to_data E page) as [e | conf]; cbn [bind];
    [split; discriminate |].
  destruct (image_to_string E page) as [e | text]; cbn [bind ret];
    [split; discriminate |].
  cbn [OCRService.all_confidences OCRService.all_text OCRService.all_lines app].
  replace (match OCRService.positive_confidences conf with
           | [] => []
           | _ :: _ => OCRService.positive_confidences conf
           end) with (OCRService.positive_confidences conf)
    by (destruct (OCRService.positive_confidences conf); reflexivity).
  destruct (OCRService.average_confidence _) as [e | avg]; cbn [bind ret];
    [split; discriminate |].
  cbn [String.concat]. reflexivity.
Qed.

(** X27.  When the OCR fails on some page of a document, on its tokens or
    on its text, [extract_from_pdf] raises "PDF OCR failed: ..." and the
    pages already read are not returned. *)
Theorem extract_from_pdf_page_failure
        (pdf_bytes : bytes) (images : list image) (page : image) :
  convert_from_bytes E pdf_bytes = inr images ->
  In page images ->
  (exists e, image_to_data E page = inl e)
  \/ (exists e, image_to_string E page = inl e) ->
  exists cause : string,
    OCRService.extract_from_pdf E self pdf_bytes
    = inl (Exception ("PDF OCR failed: " ++ cause)).
Proof.
  intros Hc Hin Hfail.
  assert (Hpages : forall acc, exists e, OCRService.process_pages E images acc = inl e).
  { clear Hc. induction images as [| image rest IH]; [contradiction |].
    intros acc. cbn.
    destruct Hin as [-> | Hin].
    - destruct Hfail as [[e He] | [e He]].
      + rewrite He. eexists. reflexivity.
      + destruct (image_to_data E page); [eexists; reflexivity |].
        rewrite He. eexists. reflexivity.
    - destruct (image_to_data E image); [eexists; reflexivity |].
      destruct (image_to_string E image); [eexists; reflexivity |].
      cbn [bind]. apply IH, Hin. }
  unfold OCRService.extract_from_pdf, try_result. rewrite Hc. cbn [bind].
  destruct (Hpages {| OCRService.all_text := []; OCRService.all_lines := [];
                      OCRService.all_confidences := [] |}) as [e He].
  rewrite He. eexists. reflexivity.
Qed.

End AcquisitionMore.

(** ** The further properties on concrete runs *)

Lemma generate_json_bad_status_witness :
  fst (LLMService.generate_json Scenario.failing Scenario.llm Scenario.ask [])
  = inl (Exception "LLM generation failed: Ollama API failed with status 500").
Proof.
  rewrite (generate_json_bad_status Scenario.failing Scenario.llm Scenario.ask []
             {| status_code := 500;
                text := "Internal Server Error";
                json_body := throw (JSONDecodeError "Expecting value") |});
    [reflexivity | reflexivity | discriminate].
Defined.

Lemma generate_json_transport_failure_witness :
  fst (LLMService.generate_json Example.offline Scenario.llm Scenario.ask [])
  = inl (Exception "LLM generation failed: connection refused").
Proof.
  rewrite (generate_json_transport_failure Example.offline Scenario.llm
             Scenario.ask [] (OtherError "ConnectionError" "connection refused"));
    reflexivity.
Defined.

Lemma generate_json_empty_completion_witness :
  fst (LLMService.generate_json Scenario.mute Scenario.llm Scenario.ask [])
  = inl (Exception "LLM generation failed: Empty response from Ollama").
Proof.
  apply (generate_json_empty_completion Scenario.mute Scenario.llm Scenario.ask []
           {| status_code := 200; text := "{}";
              json_body := ret (PDict [("done", PBool true)]) |}
           [("done", PBool true)]);
    [reflexivity | reflexivity | reflexivity | left; reflexivity].
Defined.

Lemma generate_json_error_prefix_witness :
  exists cause : string,
    Exception "Invalid JSON from LLM: Extra data"
    = Exception ("Invalid JSON from LLM: " ++ cause)
    \/ Exception "Invalid JSON from LLM: Extra data"
       = Exception ("LLM generation failed: " ++ cause).
Proof.
  eapply (generate_json_error_prefix
            (Stub.env [Stub.completion Example.trailing_brace])
            Scenario.llm Scenario.ask []).
  vm_compute. reflexivity.
Defined.

Lemma normalize_tests_missing_tests_witness :
  fst (NormalizerService.normalize_tests Scenario.without_tests
         (App.normalizer_service Example.offline) "Hb: 8.5 g/dL" [])
  = inl (Exception "Normalization failed: LLM response missing 'tests' field").
Proof.
  erewrite (normalize_tests_missing_tests Scenario.without_tests
              (App.normalizer_service Example.offline) "Hb: 8.5 g/dL" []);
    [reflexivity | vm_compute; reflexivity | reflexivity].
Defined.

Lemma normalize_tests_confidence_default_witness :
  exists normalized,
    fst (NormalizerService.normalize_tests Scenario.unitless
           (App.normalizer_service Example.offline) "INR 1.1" [])
    = inr normalized
    /\ dict_get "normalization_confidence" normalized
       = Some (PFloat (Float.decimal 8 1)).
Proof.
  eexists. split; [vm_compute; reflexivity |].
  edestruct (normalize_tests_confidence_default Scenario.unitless
               (App.normalizer_service Example.offline) "INR 1.1" [])
    as [Hconf _].
  - vm_compute. reflexivity.
  - vm_compute. reflexivity.
  - exact Hconf.
Defined.

Lemma normalize_tests_only_complete_witness :
  exists kept,
    dict_get "tests"
      [("tests", PList [Example.hemoglobin]);
       ("normalization_confidence", PFloat (Float.decimal 9 1))]
    = Some (PList kept)
    /\ forallb complete kept = true.
Proof.
  eapply (normalize_tests_only_complete Example.accepting
            (App.normalizer_service Example.accepting) "Hb: 8.5 g/dL" []).
  vm_compute. reflexivity.
Defined.

Lemma normalize_tests_falsy_tests_witness :
  exists normalized w',
    NormalizerService.normalize_tests Scenario.null_tests
      (App.normalizer_service Example.offline) "Hb: 8.5 g/dL" []
    = (inr normalized, w')
    /\ dict_get "tests" normalized = Some (PList []).
Proof.
  edestruct (normalize_tests_falsy_tests Scenario.null_tests
               (App.normalizer_service Example.offline) "Hb: 8.5 g/dL" [])
    as (normalized & Hrun & Htests).
  - vm_compute. reflexivity.
  - reflexivity.
  - reflexivity.
  - eexists _, _. split; [exact Hrun | exact Htests].
Defined.

Lemma normalize_tests_non_object_candidate_witness :
  exists cause w',
    NormalizerService.normalize_tests Scenario.text_candidate
      (App.normalizer_service Example.offline) "Hb: 8.5 g/dL" []
    = (inl (Exception ("Normalization failed: " ++ cause)), w').
Proof.
  edestruct (normalize_tests_non_object_candidate Scenario.text_candidate
               (App.normalizer_service Example.offline) "Hb: 8.5 g/dL" [])
    as [cause Hrun].
  - vm_compute. reflexivity.
  - reflexivity.
  - right. left. reflexivity.
  - reflexivity.
  - eexists _, _. exact Hrun.
Defined.

Lemma generate_summary_missing_fields_witness :
  fst (SummarizerService.generate_summary Scenario.summary_only
         (App.summarizer_service Example.offline) (PList [Example.hemoglobin]) [])
  = inl (Exception "Summarization failed: LLM response missing required fields").
Proof.
  erewrite (generate_summary_missing_fields Scenario.summary_only
              (App.summarizer_service Example.offline)
              (PList [Example.hemoglobin]) []);
    [reflexivity | reflexivity | vm_compute; reflexivity | right; reflexivity].
Defined.

Lemma generate_summary_passes_response_witness :
  exists summary w',
    SummarizerService.generate_summary Scenario.summarizing
      (App.summarizer_service Example.offline) (PList [Example.hemoglobin]) []
    = (inr summary, w')
    /\ dict_get "status" summary = Some (PStr "ok").
Proof.
  edestruct (generate_summary_passes_response Scenario.summarizing
               (App.summarizer_service Example.offline)
               (PList [Example.hemoglobin])
               (PList [PDict [("text", PStr "Hemoglobin carries oxygen in the blood.");
                              ("test_name", PStr "Hemoglobin")]]) [])
    as (summary & Hrun & Hstatus & _).
  - reflexivity.
  - vm_compute. reflexivity.
  - reflexivity.
  - reflexivity.
  - reflexivity.
  - eexists _, _. split; [exact Hrun | exact Hstatus].
Defined.

Lemma generate_summary_explanations_without_length_witness :
  fst (SummarizerService.generate_summary Scenario.null_explanations
         (App.summarizer_service Example.offline) (PList [Example.hemoglobin]) [])
  = inl (Exception
           "Summarization failed: object of type 'NoneType' has no len()").
Proof.
  erewrite (generate_summary_explanations_without_length
              Scenario.null_explanations
              (App.summarizer_service Example.offline)
              (PList [Example.hemoglobin]) PNone []);
    [reflexivity | reflexivity | vm_compute; reflexivity
     | reflexivity | reflexivity | reflexivity].
Defined.

Lemma validate_extraction_forwards_witness :
  exists d w',
    ValidatorService.validate_extraction Scenario.doubtful
      (App.validator_service Example.offline) "Hb: 8.5 g/dL"
      (PList [Example.hemoglobin]) []
    = (inr d, w')
    /\ dict_get "status" d = Some (PStr "ok")
    /\ dict_get "confidence" d = Some (PFloat (Float.decimal 1 1))
    /\ dict_get "tests" d = Some (PList [Example.hemoglobin]).
Proof.
  edestruct (validate_extraction_forwards Scenario.doubtful
               (App.validator_service Example.offline) "Hb: 8.5 g/dL"
               (PList [Example.hemoglobin]) (PStr "ok") [])
    as (d & Hrun & Hs & _ & Hc & Ht).
  - reflexivity.
  - vm_compute. reflexivity.
  - reflexivity.
  - eexists _, _. split; [exact Hrun |]. split; [exact Hs |].
    split; [exact Hc | exact Ht].
Defined.

Lemma pipeline_routes_binary_outcome_witness :
  exists m,
    fst (App.process_text_report Example.offline Example.report []) = inr m
    /\ binary_outcome m.
Proof.
  destruct (pipeline_routes_binary_outcome Example.offline
              (stub_accepts_strings [])) as [Htext _].
  apply Htext.
Defined.

Lemma process_image_report_unsupported_type_witness :
  App.process_image_report Example.offline Scenario.plain_text []
  = (inr (ErrorResponse (PStr "unprocessed")
            (PStr "Unsupported file type: text/plain")), []).
Proof.
  destruct (process_image_report_unsupported_type Example.offline
              (stub_accepts_strings []) Scenario.plain_text []) as [Htype _].
  apply (Htype "text/plain"); [reflexivity | reflexivity | discriminate].
Defined.

Lemma process_image_report_low_confidence_witness :
  App.process_image_report Example.offline Scenario.faint_scan []
  = (inr (ErrorResponse (PStr "unprocessed")
            (PStr "OCR confidence too low: 0.15")), []).
Proof.
  rewrite (process_image_report_low_confidence Example.offline
             (stub_accepts_strings []) Scenario.faint_scan
             {| raw_text := String "020"%char "";
                lines := [String "020"%char ""];
                ocr_confidence := Float.decimal 15 2 |}).
  - vm_compute. reflexivity.
  - exists [Byte.x0a; Byte.x14]. split; [reflexivity |].
    left. split; [reflexivity | vm_compute; reflexivity].
  - vm_compute. reflexivity.
Defined.

Lemma process_text_report_no_tests_witness :
  fst (App.process_text_report Scenario.unitless
         {| App.text_ := "INR 1.1" |} [])
  = inr (ErrorResponse (PStr "unprocessed") (PStr "No tests extracted from input")).
Proof.
  erewrite (process_text_report_no_tests Scenario.unitless
              (stub_accepts_strings _) {| App.text_ := "INR 1.1" |} []).
  - reflexivity.
  - vm_compute. reflexivity.
  - reflexivity.
Defined.

Lemma process_text_report_summary_failure_witness :
  fst (App.process_text_report Scenario.cut_off Example.report [])
  = inr (ErrorResponse (PStr "unprocessed")
           (PStr "Processing error: Summarization failed: LLM generation failed: connection refused")).
Proof.
  edestruct (process_text_report_summary_failure Scenario.cut_off
               (stub_accepts_strings _) Example.report []) as [Hrun _].
  - eexists _, _.
    split; [vm_compute; reflexivity |].
    split; [vm_compute; reflexivity |].
    vm_compute. reflexivity.
  - reflexivity.
  - reflexivity.
  - vm_compute. reflexivity.
  - rewrite Hrun. reflexivity.
Defined.

Lemma process_text_report_other_status_witness :
  exists summary explanations status,
    fst (App.process_text_report Scenario.own_status Example.report [])
    = inr (FinalResponse (PList [Example.hemoglobin]) summary explanations status).
Proof.
  epose proof (process_text_report_other_status Scenario.own_status
                 Example.report [] _ (PList [Example.hemoglobin]) (PStr "rejected")
                 Scenario.rejected) as Hother.
  destruct Hother as [_ Hfinal].
  - eexists _, _.
    split; [vm_compute; reflexivity |].
    split; [vm_compute; reflexivity |].
    vm_compute. reflexivity.
  - reflexivity.
  - reflexivity.
  - destruct (fst (App.process_text_report Scenario.own_status Example.report []))
      as [e | [r | d | tests' summary explanations status | status reason]] eqn:Hrun;
      try (vm_compute in Hrun; discriminate).
    rewrite (Hfinal tests' summary explanations status eq_refl).
    eexists _, _, _. reflexivity.
Defined.

Lemma extract_text_errors_are_500_witness :
  App.extract_text Example.offline Example.unreadable
  = inl (HTTPException 500 "OCR failed: cannot identify image file").
Proof.
  destruct (extract_text_errors_are_500 Example.offline Example.unreadable)
    as (_ & Hocr & _).
  apply (Hocr (Exception "OCR failed: cannot identify image file")).
  exists []. split; [reflexivity |]. left. split; reflexivity.
Defined.

Lemma normalize_route_errors_are_500_witness :
  fst (App.normalize_tests Example.offline Example.report [])
  = inl (HTTPException 500
           "Normalization failed: LLM generation failed: connection refused").
Proof.
  destruct (normalize_route_errors_are_500 Example.offline Example.report [])
    as [_ Hraise].
  edestruct Hraise as [Hrun _].
  - vm_compute. reflexivity.
  - rewrite Hrun. reflexivity.
Defined.

Lemma ocr_lines_are_clean_witness :
  Forall clean_line ["Hb: 8.5 g/dL"].
Proof.
  apply (ocr_lines_are_clean Example.offline (App.ocr_service Example.offline)
           (list_byte_of_string "Hb: 8.5 g/dL")
           {| raw_text := "Hb: 8.5 g/dL"; lines := ["Hb: 8.5 g/dL"];
              ocr_confidence := Float.decimal 64 2 |}).
  left. vm_compute. reflexivity.
Defined.

Lemma single_page_pdf_as_image_witness :
  exists r,
    OCRService.extract_from_image Example.offline (App.ocr_service Example.offline)
      (list_byte_of_string "Hb: 8.5 g/dL") = inr r
    /\ OCRService.extract_from_pdf Example.offline (App.ocr_service Example.offline)
         (list_byte_of_string "Hb: 8.5 g/dL") = inr r.
Proof.
  eexists. split; [vm_compute; reflexivity |].
  apply (single_page_pdf_as_image Example.offline (App.ocr_service Example.offline)
           (list_byte_of_string "Hb: 8.5 g/dL")
           (list_byte_of_string "Hb: 8.5 g/dL")
           (Image (list_byte_of_string "Hb: 8.5 g/dL")));
    [reflexivity | reflexivity | vm_compute; reflexivity].
Defined.

Lemma extract_from_pdf_page_failure_witness :
  exists cause,
    OCRService.extract_from_pdf Scenario.blank_pages
      (App.ocr_service Scenario.blank_pages) Scenario.with_blank_page
    = inl (Exception ("PDF OCR failed: " ++ cause)).
Proof.
  apply (extract_from_pdf_page_failure Scenario.blank_pages
           (App.ocr_service Scenario.blank_pages) Scenario.with_blank_page
           [Image [Byte.x5a]; Image []] (Image [])).
  - reflexivity.
  - right. left. reflexivity.
  - right. eexists. reflexivity.
Defined.
